(** * whatsapp-web-group-actions: the bulk add / remove loops

    A shallow embedding of [addParticipantsToGroup]
    (add-participants-to-group.js) and [removeInactiveParticipants]
    (remove-inactive-from-group.js), and of the [SIGINT] handler both
    scripts install; then of the loop of send-messages.js and of the
    functions of convert-csv-to-json.js.

    The scripts talk to the WhatsApp session, to timers, to the clock and
    to the file system.  Every such interaction is a request of type [Req];
    a script is a finite tree of requests ([Prog]) whose continuation
    receives the answer, either a value or a thrown [Error].  A tree is run
    against any implementation of the [Session] interface by [interp],
    which also records the requests in the order they were issued.
    [console.log] output is not modelled. *)

From Stdlib Require Import String Ascii List Bool Arith Lia.
Import ListNotations.
Local Open Scope string_scope.
Local Open Scope list_scope.

Set Implicit Arguments.

(** ** Data of the chat library, as the scripts read it *)

(** [x.id.user] and [x.id._serialized]. *)
Record WId := { user : string; _serialized : string }.

(** An element of [group.participants]. *)
Record Participant := { p_id : WId; isAdmin : bool }.

(** A chat returned by [client.getChats()] or [client.getChatById()]. *)
Record Chat := {
  c_id : WId;
  name : string;
  isGroup : bool;
  participants : list Participant
}.

(** The [message] of a thrown JavaScript [Error]. *)
Abbreviation Error := string (only parsing).

(** ** JavaScript helpers *)

Fixpoint drop (n : nat) (s : string) : string :=
  match n, s with
  | O, _ => s
  | S _, EmptyString => EmptyString
  | S n', String _ s' => drop n' s'
  end.

(** [s.replace(pattern, replacement)] with a string pattern: only the first
    occurrence is replaced. *)
Fixpoint replace (pattern replacement s : string) : string :=
  if prefix pattern s then (replacement ++ drop (String.length pattern) s)%string
  else match s with
       | EmptyString => EmptyString
       | String c s' => String c (replace pattern replacement s')
       end.

(** [array.includes(x)] on an array of strings. *)
Definition includes (xs : list string) (x : string) : bool :=
  existsb (String.eqb x) xs.

(** Truthiness of a value that is [null] or a string. *)
Definition truthy (v : option string) : bool :=
  match v with
  | Some (String _ _) => true
  | _ => false
  end.

(** [iso.replace(/[:.]/g, '-').slice(0, 19)]. *)
Fixpoint dashes (s : string) : string :=
  match s with
  | EmptyString => EmptyString
  | String c s' =>
      String (if (Ascii.eqb c ":" || Ascii.eqb c ".")%bool then "-"%char else c)
             (dashes s')
  end.

Definition fileTimestamp (iso : string) : string := substring 0 19 (dashes iso).

(** ** Result records of the two scripts *)

Module Add.

Inductive Status := added | invited | already_in_group | failed.
Inductive Method := direct | invite_link | skipped | none | error_caught.

(** One element of [results]. *)
Record Outcome := {
  number : string;
  status : Status;
  method : Method;
  inviteLink : option string;
  error : option Error
}.

(** The object given to [JSON.stringify] at the end of the run. *)
Record Artifact := {
  groupName : string;
  timestamp : string;
  totalToProcess : nat;
  successCount : nat;
  inviteCount : nat;
  skipCount : nat;
  failCount : nat;
  results : list Outcome;
  alreadyInGroup : list string
}.

End Add.

Module Remove.

Inductive Status := removed | already_removed | failed.

Record Outcome := {
  number : string;
  status : Status;
  notificationSent : option bool;
  msgError : option Error;
  error : option Error
}.

Record Artifact := {
  groupName : string;
  timestamp : string;
  totalToProcess : nat;
  successCount : nat;
  failCount : nat;
  alreadyRemovedCount : nat;
  notificationsSent : nat;
  results : list Outcome;
  notInGroup : list string
}.

End Remove.

Inductive FileContent :=
| AddResults (a : Add.Artifact)
| RemovalResults (a : Remove.Artifact).

(** ** Requests and programs *)

Inductive Req :=
| GetChats                                             (* await client.getChats() *)
| GetChatById (chatId : string)                        (* await client.getChatById(id) *)
| GetInviteCode (group : string)                       (* await targetGroup.getInviteCode() *)
| AddParticipants (group : string) (ids : list string) (* await targetGroup.addParticipants(ids) *)
| RemoveParticipants (group : string) (ids : list string)
| SendMessage (to body : string)                       (* await client.sendMessage(to, body) *)
| SetTimeout (ms : nat)          (* await new Promise(resolve => setTimeout(resolve, ms)) *)
| ToISOString                                          (* new Date().toISOString() *)
| WriteFileSync (file : string) (data : FileContent)   (* fs.writeFileSync(file, JSON.stringify(data)) *)
| Destroy.                                             (* await client.destroy() *)

Definition Resp (e : Req) : Type :=
  match e with
  | GetChats => list Chat
  | GetChatById _ => Chat
  | GetInviteCode _ => string
  | ToISOString => string
  | _ => unit
  end.

(** The requests the script [await]s: the points where it is suspended and
    another handler of the process can run. *)
Definition awaited (e : Req) : bool :=
  match e with
  | ToISOString | WriteFileSync _ _ => false
  | _ => true
  end.

Inductive Prog (A : Type) : Type :=
| Ret (a : A)
| Vis (e : Req) (k : Error + Resp e -> Prog A).

Arguments Ret {A} a.
Arguments Vis {A} e k.

Fixpoint pbind {A B} (p : Prog A) (f : A -> Prog B) : Prog B :=
  match p with
  | Ret a => f a
  | Vis e k => Vis e (fun r => pbind (k r) f)
  end.

(** Code that can throw and that updates the local variables [S] of the
    enclosing function.  A [throw] keeps the updates made before it. *)
Definition M (S A : Type) : Type := S -> Prog ((Error + A) * S).

Definition ret {S A} (a : A) : M S A := fun s => Ret (inr a, s).

Definition throw {S A} (msg : Error) : M S A := fun s => Ret (inl msg, s).

Definition bind {S A B} (m : M S A) (f : A -> M S B) : M S B :=
  fun s => pbind (m s) (fun '(r, s') =>
    match r with
    | inl msg => Ret (inl msg, s')
    | inr a => f a s'
    end).

(** [try { body } catch (err) { handler err }]. *)
Definition tryCatch {S A} (body : M S A) (handler : Error -> M S A) : M S A :=
  fun s => pbind (body s) (fun '(r, s') =>
    match r with
    | inl msg => handler msg s'
    | inr a => Ret (inr a, s')
    end).

(** Issue a request; a failed request throws. *)
Definition call {S} (e : Req) : M S (Resp e) := fun s => Vis e (fun r => Ret (r, s)).

Definition get {S} : M S S := fun s => Ret (inr s, s).
Definition modify {S} (f : S -> S) : M S unit := fun s => Ret (inr tt, f s).

Definition when {S} (b : bool) (m : M S unit) : M S unit := if b then m else ret tt.

Declare Scope js_scope.
Delimit Scope js_scope with js.
Notation "x <- m ;; k" := (bind m (fun x => k))
  (at level 61, m at next level, right associativity) : js_scope.
Notation "m ;; k" := (bind m (fun _ => k))
  (at level 61, right associativity) : js_scope.
Local Open Scope js_scope.

(** ** The outside world *)

Class Session (W : Type) := {
  getChats : W -> W * (Error + list Chat);
  getChatById : string -> W -> W * (Error + Chat);
  getInviteCode : string -> W -> W * (Error + string);
  addParticipants : string -> list string -> W -> W * (Error + unit);
  removeParticipants : string -> list string -> W -> W * (Error + unit);
  sendMessage : string -> string -> W -> W * (Error + unit);
  setTimeout : nat -> W -> W;
  toISOString : W -> W * string;
  writeFileSync : string -> FileContent -> W -> W * (Error + unit);
  destroy : W -> W
}.

Section Interp.

Context {W : Type} `{Session W}.

Definition handle (e : Req) : W -> W * (Error + Resp e) :=
  match e return W -> W * (Error + Resp e) with
  | GetChats => getChats
  | GetChatById i => getChatById i
  | GetInviteCode g => getInviteCode g
  | AddParticipants g ids => addParticipants g ids
  | RemoveParticipants g ids => removeParticipants g ids
  | SendMessage to body => sendMessage to body
  | SetTimeout ms => fun w => (setTimeout ms w, inr tt)
  | ToISOString => fun w => (fst (toISOString w), inr (snd (toISOString w)))
  | WriteFileSync f d => writeFileSync f d
  | Destroy => fun w => (destroy w, inr tt)
  end.

(** The result of running a program: the world it leaves, the requests
    it issued, oldest first, and what it returned. *)
Record Run (A : Type) := { world : W; trace : list Req; value : A }.

(** [after e r]: the run [r], preceded by the request [e]. *)
Definition after {A} (e : Req) (r : Run A) : Run A :=
  {| world := world r; trace := e :: trace r; value := value r |}.

Fixpoint interp {A} (p : Prog A) (w : W) : Run A :=
  match p with
  | Ret a => {| world := w; trace := []; value := a |}
  | Vis e k =>
      let wr := handle e w in
      after e (interp (k (snd wr)) (fst wr))
  end.

(** Sequencing: the second part runs in the world and with the locals the
    first part left, unless the first part threw. *)
Definition andThen {S A B} (r : Run ((Error + A) * S))
           (f : A -> M S B) : Run ((Error + B) * S) :=
  match value r with
  | (inl msg, s') => {| world := world r; trace := trace r; value := (inl msg, s') |}
  | (inr a, s') =>
      let r' := interp (f a s') (world r) in
      {| world := world r'; trace := trace r ++ trace r'; value := value r' |}
  end.

(** [try/catch]: the handler runs in the world and with the locals the
    body left when it threw. *)
Definition orElse {S A} (r : Run ((Error + A) * S))
           (handler : Error -> M S A) : Run ((Error + A) * S) :=
  match value r with
  | (inl msg, s') =>
      let r' := interp (handler msg s') (world r) in
      {| world := world r'; trace := trace r ++ trace r'; value := value r' |}
  | (inr a, s') => {| world := world r; trace := trace r; value := (inr a, s') |}
  end.

End Interp.

(** Which [return] ended the script (the JavaScript functions themselves
    return nothing). *)
Inductive Exit :=
| GroupNotFound            (* target group absent from [getChats()] *)
| NotAdmin                 (* the admin check failed *)
| NothingToDo              (* the pre-loop filter left no number to process *)
| Saved (file : string)    (* the loop ran and the results file was written *)
| Crashed (msg : Error).   (* the outermost [catch] *)

(** ** add-participants-to-group.js *)

Module AddScript.

Definition GROUP_ID : string := "120363401616166216".
Definition TARGET_GROUP_ID : string := (GROUP_ID ++ "@g.us")%string.

Module DELAYS.
Definition VERIFICATION : nat := 1000.
Definition PRE_INVITE : nat := 500.
Definition BETWEEN_ADDS : nat := 2000.
Definition AFTER_FAILURE : nat := 1000.
End DELAYS.

Definition INVITE_MESSAGE : string :=
"Hi! 👋

The owner of the original group feels that people who are not contributing also deserve the updates. However, it seems unfair to those of us who are volunteering, so I have created another group where you will be with people who are actually helping.

Note: Only people who haven't contributed even once in a month have been removed from the original group.

You've been invited to join the slots update group. Please click the link below to join:

https://chat.whatsapp.com/F62pSwcfaqU6w816V6FvZM

Looking forward to having you in our community! ✨
".

(** The [let] counters and the [results] array of the function. *)
Record Locals := {
  successCount : nat;
  inviteCount : nat;
  failCount : nat;
  skipCount : nat;
  results : list Add.Outcome
}.

Definition initial : Locals :=
  {| successCount := 0; inviteCount := 0; failCount := 0; skipCount := 0;
     results := [] |}.

(** [results.push(o)] *)
Definition push (o : Add.Outcome) : M Locals unit :=
  modify (fun s =>
    {| successCount := successCount s; inviteCount := inviteCount s;
       failCount := failCount s; skipCount := skipCount s;
       results := results s ++ [o] |}).

Definition incr_successCount : M Locals unit :=
  modify (fun s =>
    {| successCount := S (successCount s); inviteCount := inviteCount s;
       failCount := failCount s; skipCount := skipCount s;
       results := results s |}).

Definition incr_inviteCount : M Locals unit :=
  modify (fun s =>
    {| successCount := successCount s; inviteCount := S (inviteCount s);
       failCount := failCount s; skipCount := skipCount s;
       results := results s |}).

Definition incr_failCount : M Locals unit :=
  modify (fun s =>
    {| successCount := successCount s; inviteCount := inviteCount s;
       failCount := S (failCount s); skipCount := skipCount s;
       results := results s |}).

Definition incr_skipCount : M Locals unit :=
  modify (fun s =>
    {| successCount := successCount s; inviteCount := inviteCount s;
       failCount := failCount s; skipCount := S (skipCount s);
       results := results s |}).

(** [phoneNumber.replace('+', '') + '@c.us'] *)
Definition participantIdOf (phoneNumber : string) : string :=
  (replace "+" EmptyString phoneNumber ++ "@c.us")%string.

(** [group.participants.some(p => p.id._serialized === participantId)] *)
Definition inGroup (participantId : string) (group : Chat) : bool :=
  existsb (fun p => _serialized (p_id p) =? participantId)%string (participants group).

(** [targetGroup.participants.map(p => `+${p.id.user}`)] *)
Definition currentParticipants (targetGroup : Chat) : list string :=
  map (fun p => ("+" ++ user (p_id p))%string) (participants targetGroup).

(** [!myParticipant || !myParticipant.isAdmin] *)
Definition notAdmin (myId : string) (targetGroup : Chat) : bool :=
  match find (fun p => _serialized (p_id p) =? myId)%string (participants targetGroup) with
  | None => true
  | Some myParticipant => negb (isAdmin myParticipant)
  end.

Definition findTargetGroup (chats : list Chat) : option Chat :=
  let groups := filter isGroup chats in
  find (fun group => _serialized (c_id group) =? TARGET_GROUP_ID)%string groups.

Definition participantsToAdd (targetGroup : Chat) (participants_to_add : list string) :=
  filter (fun phoneNumber => negb (includes (currentParticipants targetGroup) phoneNumber))
         participants_to_add.

Definition alreadyInGroup (targetGroup : Chat) (participants_to_add : list string) :=
  filter (fun phoneNumber => includes (currentParticipants targetGroup) phoneNumber)
         participants_to_add.

Definition verificationError : Error :=
  "Participant not found in group after add attempt".

(** Lines 279-295: the inner [try] block. *)
Definition directAdd (targetGroup : Chat) (phoneNumber participantId : string)
  : M Locals unit :=
  call (AddParticipants (_serialized (c_id targetGroup)) [participantId]);;
  call (SetTimeout DELAYS.VERIFICATION);;
  verifyGroup <- call (GetChatById (_serialized (c_id targetGroup)));;
  if inGroup participantId verifyGroup then
    push {| Add.number := phoneNumber; Add.status := Add.added;
            Add.method := Add.direct; Add.inviteLink := None;
            Add.error := None |};;
    incr_successCount
  else throw verificationError.

(** [`https://chat.whatsapp.com/${groupInviteCode}`] *)
Definition inviteLinkOf (groupInviteCode : option string) : string :=
  ("https://chat.whatsapp.com/" ++
   match groupInviteCode with Some c => c | None => "null" end)%string.

(** [INVITE_MESSAGE.replace('[GROUP_INVITE_LINK]', inviteLink)] *)
Definition inviteMessageOf (groupInviteCode : option string) : string :=
  replace "[GROUP_INVITE_LINK]" (inviteLinkOf groupInviteCode) INVITE_MESSAGE.

(** Lines 296-317: the inner [catch (addError)] block. *)
Definition inviteFallback (groupInviteCode : option string)
           (phoneNumber participantId : string) (addError : Error)
  : M Locals unit :=
  if truthy groupInviteCode then
    call (SetTimeout DELAYS.PRE_INVITE);;
    let inviteLink := inviteLinkOf groupInviteCode in
    let inviteMessage := inviteMessageOf groupInviteCode in
    call (SendMessage participantId inviteMessage);;
    push {| Add.number := phoneNumber; Add.status := Add.invited;
            Add.method := Add.invite_link; Add.inviteLink := Some inviteLink;
            Add.error := None |};;
    incr_inviteCount
  else
    push {| Add.number := phoneNumber; Add.status := Add.failed;
            Add.method := Add.none; Add.inviteLink := None;
            Add.error := Some addError |};;
    incr_failCount.

(** Lines 258-334: the body of the [for] loop at index [i] of [n]. *)
Definition iteration (targetGroup : Chat) (groupInviteCode : option string)
           (n i : nat) (phoneNumber : string) : M Locals unit :=
  tryCatch
    (let participantId := participantIdOf phoneNumber in
     updatedGroup <- call (GetChatById (_serialized (c_id targetGroup)));;
     if inGroup participantId updatedGroup then
       push {| Add.number := phoneNumber; Add.status := Add.already_in_group;
               Add.method := Add.skipped; Add.inviteLink := None;
               Add.error := None |};;
       incr_skipCount                                   (* continue *)
     else
       tryCatch (directAdd targetGroup phoneNumber participantId)
                (inviteFallback groupInviteCode phoneNumber participantId);;
       when (i <? n - 1)%nat (call (SetTimeout DELAYS.BETWEEN_ADDS)))
    (fun error =>
       incr_failCount;;
       push {| Add.number := phoneNumber; Add.status := Add.failed;
               Add.method := Add.error_caught; Add.inviteLink := None;
               Add.error := Some error |};;
       when (i <? n - 1)%nat (call (SetTimeout DELAYS.AFTER_FAILURE))).

(** [for (let i = ...; i < participantsToAdd.length; i++)], from index [i]
    on, [todo] being the elements not yet visited. *)
Fixpoint loop (targetGroup : Chat) (groupInviteCode : option string)
         (n i : nat) (todo : list string) : M Locals unit :=
  match todo with
  | [] => ret tt
  | phoneNumber :: rest =>
      iteration targetGroup groupInviteCode n i phoneNumber;;
      loop targetGroup groupInviteCode n (S i) rest
  end.

(** Lines 353-363: the object written to the results file. *)
Definition summary (targetGroup : Chat) (toAdd already : list string)
           (now : string) (s : Locals) : Add.Artifact :=
  {| Add.groupName := name targetGroup;
     Add.timestamp := now;
     Add.totalToProcess := length toAdd;
     Add.successCount := successCount s;
     Add.inviteCount := inviteCount s;
     Add.skipCount := skipCount s;
     Add.failCount := failCount s;
     Add.results := results s;
     Add.alreadyInGroup := already |}.

Definition resultsFile (iso : string) : string :=
  ("add_results_" ++ fileTimestamp iso ++ ".json")%string.

(** Lines 350-363. *)
Definition saveResults (targetGroup : Chat) (toAdd already : list string)
  : M Locals Exit :=
  iso <- call ToISOString;;
  now <- call ToISOString;;
  s <- get;;
  call (WriteFileSync (resultsFile iso)
          (AddResults (summary targetGroup toAdd already now s)));;
  ret (Saved (resultsFile iso)).

(** [myId] is [client.info.wid._serialized]; [participants_to_add] is the
    array loaded from the JSON file when the script starts. *)
Definition addParticipantsToGroup (myId : string) (participants_to_add : list string)
  : M Locals Exit :=
  tryCatch
    (chats <- call GetChats;;
     match findTargetGroup chats with
     | None => ret GroupNotFound
     | Some targetGroup =>
         if notAdmin myId targetGroup then ret NotAdmin
         else
           let toAdd := participantsToAdd targetGroup participants_to_add in
           let already := alreadyInGroup targetGroup participants_to_add in
           if (length toAdd =? 0)%nat then ret NothingToDo
           else
             groupInviteCode <-
               tryCatch (code <- (call (GetInviteCode (_serialized (c_id targetGroup)))
                                   : M Locals string);;
                         ret (Some code))
                        (fun _ => ret None);;
             loop targetGroup groupInviteCode (length toAdd) 0 toAdd;;
             saveResults targetGroup toAdd already
     end)
    (fun error => ret (Crashed error)).

End AddScript.

(** ** remove-inactive-from-group.js *)

Module RemoveScript.

Definition GROUP_ID : string := "120363415434456792".
Definition TARGET_GROUP_ID : string := (GROUP_ID ++ "@g.us")%string.

Module DELAYS.
Definition VERIFICATION : nat := 1000.
Definition PRE_NOTIFICATION : nat := 500.
Definition BETWEEN_REMOVALS : nat := 2000.
Definition AFTER_FAILURE : nat := 1000.
End DELAYS.

Definition REMOVAL_MESSAGE : string :=
"Hey! 👋

We noticed you haven't been active in the group for a while, so you've been removed to keep things fresh and relevant for everyone.

If this was a mistake, message +918686804860 and explain your situation.

Thanks for understanding!
".

Record Locals := {
  successCount : nat;
  failCount : nat;
  results : list Remove.Outcome
}.

Definition initial : Locals :=
  {| successCount := 0; failCount := 0; results := [] |}.

Definition push (o : Remove.Outcome) : M Locals unit :=
  modify (fun s =>
    {| successCount := successCount s; failCount := failCount s;
       results := results s ++ [o] |}).

Definition incr_successCount : M Locals unit :=
  modify (fun s =>
    {| successCount := S (successCount s); failCount := failCount s;
       results := results s |}).

Definition incr_failCount : M Locals unit :=
  modify (fun s =>
    {| successCount := successCount s; failCount := S (failCount s);
       results := results s |}).

Definition participantIdOf (phoneNumber : string) : string :=
  (replace "+" EmptyString phoneNumber ++ "@c.us")%string.

Definition inGroup (participantId : string) (group : Chat) : bool :=
  existsb (fun p => _serialized (p_id p) =? participantId)%string (participants group).

Definition currentParticipants (targetGroup : Chat) : list string :=
  map (fun p => ("+" ++ user (p_id p))%string) (participants targetGroup).

Definition notAdmin (myId : string) (targetGroup : Chat) : bool :=
  match find (fun p => _serialized (p_id p) =? myId)%string (participants targetGroup) with
  | None => true
  | Some myParticipant => negb (isAdmin myParticipant)
  end.

Definition findTargetGroup (chats : list Chat) : option Chat :=
  let groups := filter isGroup chats in
  find (fun group => _serialized (c_id group) =? TARGET_GROUP_ID)%string groups.

Definition participantsToRemove (targetGroup : Chat) (inactive_participants : list string) :=
  filter (fun phoneNumber => includes (currentParticipants targetGroup) phoneNumber)
         inactive_participants.

Definition notInGroup (targetGroup : Chat) (inactive_participants : list string) :=
  filter (fun phoneNumber => negb (includes (currentParticipants targetGroup) phoneNumber))
         inactive_participants.

Definition verificationError : Error :=
  "Participant still in group after removal attempt".

(** Lines 282-290: the notification and the record of the removal. *)
Definition notify (phoneNumber participantId : string) : M Locals unit :=
  tryCatch
    (call (SendMessage participantId REMOVAL_MESSAGE);;
     push {| Remove.number := phoneNumber; Remove.status := Remove.removed;
             Remove.notificationSent := Some true; Remove.msgError := None;
             Remove.error := None |})
    (fun msgError =>
     push {| Remove.number := phoneNumber; Remove.status := Remove.removed;
             Remove.notificationSent := Some false;
             Remove.msgError := Some msgError; Remove.error := None |}).

(** Lines 246-309: the body of the [for] loop at index [i] of [n].  The
    check before the removal reads [targetGroup.participants], the list
    held by the object found at the start of the run. *)
Definition iteration (targetGroup : Chat) (n i : nat) (phoneNumber : string)
  : M Locals unit :=
  tryCatch
    (let participantId := participantIdOf phoneNumber in
     match find (fun p => _serialized (p_id p) =? participantId)%string
                (participants targetGroup) with
     | None =>
         push {| Remove.number := phoneNumber; Remove.status := Remove.already_removed;
                 Remove.notificationSent := Some false; Remove.msgError := None;
                 Remove.error := None |}                (* continue *)
     | Some currentParticipant =>
         call (RemoveParticipants (_serialized (c_id targetGroup)) [participantId]);;
         call (SetTimeout DELAYS.VERIFICATION);;
         updatedGroup <- call (GetChatById (_serialized (c_id targetGroup)));;
         if inGroup participantId updatedGroup then throw verificationError
         else
           call (SetTimeout DELAYS.PRE_NOTIFICATION);;
           notify phoneNumber participantId;;
           incr_successCount;;
           when (i <? n - 1)%nat (call (SetTimeout DELAYS.BETWEEN_REMOVALS))
     end)
    (fun error =>
       incr_failCount;;
       push {| Remove.number := phoneNumber; Remove.status := Remove.failed;
               Remove.notificationSent := None; Remove.msgError := None;
               Remove.error := Some error |};;
       when (i <? n - 1)%nat (call (SetTimeout DELAYS.AFTER_FAILURE))).

Fixpoint loop (targetGroup : Chat) (n i : nat) (todo : list string) : M Locals unit :=
  match todo with
  | [] => ret tt
  | phoneNumber :: rest =>
      iteration targetGroup n i phoneNumber;;
      loop targetGroup n (S i) rest
  end.

Definition isRemoved (r : Remove.Outcome) : bool :=
  match Remove.status r with Remove.removed => true | _ => false end.

Definition isAlreadyRemoved (r : Remove.Outcome) : bool :=
  match Remove.status r with Remove.already_removed => true | _ => false end.

(** [r.notificationSent === b] *)
Definition notificationSentIs (b : bool) (r : Remove.Outcome) : bool :=
  match Remove.notificationSent r with
  | Some b' => Bool.eqb b' b
  | None => false
  end.

(** Lines 312-315 and 334-344: the object written to the results file. *)
Definition summary (targetGroup : Chat) (toRemove absent : list string)
           (now : string) (s : Locals) : Remove.Artifact :=
  let removedWithNotification :=
    length (filter (fun r => isRemoved r && notificationSentIs true r) (results s)) in
  let alreadyRemovedCount := length (filter isAlreadyRemoved (results s)) in
  {| Remove.groupName := name targetGroup;
     Remove.timestamp := now;
     Remove.totalToProcess := length toRemove;
     Remove.successCount := successCount s;
     Remove.failCount := failCount s;
     Remove.alreadyRemovedCount := alreadyRemovedCount;
     Remove.notificationsSent := removedWithNotification;
     Remove.results := results s;
     Remove.notInGroup := absent |}.

Definition resultsFile (iso : string) : string :=
  ("removal_results_" ++ fileTimestamp iso ++ ".json")%string.

(** Lines 312-344. *)
Definition saveResults (targetGroup : Chat) (toRemove absent : list string)
  : M Locals Exit :=
  iso <- call ToISOString;;
  now <- call ToISOString;;
  s <- get;;
  call (WriteFileSync (resultsFile iso)
          (RemovalResults (summary targetGroup toRemove absent now s)));;
  ret (Saved (resultsFile iso)).

Definition removeInactiveParticipants (myId : string) (inactive_participants : list string)
  : M Locals Exit :=
  tryCatch
    (chats <- call GetChats;;
     match findTargetGroup chats with
     | None => ret GroupNotFound
     | Some targetGroup =>
         if notAdmin myId targetGroup then ret NotAdmin
         else
           let toRemove := participantsToRemove targetGroup inactive_participants in
           let absent := notInGroup targetGroup inactive_participants in
           if (length toRemove =? 0)%nat then ret NothingToDo
           else
             loop targetGroup (length toRemove) 0 toRemove;;
             saveResults targetGroup toRemove absent
     end)
    (fun error => ret (Crashed error)).

End RemoveScript.

(** ** The [SIGINT] handler

    [process.on('SIGINT', async () => { await client.destroy(); process.exit(0); })]

    The handler can only start while the script is suspended in an [await].
    It calls [client.destroy()] and is suspended in its turn until the
    shutdown of the client has completed; in the meantime the answers to
    the script's own requests resume the script, which goes on against the
    session that is shutting down.  [process.exit(0)] runs once the
    shutdown has completed, at a moment when the script is suspended again
    or has ended.

    [interpSigint k d p w] runs [p] with the signal delivered while the
    script waits for its request number [k] (counting awaited requests
    from 0), the shutdown lasting long enough for [d] answers to resume the
    script: that request has been issued, the handler asks for the
    shutdown, the script is resumed [d] times and the process exits while
    the script waits for the next answer.  With [d = 0] the pending request
    never resumes the script.  A script that ends before the process exits
    has run all its code, the synchronous end included.  When [p] issues no
    more than [k] awaited requests, the script ends before the signal and
    the run is the one of [interp]. *)

Inductive Ending (A : Type) :=
| Returned (a : A)         (* the script ran to its end *)
| ProcessExit (code : nat). (* [process.exit(code)] while the script was suspended *)

Arguments Returned {A} a.
Arguments ProcessExit {A} code.

Section Sigint.

Context {W : Type} `{Session W}.

(** The script after [client.destroy()] has been called: [d] more answers
    resume it before the process exits. *)
Fixpoint shuttingDown {A} (d : nat) (p : Prog A) (w : W) : Run (W := W) (Ending A) :=
  match p with
  | Ret a => {| world := w; trace := []; value := Returned a |}
  | Vis e c =>
      let wr := handle e w in
      if awaited e then
        match d with
        | O => {| world := fst wr; trace := [e]; value := ProcessExit 0 |}
        | S d' => after e (shuttingDown d' (c (snd wr)) (fst wr))
        end
      else after e (shuttingDown d (c (snd wr)) (fst wr))
  end.

Fixpoint interpSigint {A} (k d : nat) (p : Prog A) (w : W) : Run (W := W) (Ending A) :=
  match p with
  | Ret a => {| world := w; trace := []; value := Returned a |}
  | Vis e c =>
      let wr := handle e w in
      if awaited e then
        match k with
        | O =>
            match d with
            | O => {| world := destroy (fst wr); trace := [e; Destroy];
                      value := ProcessExit 0 |}
            | S d' =>
                after e (after Destroy
                           (shuttingDown d' (c (snd wr)) (destroy (fst wr))))
            end
        | S k' => after e (interpSigint k' d (c (snd wr)) (fst wr))
        end
      else after e (interpSigint k d (c (snd wr)) (fst wr))
  end.




End Sigint.

(** ** A simulated session

    A small executable [Session]: a list of chats whose membership the add
    and remove requests update, with switches that make single requests
    throw or silently do nothing. *)

Module Sim.

Record World := {
  chats : list Chat;
  inviteCode : Error + string;
  addThrows : list (string * Error);     (* ids [addParticipants] throws on *)
  addIgnored : list string;              (* ids [addParticipants] silently skips *)
  removeThrows : list (string * Error);
  removeIgnored : list string;
  sendThrows : list (string * Error);    (* ids [sendMessage] throws on *)
  sent : list (string * string);
  clock : string;
  files : list (string * FileContent);
  destroyed : bool
}.

Definition withChats (cs : list Chat) (w : World) : World :=
  {| chats := cs; inviteCode := inviteCode w; addThrows := addThrows w;
     addIgnored := addIgnored w; removeThrows := removeThrows w;
     removeIgnored := removeIgnored w; sendThrows := sendThrows w;
     sent := sent w; clock := clock w; files := files w;
     destroyed := destroyed w |}.

Fixpoint lookup (key : string) (table : list (string * Error)) : option Error :=
  match table with
  | [] => None
  | (k, v) :: rest => if (k =? key)%string then Some v else lookup key rest
  end.

Fixpoint upto (c : ascii) (s : string) : string :=
  match s with
  | EmptyString => EmptyString
  | String a s' => if Ascii.eqb a c then EmptyString else String a (upto c s')
  end.

Definition member (participantId : string) : Participant :=
  {| p_id := {| user := upto "@" participantId; _serialized := participantId |};
     isAdmin := false |}.

Definition updateGroup (group : string) (f : list Participant -> list Participant)
           (cs : list Chat) : list Chat :=
  map (fun c => if (_serialized (c_id c) =? group)%string
                then {| c_id := c_id c; name := name c; isGroup := isGroup c;
                        participants := f (participants c) |}
                else c) cs.

Definition simGetChatById (chatId : string) (w : World) : World * (Error + Chat) :=
  match find (fun c => _serialized (c_id c) =? chatId)%string (chats w) with
  | Some c => (w, inr c)
  | None => (w, inl "chat not found")
  end.

Definition simAdd (group : string) (ids : list string) (w : World)
  : World * (Error + unit) :=
  match ids with
  | [participantId] =>
      match lookup participantId (addThrows w) with
      | Some msg => (w, inl msg)
      | None =>
          if includes (addIgnored w) participantId then (w, inr tt)
          else (withChats (updateGroup group (fun ps => ps ++ [member participantId])
                                       (chats w)) w, inr tt)
      end
  | _ => (w, inl "unsupported")
  end.

Definition simRemove (group : string) (ids : list string) (w : World)
  : World * (Error + unit) :=
  match ids with
  | [participantId] =>
      match lookup participantId (removeThrows w) with
      | Some msg => (w, inl msg)
      | None =>
          if includes (removeIgnored w) participantId then (w, inr tt)
          else (withChats
                  (updateGroup group
                     (filter (fun p => negb (_serialized (p_id p) =? participantId)%string))
                     (chats w)) w, inr tt)
      end
  | _ => (w, inl "unsupported")
  end.

Definition simSend (to body : string) (w : World) : World * (Error + unit) :=
  match lookup to (sendThrows w) with
  | Some msg => (w, inl msg)
  | None =>
      ({| chats := chats w; inviteCode := inviteCode w; addThrows := addThrows w;
          addIgnored := addIgnored w; removeThrows := removeThrows w;
          removeIgnored := removeIgnored w; sendThrows := sendThrows w;
          sent := sent w ++ [(to, body)]; clock := clock w; files := files w;
          destroyed := destroyed w |}, inr tt)
  end.

Definition simWrite (file : string) (data : FileContent) (w : World)
  : World * (Error + unit) :=
  ({| chats := chats w; inviteCode := inviteCode w; addThrows := addThrows w;
      addIgnored := addIgnored w; removeThrows := removeThrows w;
      removeIgnored := removeIgnored w; sendThrows := sendThrows w;
      sent := sent w; clock := clock w; files := files w ++ [(file, data)];
      destroyed := destroyed w |}, inr tt).

Definition simDestroy (w : World) : World :=
  {| chats := chats w; inviteCode := inviteCode w; addThrows := addThrows w;
     addIgnored := addIgnored w; removeThrows := removeThrows w;
     removeIgnored := removeIgnored w; sendThrows := sendThrows w;
     sent := sent w; clock := clock w; files := files w;
     destroyed := true |}.

#[global] Instance session : Session World := {
  getChats := fun w => (w, inr (chats w));
  getChatById := simGetChatById;
  getInviteCode := fun _ w => (w, inviteCode w);
  addParticipants := simAdd;
  removeParticipants := simRemove;
  sendMessage := simSend;
  setTimeout := fun _ w => w;
  toISOString := fun w => (w, clock w);
  writeFileSync := simWrite;
  destroy := simDestroy
}.

(** A group of the given id whose members are [me] (an admin) and the
    given phone numbers (written without the leading plus). *)
Definition group (groupId me : string) (admin : bool) (members : list string) : Chat :=
  {| c_id := {| user := upto "@" groupId; _serialized := groupId |};
     name := "Slots";
     isGroup := true;
     participants :=
       {| p_id := {| user := upto "@" me; _serialized := me |}; isAdmin := admin |}
       :: map (fun u => member (u ++ "@c.us")%string) members |}.

Definition me : string := "9000@c.us".

Definition start (cs : list Chat) : World :=
  {| chats := cs; inviteCode := inr "CODE"; addThrows := []; addIgnored := [];
     removeThrows := []; removeIgnored := []; sendThrows := []; sent := [];
     clock := "2025-01-02T03:04:05.678Z"; files := []; destroyed := false |}.

End Sim.

(** ** Observations on runs *)

(** The invite code as the script holds it after its [try/catch], and the
    way the run ends after [writeFileSync] answered. *)
Definition codeOf (answer : Error + string) : option string :=
  match answer with
  | inr code => Some code
  | inl _ => None
  end.

Definition exitOf (file : string) (answer : Error + unit) : Exit :=
  match answer with
  | inr _ => Saved file
  | inl msg => Crashed msg
  end.

(** The files a run wrote, from its requests. *)
Fixpoint written (tr : list Req) : list (string * FileContent) :=
  match tr with
  | [] => []
  | WriteFileSync file data :: tr' => (file, data) :: written tr'
  | _ :: tr' => written tr'
  end.

(** The number of requests of a run at which the script was suspended. *)
Definition awaits (tr : list Req) : nat := length (filter awaited tr).

(** Programs all of whose requests are awaited, none of whose requests is
    awaited, and programs that stop awaiting once they have issued a
    request that is not awaited. *)
Fixpoint allAwaited {A} (p : Prog A) : Prop :=
  match p with
  | Ret _ => True
  | Vis e k => awaited e = true /\ forall r, allAwaited (k r)
  end.

Fixpoint noAwait {A} (p : Prog A) : Prop :=
  match p with
  | Ret _ => True
  | Vis e k => awaited e = false /\ forall r, noAwait (k r)
  end.

Fixpoint phased {A} (p : Prog A) : Prop :=
  match p with
  | Ret _ => True
  | Vis e k => if awaited e then forall r, phased (k r) else forall r, noAwait (k r)
  end.


(** ** Records named in the statements *)

Definition failedWithoutInvite (phoneNumber : string) (addError : Error) : Add.Outcome :=
  {| Add.number := phoneNumber; Add.status := Add.failed; Add.method := Add.none;
     Add.inviteLink := None; Add.error := Some addError |}.

Definition invitedWith (phoneNumber : string) (groupInviteCode : option string)
  : Add.Outcome :=
  {| Add.number := phoneNumber; Add.status := Add.invited; Add.method := Add.invite_link;
     Add.inviteLink := Some (AddScript.inviteLinkOf groupInviteCode); Add.error := None |}.

Definition failedWithError (phoneNumber : string) (error : Error) : Add.Outcome :=
  {| Add.number := phoneNumber; Add.status := Add.failed; Add.method := Add.error_caught;
     Add.inviteLink := None; Add.error := Some error |}.

Definition removedUnnotified (phoneNumber : string) (msgError : Error) : Remove.Outcome :=
  {| Remove.number := phoneNumber; Remove.status := Remove.removed;
     Remove.notificationSent := Some false; Remove.msgError := Some msgError;
     Remove.error := None |}.

Definition failedRemoval (phoneNumber : string) (error : Error) : Remove.Outcome :=
  {| Remove.number := phoneNumber; Remove.status := Remove.failed;
     Remove.notificationSent := None; Remove.msgError := None;
     Remove.error := Some error |}.

Definition alreadyInGroupRecord (phoneNumber : string) : Add.Outcome :=
  {| Add.number := phoneNumber; Add.status := Add.already_in_group;
     Add.method := Add.skipped; Add.inviteLink := None; Add.error := None |}.

Definition alreadyRemovedRecord (phoneNumber : string) : Remove.Outcome :=
  {| Remove.number := phoneNumber; Remove.status := Remove.already_removed;
     Remove.notificationSent := Some false; Remove.msgError := None;
     Remove.error := None |}.

(** ** Concrete scenarios *)

Module Scenario.

Definition addGroup (members : list string) : Chat :=
  Sim.group AddScript.TARGET_GROUP_ID Sim.me true members.

Definition removeGroup (members : list string) : Chat :=
  Sim.group RemoveScript.TARGET_GROUP_ID Sim.me true members.

(** A session whose add and send requests throw for the listed ids and
    whose invite code request answers [code]. *)
Definition refusing (adds sends : list (string * Error)) (code : Error + string)
           (cs : list Chat) : Sim.World :=
  {| Sim.chats := cs; Sim.inviteCode := code; Sim.addThrows := adds;
     Sim.addIgnored := []; Sim.removeThrows := []; Sim.removeIgnored := [];
     Sim.sendThrows := sends; Sim.sent := [];
     Sim.clock := "2025-01-02T03:04:05.678Z"; Sim.files := [];
     Sim.destroyed := false |}.

(** A session whose add and removal requests return without effect for the
    listed ids. *)
Definition ignoring (adds removes : list string) (cs : list Chat) : Sim.World :=
  {| Sim.chats := cs; Sim.inviteCode := inl "no link"; Sim.addThrows := [];
     Sim.addIgnored := adds; Sim.removeThrows := []; Sim.removeIgnored := removes;
     Sim.sendThrows := []; Sim.sent := [];
     Sim.clock := "2025-01-02T03:04:05.678Z"; Sim.files := [];
     Sim.destroyed := false |}.

Definition runAdd (targets : list string) (w : Sim.World) :=
  interp (AddScript.addParticipantsToGroup Sim.me targets AddScript.initial) w.

Definition runRemove (targets : list string) (w : Sim.World) :=
  interp (RemoveScript.removeInactiveParticipants Sim.me targets RemoveScript.initial) w.

Definition addOutcomes (targets : list string) (w : Sim.World) : list Add.Outcome :=
  AddScript.results (snd (value (runAdd targets w))).

Definition removeOutcomes (targets : list string) (w : Sim.World) : list Remove.Outcome :=
  RemoveScript.results (snd (value (runRemove targets w))).

End Scenario.

(** ** send-messages.js *)

Module Send.

Inductive Status := success | failed.

(** One element of [results]. *)
Record Outcome := {
  number : string;
  status : Status;
  error : option Error
}.

(** The object given to [JSON.stringify] at the end of the run. *)
Record Artifact := {
  message : string;
  timestamp : string;
  totalNumbers : nat;
  successCount : nat;
  failCount : nat;
  results : list Outcome
}.

End Send.

Module SendScript.

Definition MESSAGE : string := "hi, you got the slot?".

Record Locals := {
  successCount : nat;
  failCount : nat;
  results : list Send.Outcome
}.

Definition initial : Locals :=
  {| successCount := 0; failCount := 0; results := [] |}.

Definition push (o : Send.Outcome) : M Locals unit :=
  modify (fun s =>
    {| successCount := successCount s; failCount := failCount s;
       results := results s ++ [o] |}).

Definition incr_successCount : M Locals unit :=
  modify (fun s =>
    {| successCount := S (successCount s); failCount := failCount s;
       results := results s |}).

Definition incr_failCount : M Locals unit :=
  modify (fun s =>
    {| successCount := successCount s; failCount := S (failCount s);
       results := results s |}).

(** [phoneNumber.replace('+', '') + '@c.us'] *)
Definition chatIdOf (phoneNumber : string) : string :=
  (replace "+" EmptyString phoneNumber ++ "@c.us")%string.

(** Lines 83-114: the body of the [for] loop at index [i] of [n]. *)
Definition iteration (n i : nat) (phoneNumber : string) : M Locals unit :=
  tryCatch
    (let chatId := chatIdOf phoneNumber in
     call (SendMessage chatId MESSAGE);;
     incr_successCount;;
     push {| Send.number := phoneNumber; Send.status := Send.success;
             Send.error := None |};;
     when (i <? n - 1)%nat (call (SetTimeout 2000)))
    (fun error =>
       incr_failCount;;
       push {| Send.number := phoneNumber; Send.status := Send.failed;
               Send.error := Some error |};;
       when (i <? n - 1)%nat (call (SetTimeout 1000))).

(** [for (let i = ...; i < targetNumbers.length; i++)], from index [i] on,
    [todo] being the elements not yet visited. *)
Fixpoint loop (n i : nat) (todo : list string) : M Locals unit :=
  match todo with
  | [] => ret tt
  | phoneNumber :: rest =>
      iteration n i phoneNumber;;
      loop n (S i) rest
  end.

(** Lines 129-136: the object written to the results file. *)
Definition summary (targetNumbers : list string) (now : string) (s : Locals)
  : Send.Artifact :=
  {| Send.message := MESSAGE;
     Send.timestamp := now;
     Send.totalNumbers := length targetNumbers;
     Send.successCount := successCount s;
     Send.failCount := failCount s;
     Send.results := results s |}.

Definition resultsFile (iso : string) : string :=
  ("message_results_" ++ fileTimestamp iso ++ ".json")%string.

(** Lines 75-136.  [targetNumbers] is the array loaded from the JSON file
    when the script starts.  The value is the file name and the object the
    function hands to [fs.writeFileSync]; the write itself is not among the
    requests of this program. *)
Definition sendMessagesToAll (targetNumbers : list string)
  : M Locals (string * Send.Artifact) :=
  loop (length targetNumbers) 0 targetNumbers;;
  iso <- call ToISOString;;
  now <- call ToISOString;;
  s <- get;;
  ret (resultsFile iso, summary targetNumbers now s).

End SendScript.

(** The requests of a run of the send loop that left the records [os]: one
    message for each record, followed, except after the last one, by a
    timer of 2000 ms when the message was sent and of 1000 ms when it was
    not. *)
Fixpoint sendSchedule (os : list Send.Outcome) : list Req :=
  match os with
  | [] => []
  | o :: os' =>
      SendMessage (SendScript.chatIdOf (Send.number o)) SendScript.MESSAGE ::
      match os' with
      | [] => []
      | _ :: _ =>
          SetTimeout (match Send.status o with
                      | Send.success => 2000
                      | Send.failed => 1000
                      end) :: sendSchedule os'
      end
  end.

Definition sendStatusIs (st : Send.Status) (o : Send.Outcome) : bool :=
  match st, Send.status o with
  | Send.success, Send.success => true
  | Send.failed, Send.failed => true
  | _, _ => false
  end.

Definition sendCount (st : Send.Status) (rs : list Send.Outcome) : nat :=
  length (filter (sendStatusIs st) rs).

(** What the loop keeps true of its counters and records. *)
Definition sendInvariant (s : SendScript.Locals) : Prop :=
  SendScript.successCount s = sendCount Send.success (SendScript.results s) /\
  SendScript.failCount s = sendCount Send.failed (SendScript.results s) /\
  Forall (fun o => match Send.status o with
                   | Send.success => Send.error o = None
                   | Send.failed => exists msg, Send.error o = Some msg
                   end) (SendScript.results s).

(** ** convert-csv-to-json.js

    The characters of a string stand for UTF-16 code units below 256. *)

Module Csv.

(** The white space and line terminators that [trim] removes, among the
    code units below 256: TAB, LF, VT, FF, CR, SP and NBSP. *)
Definition isWhiteSpace (c : ascii) : bool :=
  existsb (Ascii.eqb c) ["009"; "010"; "011"; "012"; "013"; " "; "160"]%char.

Fixpoint trimStart (s : string) : string :=
  match s with
  | EmptyString => EmptyString
  | String c s' => if isWhiteSpace c then trimStart s' else s
  end.

Fixpoint trimEnd (s : string) : string :=
  match s with
  | EmptyString => EmptyString
  | String c s' =>
      match trimEnd s' with
      | EmptyString => if isWhiteSpace c then EmptyString else String c EmptyString
      | t => String c t
      end
  end.

(** [s.trim()] *)
Definition trim (s : string) : string := trimEnd (trimStart s).

(** [s.split(sep)] for a separator of one character. *)
Fixpoint split (sep : ascii) (s : string) : list string :=
  match s with
  | EmptyString => [EmptyString]
  | String c s' =>
      if Ascii.eqb c sep then EmptyString :: split sep s'
      else match split sep s' with
           | [] => [String c EmptyString]
           | field :: fields => String c field :: fields
           end
  end.

Record CountryInfo := { code : string; country : string }.

(** Lines 5-31. *)
Definition detectCountry (num : string) : CountryInfo :=
  if prefix "91" num then {| code := "+91"; country := "India" |}
  else if (prefix "1" num && (String.length num =? 11)%nat)%bool
       then {| code := "+1"; country := "USA/Canada" |}
  else if prefix "44" num then {| code := "+44"; country := "UK" |}
  else if prefix "49" num then {| code := "+49"; country := "Germany" |}
  else if prefix "33" num then {| code := "+33"; country := "France" |}
  else if prefix "86" num then {| code := "+86"; country := "China" |}
  else if prefix "81" num then {| code := "+81"; country := "Japan" |}
  else if prefix "61" num then {| code := "+61"; country := "Australia" |}
  else if prefix "260" num then {| code := "+260"; country := "Zambia" |}
  else if prefix "234" num then {| code := "+234"; country := "Nigeria" |}
  else if prefix "971" num then {| code := "+971"; country := "UAE" |}
  else if prefix "966" num then {| code := "+966"; country := "Saudi Arabia" |}
  else if prefix "7" num then {| code := "+7"; country := "Russia/Kazakhstan" |}
  else if prefix "55" num then {| code := "+55"; country := "Brazil" |}
  else if prefix "52" num then {| code := "+52"; country := "Mexico" |}
  else if prefix "39" num then {| code := "+39"; country := "Italy" |}
  else if prefix "34" num then {| code := "+34"; country := "Spain" |}
  else if prefix "31" num then {| code := "+31"; country := "Netherlands" |}
  else if prefix "27" num then {| code := "+27"; country := "South Africa" |}
  else if prefix "20" num then {| code := "+20"; country := "Egypt" |}
  else {| code := "Unknown"; country := "Unknown" |}.

(** Lines 34-40. *)
Definition formatPhoneNumber (phoneNumber : string) : string :=
  let num := trim phoneNumber in
  if negb (prefix "+" num) then ("+" ++ num)%string else num.

(** One element of [processedNumbers]. *)
Module Entry.
Record t := {
  index : nat;
  originalNumber : string;
  formattedNumber : string;
  countryCode : string;
  country : string;
  length : nat
}.
End Entry.

(** Lines 49-51: the lines of the file, trimmed, without the empty ones. *)
Definition phoneNumbers (csvContent : string) : list string :=
  filter (fun line => (0 <? String.length line)%nat)
         (map trim (split "010"%char csvContent)).

(** [array.map((x, index) => f x index)], the first index being [i]. *)
Fixpoint mapFrom {A B} (i : nat) (f : A -> nat -> B) (xs : list A) : list B :=
  match xs with
  | [] => []
  | x :: xs' => f x i :: mapFrom (S i) f xs'
  end.

(** Lines 56-68. *)
Definition processedNumbers (numbers : list string) : list Entry.t :=
  mapFrom 0 (fun phoneNumber index =>
    let formatted := formatPhoneNumber phoneNumber in
    let countryInfo := detectCountry phoneNumber in
    {| Entry.index := index + 1;
       Entry.originalNumber := phoneNumber;
       Entry.formattedNumber := formatted;
       Entry.countryCode := code countryInfo;
       Entry.country := country countryInfo;
       Entry.length := String.length phoneNumber |}) numbers.

(** Line 119. *)
Definition formattedNumbers (processed : list Entry.t) : list string :=
  map Entry.formattedNumber processed.

End Csv.

(** ** Measures on programs and runs *)

(** Every request of the program satisfies [P], whatever the answers. *)
Fixpoint issues {A} (P : Req -> Prop) (p : Prog A) : Prop :=
  match p with
  | Ret _ => True
  | Vis e k => P e /\ forall r, issues P (k r)
  end.

(** The sum of a measure over the requests of a run. *)
Fixpoint total (f : Req -> nat) (tr : list Req) : nat :=
  match tr with
  | [] => 0
  | e :: tr' => f e + total f tr'
  end.

(** Along every path of the program the measure, added to [acc], stays
    within [bound]. *)
Fixpoint within {A} (f : Req -> nat) (acc bound : nat) (p : Prog A) : Prop :=
  match p with
  | Ret _ => acc <= bound
  | Vis e k => forall r, within f (acc + f e) bound (k r)
  end.

(** Milliseconds asked of [setTimeout]. *)
Definition waited (e : Req) : nat :=
  match e with
  | SetTimeout ms => ms
  | _ => 0
  end.

Definition isAddRequest (e : Req) : nat :=
  match e with
  | AddParticipants _ _ => 1
  | _ => 0
  end.

Definition isRemoveRequest (e : Req) : nat :=
  match e with
  | RemoveParticipants _ _ => 1
  | _ => 0
  end.

Definition isSendRequest (e : Req) : nat :=
  match e with
  | SendMessage _ _ => 1
  | _ => 0
  end.

(** [results.filter(r => r.status === st).length] *)
Definition addStatusIs (st : Add.Status) (o : Add.Outcome) : bool :=
  match st, Add.status o with
  | Add.added, Add.added => true
  | Add.invited, Add.invited => true
  | Add.already_in_group, Add.already_in_group => true
  | Add.failed, Add.failed => true
  | _, _ => false
  end.

Definition countAdd (st : Add.Status) (rs : list Add.Outcome) : nat :=
  length (filter (addStatusIs st) rs).

Definition removeStatusIs (st : Remove.Status) (o : Remove.Outcome) : bool :=
  match st, Remove.status o with
  | Remove.removed, Remove.removed => true
  | Remove.already_removed, Remove.already_removed => true
  | Remove.failed, Remove.failed => true
  | _, _ => false
  end.

Definition countRemove (st : Remove.Status) (rs : list Remove.Outcome) : nat :=
  length (filter (removeStatusIs st) rs).

(** A group whose participant ids have the form [<user>@c.us]. *)
Definition wellFormed (g : Chat) : Prop :=
  forall p, In p (participants g) ->
            _serialized (p_id p) = (user (p_id p) ++ "@c.us")%string.

(** What the add script may request, for the supplied numbers. *)
Definition addRequestAllowed (participants_to_add : list string) (e : Req) : Prop :=
  match e with
  | GetChats | ToISOString | WriteFileSync _ _ => True
  | GetChatById g | GetInviteCode g => g = AddScript.TARGET_GROUP_ID
  | AddParticipants g ids =>
      g = AddScript.TARGET_GROUP_ID /\
      exists phoneNumber,
        In phoneNumber participants_to_add /\
        ids = [AddScript.participantIdOf phoneNumber]
  | SendMessage to body =>
      body = AddScript.INVITE_MESSAGE /\
      exists phoneNumber,
        In phoneNumber participants_to_add /\ to = AddScript.participantIdOf phoneNumber
  | SetTimeout ms =>
      In ms [AddScript.DELAYS.VERIFICATION; AddScript.DELAYS.PRE_INVITE;
             AddScript.DELAYS.BETWEEN_ADDS; AddScript.DELAYS.AFTER_FAILURE]
  | RemoveParticipants _ _ | Destroy => False
  end.

(** What the removal script may request, for the supplied numbers. *)
Definition removeRequestAllowed (inactive_participants : list string) (e : Req) : Prop :=
  match e with
  | GetChats | ToISOString | WriteFileSync _ _ => True
  | GetChatById g => g = RemoveScript.TARGET_GROUP_ID
  | RemoveParticipants g ids =>
      g = RemoveScript.TARGET_GROUP_ID /\
      exists phoneNumber,
        In phoneNumber inactive_participants /\
        ids = [RemoveScript.participantIdOf phoneNumber]
  | SendMessage to body =>
      body = RemoveScript.REMOVAL_MESSAGE /\
      exists phoneNumber,
        In phoneNumber inactive_participants /\
        to = RemoveScript.participantIdOf phoneNumber
  | SetTimeout ms =>
      In ms [RemoveScript.DELAYS.VERIFICATION; RemoveScript.DELAYS.PRE_NOTIFICATION;
             RemoveScript.DELAYS.BETWEEN_REMOVALS; RemoveScript.DELAYS.AFTER_FAILURE]
  | AddParticipants _ _ | GetInviteCode _ | Destroy => False
  end.

(** The counters of the add loop agree with its records. *)
Definition addCountsAgree (s : AddScript.Locals) : Prop :=
  AddScript.successCount s = countAdd Add.added (AddScript.results s) /\
  AddScript.inviteCount s = countAdd Add.invited (AddScript.results s) /\
  AddScript.skipCount s = countAdd Add.already_in_group (AddScript.results s) /\
  AddScript.failCount s = countAdd Add.failed (AddScript.results s).

(** The counters of the removal loop agree with its records. *)
Definition removeCountsAgree (s : RemoveScript.Locals) : Prop :=
  RemoveScript.successCount s = countRemove Remove.removed (RemoveScript.results s) /\
  RemoveScript.failCount s = countRemove Remove.failed (RemoveScript.results s).

(** * Properties *)

Unset Implicit Arguments.

(** ** Running programs *)

Section InterpFacts.

Context {W : Type} `{Session W}.

Lemma interp_pbind {A B} (p : Prog A) (f : A -> Prog B) (w : W) :
  interp (pbind p f) w =
  {| world := world (interp (f (value (interp p w))) (world (interp p w)));
     trace := trace (interp p w) ++ trace (interp (f (value (interp p w))) (world (interp p w)));
     value := value (interp (f (value (interp p w))) (world (interp p w))) |}.
Proof.
  revert w; induction p as [a | e k IH]; intro w; cbn [pbind interp].
  - cbn [world trace value app]. now destruct (interp (f a) w).
  - rewrite IH. unfold after. cbn [world trace value app]. reflexivity.
Qed.

Lemma interp_bind {S A B} (m : M S A) (f : A -> M S B) (s : S) (w : W) :
  interp (bind m f s) w = andThen (interp (m s) w) f.
Proof.
  unfold bind, andThen. rewrite interp_pbind.
  destruct (value (interp (m s) w)) as [[msg | a] s']; cbn [interp world trace value].
  - now rewrite app_nil_r.
  - reflexivity.
Qed.

Lemma interp_tryCatch {S A} (body : M S A) (handler : Error -> M S A) (s : S) (w : W) :
  interp (tryCatch body handler s) w = orElse (interp (body s) w) handler.
Proof.
  unfold tryCatch, orElse. rewrite interp_pbind.
  destruct (value (interp (body s) w)) as [[msg | a] s']; cbn [interp world trace value].
  - reflexivity.
  - now rewrite app_nil_r.
Qed.

Lemma run_ext {A} (r r' : Run (W := W) A) :
  world r = world r' -> trace r = trace r' -> value r = value r' -> r = r'.
Proof. destruct r, r'; cbn; intros; subst; reflexivity. Qed.

End InterpFacts.

(** Symbolic execution: unfold the monad and the interpreter, then split on
    the answer of the next request or on the next test. *)

Ltac js_cbn :=
  cbn [interp pbind bind tryCatch call ret throw modify get handle after Resp
       fst snd world trace value app
       AddScript.push AddScript.incr_successCount AddScript.incr_inviteCount
       AddScript.incr_failCount AddScript.incr_skipCount
       AddScript.successCount AddScript.inviteCount AddScript.failCount
       AddScript.skipCount AddScript.results
       RemoveScript.push RemoveScript.incr_successCount RemoveScript.incr_failCount
       RemoveScript.successCount RemoveScript.failCount RemoveScript.results].

Ltac js := js_cbn; unfold when; js_cbn.

Ltac answer :=
  match goal with
  | |- context [getChatById ?a ?w] =>
      let E := fresh "E" in destruct (getChatById a w) as [? [?|?]] eqn:E
  | |- context [addParticipants ?a ?b ?w] =>
      let E := fresh "E" in destruct (addParticipants a b w) as [? [?|[]]] eqn:E
  | |- context [removeParticipants ?a ?b ?w] =>
      let E := fresh "E" in destruct (removeParticipants a b w) as [? [?|[]]] eqn:E
  | |- context [getInviteCode ?a ?w] =>
      let E := fresh "E" in destruct (getInviteCode a w) as [? [?|?]] eqn:E
  | |- context [if ?b then _ else _] =>
      let E := fresh "E" in destruct b eqn:E
  | |- context [sendMessage ?a ?b ?w] =>
      let E := fresh "E" in destruct (sendMessage a b w) as [? [?|[]]] eqn:E
  | |- context [writeFileSync ?a ?b ?w] =>
      let E := fresh "E" in destruct (writeFileSync a b w) as [? [?|[]]] eqn:E
  end; js.

Lemma length_eqb_0 {A} (l : list A) : l <> [] -> (length l =? 0)%nat = false.
Proof. destruct l; [congruence | reflexivity]. Qed.

(** ** The add loop *)

Section AddFacts.

Import AddScript.
Context {W : Type} `{Session W}.

(** Every path through the loop body ends normally and has pushed exactly
    one record, for the number of this iteration. *)
Lemma add_iteration_outcome targetGroup groupInviteCode n i phoneNumber s (w : W) :
  let r := interp (iteration targetGroup groupInviteCode n i phoneNumber s) w in
  fst (value r) = inr tt /\
  exists o, results (snd (value r)) = results s ++ [o] /\ Add.number o = phoneNumber.
Proof.
  cbv zeta. unfold iteration, directAdd, inviteFallback. js.
  repeat answer; (split; [reflexivity | eexists; split; reflexivity]).
Qed.

Lemma add_loop_outcomes targetGroup groupInviteCode n todo :
  forall i s (w : W),
  let r := interp (loop targetGroup groupInviteCode n i todo s) w in
  fst (value r) = inr tt /\
  exists os, results (snd (value r)) = results s ++ os /\ map Add.number os = todo.
Proof.
  induction todo as [| phoneNumber rest IH]; intros i s w; cbv zeta.
  - cbn. split; [reflexivity|]. exists []. now rewrite app_nil_r.
  - cbn [loop]. rewrite interp_bind. unfold andThen.
    destruct (add_iteration_outcome targetGroup groupInviteCode n i phoneNumber s w)
      as [Hv [o [Hr Hn]]].
    destruct (value (interp (iteration targetGroup groupInviteCode n i phoneNumber s) w))
      as [v s1]. cbn [fst snd] in Hv, Hr. subst v. cbn [world trace value].
    destruct (IH (S i) s1
                (world (interp (iteration targetGroup groupInviteCode n i phoneNumber s) w)))
      as [Hv' [os [Hr' Hn']]].
    split; [exact Hv'|].
    exists (o :: os). rewrite Hr', Hr, <- app_assoc. cbn. now rewrite Hn, Hn'.
Qed.

(** The whole run, once the group is found, the admin check passes and the
    filter leaves something to do: the invite code is asked for, the loop
    runs over the filtered list, and the summary is handed to
    [writeFileSync]. *)
Lemma add_run myId participants_to_add (w w1 : W) chats targetGroup :
  let toAdd := participantsToAdd targetGroup participants_to_add in
  let already := alreadyInGroup targetGroup participants_to_add in
  let gid := _serialized (c_id targetGroup) in
  let asked := getInviteCode gid w1 in
  let rl := interp (loop targetGroup (codeOf (snd asked)) (length toAdd) 0 toAdd initial)
                   (fst asked) in
  let s := snd (value rl) in
  let first := toISOString (world rl) in
  let second := toISOString (fst first) in
  let iso := snd first in
  let data := AddResults (summary targetGroup toAdd already (snd second) s) in
  let wrote := writeFileSync (resultsFile iso) data (fst second) in
  getChats w = (w1, inr chats) ->
  findTargetGroup chats = Some targetGroup ->
  notAdmin myId targetGroup = false ->
  toAdd <> [] ->
  interp (addParticipantsToGroup myId participants_to_add initial) w =
  {| world := fst wrote;
     trace := GetChats :: GetInviteCode gid ::
              trace rl ++ [ToISOString; ToISOString; WriteFileSync (resultsFile iso) data];
     value := (inr (exitOf (resultsFile iso) (snd wrote)), s) |}.
Proof.
  cbv zeta. intros Hc Hg Ha Hne.
  unfold addParticipantsToGroup. js. rewrite Hc. js. rewrite Hg, Ha.
  rewrite (length_eqb_0 _ Hne). js.
  destruct (getInviteCode (_serialized (c_id targetGroup)) w1) as [w2 rc].
  destruct (add_loop_outcomes targetGroup (codeOf rc)
              (length (participantsToAdd targetGroup participants_to_add)) 
              (participantsToAdd targetGroup participants_to_add) 0 initial w2) as [Hv _].
  destruct rc as [e | c]; cbn [codeOf fst snd] in *; js;
    rewrite interp_pbind, interp_bind; unfold andThen; cbn [world trace value];
    match goal with
    | |- context [value (interp ?p w2)] =>
        destruct (value (interp p w2)) as [v s] eqn:Ev
    end; cbn [fst snd] in *; subst v; unfold saveResults; js;
    match goal with
    | |- context [writeFileSync ?f ?d ?x] =>
        destruct (writeFileSync f d x) as [w3 [msg | []]]
    end; js; apply run_ext; cbn [world trace value exitOf];
    rewrite ?app_nil_r; reflexivity.
Qed.

End AddFacts.

(** ** The removal loop *)

Section RemoveFacts.

Import RemoveScript.
Context {W : Type} `{Session W}.

Lemma remove_iteration_outcome targetGroup n i phoneNumber s (w : W) :
  let r := interp (iteration targetGroup n i phoneNumber s) w in
  fst (value r) = inr tt /\
  exists o, results (snd (value r)) = results s ++ [o] /\ Remove.number o = phoneNumber.
Proof.
  cbv zeta. unfold iteration, notify. js.
  destruct (find _ _); js;
    repeat answer; (split; [reflexivity | eexists; split; reflexivity]).
Qed.

Lemma remove_loop_outcomes targetGroup n todo :
  forall i s (w : W),
  let r := interp (loop targetGroup n i todo s) w in
  fst (value r) = inr tt /\
  exists os, results (snd (value r)) = results s ++ os /\ map Remove.number os = todo.
Proof.
  induction todo as [| phoneNumber rest IH]; intros i s w; cbv zeta.
  - cbn. split; [reflexivity|]. exists []. now rewrite app_nil_r.
  - cbn [loop]. rewrite interp_bind. unfold andThen.
    destruct (remove_iteration_outcome targetGroup n i phoneNumber s w)
      as [Hv [o [Hr Hn]]].
    destruct (value (interp (iteration targetGroup n i phoneNumber s) w))
      as [v s1]. cbn [fst snd] in Hv, Hr. subst v. cbn [world trace value].
    destruct (IH (S i) s1 (world (interp (iteration targetGroup n i phoneNumber s) w)))
      as [Hv' [os [Hr' Hn']]].
    split; [exact Hv'|].
    exists (o :: os). rewrite Hr', Hr, <- app_assoc. cbn. now rewrite Hn, Hn'.
Qed.

Lemma remove_run myId inactive_participants (w w1 : W) chats targetGroup :
  let toRemove := participantsToRemove targetGroup inactive_participants in
  let absent := notInGroup targetGroup inactive_participants in
  let rl := interp (loop targetGroup (length toRemove) 0 toRemove initial) w1 in
  let s := snd (value rl) in
  let first := toISOString (world rl) in
  let second := toISOString (fst first) in
  let iso := snd first in
  let data := RemovalResults (summary targetGroup toRemove absent (snd second) s) in
  let wrote := writeFileSync (resultsFile iso) data (fst second) in
  getChats w = (w1, inr chats) ->
  findTargetGroup chats = Some targetGroup ->
  notAdmin myId targetGroup = false ->
  toRemove <> [] ->
  interp (removeInactiveParticipants myId inactive_participants initial) w =
  {| world := fst wrote;
     trace := GetChats ::
              trace rl ++ [ToISOString; ToISOString; WriteFileSync (resultsFile iso) data];
     value := (inr (exitOf (resultsFile iso) (snd wrote)), s) |}.
Proof.
  cbv zeta. intros Hc Hg Ha Hne.
  unfold removeInactiveParticipants. js. rewrite Hc. js. rewrite Hg, Ha.
  rewrite (length_eqb_0 _ Hne). js.
  destruct (remove_loop_outcomes targetGroup
              (length (participantsToRemove targetGroup inactive_participants))
              (participantsToRemove targetGroup inactive_participants) 0 initial w1)
    as [Hv _].
  rewrite interp_pbind, interp_bind; unfold andThen; cbn [world trace value].
  match goal with
  | |- context [value (interp ?p w1)] =>
      destruct (value (interp p w1)) as [v s] eqn:Ev
  end.
  cbn [fst snd] in *; subst v; unfold saveResults; js.
  match goal with
  | |- context [writeFileSync ?f ?d ?x] =>
      destruct (writeFileSync f d x) as [w3 [msg | []]]
  end; js; apply run_ext; cbn [world trace value exitOf];
    rewrite ?app_nil_r; reflexivity.
Qed.

End RemoveFacts.

(** * The claims *)

(** ** C1: one record per processed number *)

Section OutcomesPerTarget.

Context {W : Type} `{Session W}.

Lemma add_outcomes_are_filtered_targets myId participants_to_add (w w1 : W) chats targetGroup :
  getChats w = (w1, inr chats) ->
  AddScript.findTargetGroup chats = Some targetGroup ->
  AddScript.notAdmin myId targetGroup = false ->
  map Add.number
      (AddScript.results
         (snd (value (interp (AddScript.addParticipantsToGroup myId participants_to_add
                                AddScript.initial) w))))
  = AddScript.participantsToAdd targetGroup participants_to_add.
Proof.
  intros Hc Hg Ha.
  destruct (AddScript.participantsToAdd targetGroup participants_to_add) as [| t ts] eqn:Et.
  - unfold AddScript.addParticipantsToGroup. js. rewrite Hc. js. rewrite Hg, Ha, Et.
    reflexivity.
  - assert (Hne : AddScript.participantsToAdd targetGroup participants_to_add <> [])
      by (rewrite Et; discriminate).
    rewrite (add_run myId participants_to_add w w1 chats targetGroup Hc Hg Ha Hne). cbn [value snd].
    match goal with
    | |- context [interp (AddScript.loop ?g ?c ?n ?i ?todo ?s) ?x] =>
        destruct (add_loop_outcomes g c n todo i s x) as [_ [os [Hr Hn]]]
    end.
    rewrite Hr. cbn [AddScript.initial AddScript.results app].
    rewrite Hn. exact Et.
Qed.

Lemma remove_outcomes_are_filtered_targets myId inactive_participants (w w1 : W)
      chats targetGroup :
  getChats w = (w1, inr chats) ->
  RemoveScript.findTargetGroup chats = Some targetGroup ->
  RemoveScript.notAdmin myId targetGroup = false ->
  map Remove.number
      (RemoveScript.results
         (snd (value (interp (RemoveScript.removeInactiveParticipants myId
                                inactive_participants RemoveScript.initial) w))))
  = RemoveScript.participantsToRemove targetGroup inactive_participants.
Proof.
  intros Hc Hg Ha.
  destruct (RemoveScript.participantsToRemove targetGroup inactive_participants)
    as [| t ts] eqn:Et.
  - unfold RemoveScript.removeInactiveParticipants. js. rewrite Hc. js.
    rewrite Hg, Ha, Et. reflexivity.
  - assert (Hne : RemoveScript.participantsToRemove targetGroup inactive_participants <> [])
      by (rewrite Et; discriminate).
    rewrite (remove_run myId inactive_participants w w1 chats targetGroup Hc Hg Ha Hne).
    cbn [value snd].
    match goal with
    | |- context [interp (RemoveScript.loop ?g ?n ?i ?todo ?s) ?x] =>
        destruct (remove_loop_outcomes g n todo i s x) as [_ [os [Hr Hn]]]
    end.
    rewrite Hr. cbn [RemoveScript.initial RemoveScript.results app].
    rewrite Hn. exact Et.
Qed.

(** A number that passed the filter but is found in the group by the
    check at the top of its own iteration is recorded as
    [already_in_group]. *)
Lemma add_precheck_skips targetGroup groupInviteCode n i phoneNumber s (w w1 : W) g1 :
  getChatById (_serialized (c_id targetGroup)) w = (w1, inr g1) ->
  AddScript.inGroup (AddScript.participantIdOf phoneNumber) g1 = true ->
  interp (AddScript.iteration targetGroup groupInviteCode n i phoneNumber s) w =
  {| world := w1;
     trace := [GetChatById (_serialized (c_id targetGroup))];
     value := (inr tt,
               {| AddScript.successCount := AddScript.successCount s;
                  AddScript.inviteCount := AddScript.inviteCount s;
                  AddScript.failCount := AddScript.failCount s;
                  AddScript.skipCount := S (AddScript.skipCount s);
                  AddScript.results := AddScript.results s ++
                    [{| Add.number := phoneNumber; Add.status := Add.already_in_group;
                        Add.method := Add.skipped; Add.inviteLink := None;
                        Add.error := None |}] |}) |}.
Proof.
  intros Hq Hin. unfold AddScript.iteration. js. rewrite Hq. js. rewrite Hin. js.
  reflexivity.
Qed.

Lemma remove_precheck_skips targetGroup n i phoneNumber s (w : W) :
  find (fun p => _serialized (p_id p) =? RemoveScript.participantIdOf phoneNumber)%string
       (participants targetGroup) = None ->
  interp (RemoveScript.iteration targetGroup n i phoneNumber s) w =
  {| world := w;
     trace := [];
     value := (inr tt,
               {| RemoveScript.successCount := RemoveScript.successCount s;
                  RemoveScript.failCount := RemoveScript.failCount s;
                  RemoveScript.results := RemoveScript.results s ++
                    [{| Remove.number := phoneNumber;
                        Remove.status := Remove.already_removed;
                        Remove.notificationSent := Some false;
                        Remove.msgError := None; Remove.error := None |}] |}) |}.
Proof.
  intros Hf. unfold RemoveScript.iteration. js. rewrite Hf. js. reflexivity.
Qed.

End OutcomesPerTarget.

Lemma filter_disjoint {A} (f : A -> bool) (l : list A) (x : A) :
  In x (filter f l) -> ~ In x (filter (fun y => negb (f y)) l).
Proof.
  intros H1 H2. apply filter_In in H1 as [_ H1]. apply filter_In in H2 as [_ H2].
  rewrite H1 in H2. discriminate.
Qed.

(** C1 (amended).  A run that finds the group and passes the admin check
    creates exactly one record per number that the pre-loop filter kept, in
    the order of the filtered list; the [results] array therefore has the
    length of the filtered list, not of the supplied one.  A supplied number
    that the filter set aside (already in the group when adding, not in the
    group when removing) gets no record.  A number that passed the filter and
    is found satisfied by the check of its own iteration is recorded as
    [already_in_group], respectively [already_removed]. *)
Theorem one_outcome_per_processed_target :
  (forall (W : Type) (H : Session W) myId participants_to_add (w w1 : W) chats targetGroup,
      getChats w = (w1, inr chats) ->
      AddScript.findTargetGroup chats = Some targetGroup ->
      AddScript.notAdmin myId targetGroup = false ->
      let outcomes :=
        AddScript.results
          (snd (value (interp (AddScript.addParticipantsToGroup myId participants_to_add
                                 AddScript.initial) w))) in
      map Add.number outcomes = AddScript.participantsToAdd targetGroup participants_to_add /\
      length outcomes = length (AddScript.participantsToAdd targetGroup participants_to_add) /\
      (forall t, In t (AddScript.alreadyInGroup targetGroup participants_to_add) ->
                 ~ In t (map Add.number outcomes)))
  /\
  (forall (W : Type) (H : Session W) myId inactive_participants (w w1 : W) chats targetGroup,
      getChats w = (w1, inr chats) ->
      RemoveScript.findTargetGroup chats = Some targetGroup ->
      RemoveScript.notAdmin myId targetGroup = false ->
      let outcomes :=
        RemoveScript.results
          (snd (value (interp (RemoveScript.removeInactiveParticipants myId
                                 inactive_participants RemoveScript.initial) w))) in
      map Remove.number outcomes
      = RemoveScript.participantsToRemove targetGroup inactive_participants /\
      length outcomes
      = length (RemoveScript.participantsToRemove targetGroup inactive_participants) /\
      (forall t, In t (RemoveScript.notInGroup targetGroup inactive_participants) ->
                 ~ In t (map Remove.number outcomes)))
  /\
  (forall (W : Type) (H : Session W) targetGroup groupInviteCode n i phoneNumber s (w w1 : W) g1,
      getChatById (_serialized (c_id targetGroup)) w = (w1, inr g1) ->
      AddScript.inGroup (AddScript.participantIdOf phoneNumber) g1 = true ->
      AddScript.results
        (snd (value (interp (AddScript.iteration targetGroup groupInviteCode n i
                               phoneNumber s) w)))
      = AddScript.results s ++
        [{| Add.number := phoneNumber; Add.status := Add.already_in_group;
            Add.method := Add.skipped; Add.inviteLink := None; Add.error := None |}])
  /\
  (forall (W : Type) (H : Session W) targetGroup n i phoneNumber s (w : W),
      find (fun p => _serialized (p_id p) =? RemoveScript.participantIdOf phoneNumber)%string
           (participants targetGroup) = None ->
      RemoveScript.results
        (snd (value (interp (RemoveScript.iteration targetGroup n i phoneNumber s) w)))
      = RemoveScript.results s ++
        [{| Remove.number := phoneNumber; Remove.status := Remove.already_removed;
            Remove.notificationSent := Some false; Remove.msgError := None;
            Remove.error := None |}]).
Proof.
  split; [| split; [| split]].
  - intros W H myId targets w w1 chats g Hc Hg Ha outcomes.
    assert (E : map Add.number outcomes = AddScript.participantsToAdd g targets)
      by (apply add_outcomes_are_filtered_targets with (w1 := w1) (chats := chats);
          assumption).
    split; [exact E | split].
    + now rewrite <- E, length_map.
    + intros t Ht. rewrite E. now apply filter_disjoint.
  - intros W H myId targets w w1 chats g Hc Hg Ha outcomes.
    assert (E : map Remove.number outcomes = RemoveScript.participantsToRemove g targets)
      by (apply remove_outcomes_are_filtered_targets with (w1 := w1) (chats := chats);
          assumption).
    split; [exact E | split].
    + now rewrite <- E, length_map.
    + intros t Ht Hin. rewrite E in Hin. exact (filter_disjoint _ _ _ Hin Ht).
  - intros W H g code n i phoneNumber s w w1 g1 Hq Hin.
    now rewrite (add_precheck_skips g code n i phoneNumber s w w1 g1).
  - intros W H g n i phoneNumber s w Hf.
    now rewrite remove_precheck_skips.
Qed.

(** C1, as stated, fails: of two supplied numbers, one already in the
    group, the add run records one outcome only, and none for the number
    already in the group. *)
Lemma supplied_target_without_outcome :
  let targets := ["+1111"; "+2222"] in
  let outcomes := Scenario.addOutcomes targets (Sim.start [Scenario.addGroup ["1111"]]) in
  length outcomes = 1 /\
  length outcomes <> length targets /\
  ~ In "+1111" (map Add.number outcomes).
Proof.
  vm_compute. repeat split; try discriminate.
  intros [E | []]. discriminate E.
Qed.

Lemma one_outcome_per_processed_target_witness :
  let targets := ["+1111"; "+2222"] in
  let w := Sim.start [Scenario.addGroup ["1111"]] in
  getChats w = (w, inr [Scenario.addGroup ["1111"]]) /\
  AddScript.findTargetGroup [Scenario.addGroup ["1111"]] = Some (Scenario.addGroup ["1111"]) /\
  AddScript.notAdmin Sim.me (Scenario.addGroup ["1111"]) = false /\
  map Add.number (Scenario.addOutcomes targets w)
  = AddScript.participantsToAdd (Scenario.addGroup ["1111"]) targets.
Proof.
  cbv zeta. split; [reflexivity|]. split; [reflexivity|]. split; [reflexivity|].
  apply (proj1 one_outcome_per_processed_target Sim.World Sim.session Sim.me
           ["+1111"; "+2222"] (Sim.start [Scenario.addGroup ["1111"]])
           (Sim.start [Scenario.addGroup ["1111"]]) [Scenario.addGroup ["1111"]]
           (Scenario.addGroup ["1111"])); reflexivity.
Defined.

(** ** C6: the admin check *)

(** C6.  When the account is not an admin of the target group, either
    script stops right after the check: the only request it has issued is
    [getChats()], so no add, removal, invite or notification was sent and no
    timer was started, and [results] is empty. *)
Theorem not_admin_aborts_before_any_target :
  (forall (W : Type) (H : Session W) myId participants_to_add (w w1 : W) chats targetGroup,
      getChats w = (w1, inr chats) ->
      AddScript.findTargetGroup chats = Some targetGroup ->
      AddScript.notAdmin myId targetGroup = true ->
      let r := interp (AddScript.addParticipantsToGroup myId participants_to_add
                         AddScript.initial) w in
      trace r = [GetChats] /\
      fst (value r) = inr NotAdmin /\
      AddScript.results (snd (value r)) = [] /\
      world r = w1)
  /\
  (forall (W : Type) (H : Session W) myId inactive_participants (w w1 : W) chats targetGroup,
      getChats w = (w1, inr chats) ->
      RemoveScript.findTargetGroup chats = Some targetGroup ->
      RemoveScript.notAdmin myId targetGroup = true ->
      let r := interp (RemoveScript.removeInactiveParticipants myId inactive_participants
                         RemoveScript.initial) w in
      trace r = [GetChats] /\
      fst (value r) = inr NotAdmin /\
      RemoveScript.results (snd (value r)) = [] /\
      world r = w1).
Proof.
  split; intros W H myId targets w w1 chats g Hc Hg Ha r; subst r.
  - unfold AddScript.addParticipantsToGroup. js. rewrite Hc. js. rewrite Hg, Ha. js.
    repeat split.
  - unfold RemoveScript.removeInactiveParticipants. js. rewrite Hc. js. rewrite Hg, Ha. js.
    repeat split.
Qed.

Lemma not_admin_aborts_before_any_target_witness :
  let g := Sim.group AddScript.TARGET_GROUP_ID Sim.me false ["1111"] in
  let w := Sim.start [g] in
  getChats w = (w, inr [g]) /\
  AddScript.findTargetGroup [g] = Some g /\
  AddScript.notAdmin Sim.me g = true /\
  trace (Scenario.runAdd ["+2222"; "+3333"] w) = [GetChats] /\
  Scenario.addOutcomes ["+2222"; "+3333"] w = [].
Proof.
  cbv zeta. split; [reflexivity|]. split; [reflexivity|]. split; [reflexivity|].
  pose proof (proj1 not_admin_aborts_before_any_target Sim.World Sim.session Sim.me
                ["+2222"; "+3333"]
                (Sim.start [Sim.group AddScript.TARGET_GROUP_ID Sim.me false ["1111"]])
                (Sim.start [Sim.group AddScript.TARGET_GROUP_ID Sim.me false ["1111"]])
                [Sim.group AddScript.TARGET_GROUP_ID Sim.me false ["1111"]]
                (Sim.group AddScript.TARGET_GROUP_ID Sim.me false ["1111"])
                eq_refl eq_refl eq_refl) as [Ht [_ [Hr _]]].
  split; [exact Ht | exact Hr].
Defined.

(** ** C7: a second run *)

Lemma filter_none {A} (f : A -> bool) (l : list A) :
  (forall x, In x l -> f x = false) -> filter f l = [].
Proof.
  induction l as [| a l IH]; intros Hf; [reflexivity|]. cbn.
  rewrite (Hf a (or_introl eq_refl)). apply IH. intros x Hx. apply Hf. now right.
Qed.

Lemma existsb_false_find {A} (f : A -> bool) (l : list A) :
  existsb f l = false -> find f l = None.
Proof.
  induction l as [| a l IH]; cbn; [reflexivity|].
  destruct (f a); [discriminate | exact IH].
Qed.

Lemma skipped_removals_count (l : list string) :
  length (filter RemoveScript.isAlreadyRemoved (map alreadyRemovedRecord l)) = length l /\
  length (filter (fun r => RemoveScript.isRemoved r && RemoveScript.notificationSentIs true r)
                 (map alreadyRemovedRecord l)) = 0.
Proof. induction l as [| t l [IH1 IH2]]; cbn; auto. Qed.

Section SecondRun.

Context {W : Type} `{Session W}.

(** The add loop in a session that shows every number of [todo] in the
    group whenever the group is asked for: each iteration asks once and
    skips. *)
Lemma add_loop_satisfied (Stable : W -> Prop) targetGroup groupInviteCode n todo :
  (forall w', Stable w' ->
     Stable (fst (getChatById (_serialized (c_id targetGroup)) w')) /\
     exists g, snd (getChatById (_serialized (c_id targetGroup)) w') = inr g /\
               forall t, In t todo ->
                         AddScript.inGroup (AddScript.participantIdOf t) g = true) ->
  forall i s (w : W),
    Stable w ->
    let r := interp (AddScript.loop targetGroup groupInviteCode n i todo s) w in
    trace r = repeat (GetChatById (_serialized (c_id targetGroup))) (length todo) /\
    value r
    = (inr tt,
       {| AddScript.successCount := AddScript.successCount s;
          AddScript.inviteCount := AddScript.inviteCount s;
          AddScript.failCount := AddScript.failCount s;
          AddScript.skipCount := length todo + AddScript.skipCount s;
          AddScript.results := AddScript.results s ++ map alreadyInGroupRecord todo |}).
Proof.
  induction todo as [| t rest IH]; intros Hq i s w Hs; cbv zeta.
  - cbn. rewrite app_nil_r. destruct s; auto.
  - cbn [AddScript.loop]. rewrite interp_bind. unfold andThen.
    destruct (Hq w Hs) as [Hs' [g [Hg Hin]]].
    destruct (getChatById (_serialized (c_id targetGroup)) w) as [w' a] eqn:E.
    cbn [fst snd] in Hs', Hg. subst a.
    rewrite (add_precheck_skips targetGroup groupInviteCode n i t s w w' g E
               (Hin t (or_introl eq_refl))).
    cbn [value world trace].
    destruct (IH (fun w0 Hw0 =>
                    match Hq w0 Hw0 with
                    | conj Ha (ex_intro _ g0 (conj Hb Hc)) =>
                        conj Ha (ex_intro _ g0 (conj Hb (fun t0 Ht0 => Hc t0 (or_intror Ht0))))
                    end)
                (S i)
                {| AddScript.successCount := AddScript.successCount s;
                   AddScript.inviteCount := AddScript.inviteCount s;
                   AddScript.failCount := AddScript.failCount s;
                   AddScript.skipCount := S (AddScript.skipCount s);
                   AddScript.results := AddScript.results s ++ [alreadyInGroupRecord t] |}
                w' Hs') as [Ht Hv].
    unfold alreadyInGroupRecord in Ht, Hv at 1. rewrite Ht, Hv.
    cbn [AddScript.successCount AddScript.inviteCount AddScript.failCount
         AddScript.skipCount AddScript.results length repeat map app].
    split; [reflexivity|]. rewrite <- app_assoc, Nat.add_succ_r. reflexivity.
Qed.

(** The removal loop over numbers that the group found at the start does
    not hold: no request at all, one [already_removed] record each. *)
Lemma remove_loop_satisfied targetGroup n todo :
  (forall t, In t todo ->
             RemoveScript.inGroup (RemoveScript.participantIdOf t) targetGroup = false) ->
  forall i s (w : W),
    interp (RemoveScript.loop targetGroup n i todo s) w
    = {| world := w; trace := [];
         value := (inr tt,
                   {| RemoveScript.successCount := RemoveScript.successCount s;
                      RemoveScript.failCount := RemoveScript.failCount s;
                      RemoveScript.results :=
                        RemoveScript.results s ++ map alreadyRemovedRecord todo |}) |}.
Proof.
  induction todo as [| t rest IH]; intros Hq i s w.
  - cbn. rewrite app_nil_r. destruct s; reflexivity.
  - cbn [RemoveScript.loop]. rewrite interp_bind. unfold andThen.
    rewrite (remove_precheck_skips targetGroup n i t s w
               (existsb_false_find _ _ (Hq t (or_introl eq_refl)))).
    cbn [value world trace].
    rewrite IH by (intros t0 Ht0; apply Hq; now right).
    cbn [RemoveScript.successCount RemoveScript.failCount RemoveScript.results map app].
    rewrite <- app_assoc. reflexivity.
Qed.

End SecondRun.

(** C7 (amended).  A run against a group state that reflects the
    successful mutations of an earlier run: whenever the add script asks
    for the group, every supplied number passes the membership test that
    verifies an add; the group the removal script finds holds none of the
    supplied numbers by the test that verifies a removal.  Such a run
    requests no add, removal, invite or notification and starts no timer.
    It records one [already_in_group] ([already_removed]) outcome for each
    number the pre-loop filter keeps and nothing for the numbers the filter
    drops; when the filter keeps nothing it returns before the loop with
    no record and no file. *)
Theorem second_run_only_skips :
  (forall (W : Type) (H : Session W) (Stable : W -> Prop) myId participants_to_add
          (w w1 : W) chats targetGroup,
      let gid := _serialized (c_id targetGroup) in
      let toAdd := AddScript.participantsToAdd targetGroup participants_to_add in
      let r := interp (AddScript.addParticipantsToGroup myId participants_to_add
                         AddScript.initial) w in
      getChats w = (w1, inr chats) ->
      AddScript.findTargetGroup chats = Some targetGroup ->
      AddScript.notAdmin myId targetGroup = false ->
      Stable w1 ->
      (forall w', Stable w' -> Stable (fst (getInviteCode gid w'))) ->
      (forall w', Stable w' ->
         Stable (fst (getChatById gid w')) /\
         exists g, snd (getChatById gid w') = inr g /\
                   forall t, In t participants_to_add ->
                             AddScript.inGroup (AddScript.participantIdOf t) g = true) ->
      AddScript.results (snd (value r)) = map alreadyInGroupRecord toAdd /\
      (toAdd = [] ->
       trace r = [GetChats] /\ fst (value r) = inr NothingToDo) /\
      (toAdd <> [] ->
       exists file data,
         trace r = GetChats :: GetInviteCode gid ::
                   repeat (GetChatById gid) (length toAdd)
                   ++ [ToISOString; ToISOString; WriteFileSync file (AddResults data)] /\
         Add.results data = map alreadyInGroupRecord toAdd /\
         Add.skipCount data = length toAdd /\
         Add.successCount data = 0 /\ Add.inviteCount data = 0 /\ Add.failCount data = 0))
  /\
  (forall (W : Type) (H : Session W) myId inactive_participants (w w1 : W) chats targetGroup,
      let toRemove := RemoveScript.participantsToRemove targetGroup inactive_participants in
      let r := interp (RemoveScript.removeInactiveParticipants myId inactive_participants
                         RemoveScript.initial) w in
      getChats w = (w1, inr chats) ->
      RemoveScript.findTargetGroup chats = Some targetGroup ->
      RemoveScript.notAdmin myId targetGroup = false ->
      (forall t, In t inactive_participants ->
                 RemoveScript.inGroup (RemoveScript.participantIdOf t) targetGroup = false) ->
      RemoveScript.results (snd (value r)) = map alreadyRemovedRecord toRemove /\
      (toRemove = [] ->
       trace r = [GetChats] /\ fst (value r) = inr NothingToDo) /\
      (toRemove <> [] ->
       exists file data,
         trace r = [GetChats; ToISOString; ToISOString;
                    WriteFileSync file (RemovalResults data)] /\
         Remove.results data = map alreadyRemovedRecord toRemove /\
         Remove.alreadyRemovedCount data = length toRemove /\
         Remove.successCount data = 0 /\ Remove.failCount data = 0 /\
         Remove.notificationsSent data = 0)).
Proof.
  split.
  - intros W H Stable myId targets w w1 chats g gid toAdd r Hc Hg Ha Hs Hi Hq.
    destruct toAdd as [| t0 ts] eqn:Et; subst toAdd.
    + assert (Er : r = {| world := w1; trace := [GetChats];
                          value := (inr NothingToDo, AddScript.initial) |}).
      { subst r. unfold AddScript.addParticipantsToGroup. js. rewrite Hc. js.
        rewrite Hg, Ha, Et. js. reflexivity. }
      rewrite Er. cbn [value trace fst snd AddScript.results AddScript.initial map].
      split; [reflexivity|]. split; [auto | intros Hne; now destruct Hne].
    + assert (Hne : AddScript.participantsToAdd g targets <> [])
        by (rewrite Et; discriminate).
      pose proof (add_run myId targets w w1 chats g Hc Hg Ha Hne) as Er.
      cbv zeta in Er. fold r in Er. rewrite Er. clear Er.
      destruct (add_loop_satisfied Stable g
                  (codeOf (snd (getInviteCode (_serialized (c_id g)) w1)))
                  (length (AddScript.participantsToAdd g targets))
                  (AddScript.participantsToAdd g targets)
                  (fun w0 Hw0 =>
                     match Hq w0 Hw0 with
                     | conj Hx (ex_intro _ g0 (conj Hy Hz)) =>
                         conj Hx (ex_intro _ g0
                                    (conj Hy (fun t1 Ht1 =>
                                                Hz t1 (proj1 (proj1 (filter_In _ _ _) Ht1)))))
                     end)
                  0 AddScript.initial
                  (fst (getInviteCode (_serialized (c_id g)) w1)) (Hi w1 Hs)) as [Ht Hv].
      cbv zeta in Ht, Hv. rewrite Ht, Hv. rewrite Et in *.
      cbn [value trace fst snd AddScript.results AddScript.initial app
           AddScript.skipCount AddScript.successCount AddScript.inviteCount
           AddScript.failCount].
      split; [reflexivity|]. split; [discriminate|]. intros _.
      eexists. eexists. split; [reflexivity|].
      cbn [AddScript.summary Add.results Add.skipCount Add.successCount Add.inviteCount
           Add.failCount AddScript.results AddScript.skipCount AddScript.successCount
           AddScript.inviteCount AddScript.failCount app].
      rewrite Nat.add_0_r. repeat split.
  - intros W H myId targets w w1 chats g toRemove r Hc Hg Ha Hq.
    destruct toRemove as [| t0 ts] eqn:Et; subst toRemove.
    + assert (Er : r = {| world := w1; trace := [GetChats];
                          value := (inr NothingToDo, RemoveScript.initial) |}).
      { subst r. unfold RemoveScript.removeInactiveParticipants. js. rewrite Hc. js.
        rewrite Hg, Ha, Et. js. reflexivity. }
      rewrite Er. cbn [value trace fst snd RemoveScript.results RemoveScript.initial map].
      split; [reflexivity|]. split; [auto | intros Hne; now destruct Hne].
    + assert (Hne : RemoveScript.participantsToRemove g targets <> [])
        by (rewrite Et; discriminate).
      pose proof (remove_run myId targets w w1 chats g Hc Hg Ha Hne) as Er.
      cbv zeta in Er. fold r in Er. rewrite Er. clear Er.
      rewrite remove_loop_satisfied
        by (intros t1 Ht1; apply Hq; exact (proj1 (proj1 (filter_In _ _ _) Ht1))).
      rewrite Et in *.
      cbn [value trace world fst snd RemoveScript.results RemoveScript.initial app
           RemoveScript.successCount RemoveScript.failCount].
      split; [reflexivity|]. split; [discriminate|]. intros _.
      eexists. eexists. split; [reflexivity|].
      cbn [RemoveScript.summary Remove.results Remove.alreadyRemovedCount
           Remove.successCount Remove.failCount Remove.notificationsSent
           RemoveScript.results RemoveScript.successCount RemoveScript.failCount app].
      destruct (skipped_removals_count (t0 :: ts)) as [E1 E2].
      rewrite E1, E2. repeat split.
Qed.

(** C7, as stated, fails: the first run adds the number; the second run,
    started in the world the first one left, records no outcome at all for
    it, where the claim expects an already-satisfied one. *)
Lemma second_run_records_nothing :
  let targets := ["+1111"] in
  let first := Scenario.runAdd targets (Sim.start [Scenario.addGroup []]) in
  let second := Scenario.runAdd targets (world first) in
  map Add.status (AddScript.results (snd (value first))) = [Add.added] /\
  AddScript.results (snd (value second)) = [] /\
  fst (value second) = inr NothingToDo /\
  ~ In Add.already_in_group (map Add.status (AddScript.results (snd (value second)))).
Proof.
  vm_compute. repeat split. intros [].
Qed.

Lemma second_run_only_skips_witness :
  let targets := ["+2222"; "3333"] in
  let first := Scenario.runAdd targets (Sim.start [Scenario.addGroup []]) in
  let w := world first in
  let second := Scenario.runAdd targets w in
  map Add.status (AddScript.results (snd (value first))) = [Add.added; Add.added] /\
  (forall w', Sim.chats w' = Sim.chats w ->
     Sim.chats (fst (getChatById AddScript.TARGET_GROUP_ID w')) = Sim.chats w /\
     exists g, snd (getChatById AddScript.TARGET_GROUP_ID w') = inr g /\
               forall t, In t targets ->
                         AddScript.inGroup (AddScript.participantIdOf t) g = true) /\
  AddScript.results (snd (value second)) = [alreadyInGroupRecord "3333"].
Proof.
  cbv zeta.
  assert (Hq : forall w',
             Sim.chats w'
             = Sim.chats (world (Scenario.runAdd ["+2222"; "3333"]
                                   (Sim.start [Scenario.addGroup []]))) ->
             Sim.chats (fst (getChatById AddScript.TARGET_GROUP_ID w'))
             = Sim.chats (world (Scenario.runAdd ["+2222"; "3333"]
                                   (Sim.start [Scenario.addGroup []]))) /\
             exists g, snd (getChatById AddScript.TARGET_GROUP_ID w') = inr g /\
                       forall t, In t ["+2222"; "3333"] ->
                                 AddScript.inGroup (AddScript.participantIdOf t) g = true).
  { intros w' Hw'. cbn [getChatById Sim.session]. unfold Sim.simGetChatById.
    rewrite Hw'.
    match goal with
    | |- context [find ?f ?l] =>
        let v := eval vm_compute in (find f l) in change (find f l) with v
    end.
    cbn [fst snd].
    split; [exact Hw'|]. eexists. split; [reflexivity|].
    intros t [<- | [<- | []]]; reflexivity. }
  split; [reflexivity|]. split; [exact Hq|].
  exact (proj1 (proj1 second_run_only_skips Sim.World Sim.session
                  (fun w' => Sim.chats w'
                             = Sim.chats (world (Scenario.runAdd ["+2222"; "3333"]
                                                   (Sim.start [Scenario.addGroup []]))))
                  Sim.me ["+2222"; "3333"]
                  (world (Scenario.runAdd ["+2222"; "3333"] (Sim.start [Scenario.addGroup []])))
                  (world (Scenario.runAdd ["+2222"; "3333"] (Sim.start [Scenario.addGroup []])))
                  _ _ eq_refl eq_refl eq_refl eq_refl (fun w' Hw' => Hw') Hq)).
Defined.

(** ** C2: what the fallback records *)

Section Fallback.

Import AddScript.
Context {W : Type} `{Session W}.

(** C2 (amended).  Take a number whose check at the top of the iteration
    passes and whose direct add fails with [addError] (the add request
    throws, the re-query throws, or the re-query does not show the number).
    Without an invite code the record is [failed] and carries [addError].
    With an invite code, the record is [invited] when [sendMessage]
    returns; when [sendMessage] throws, the record is [failed] and carries
    the error thrown by [sendMessage]. *)
Theorem fallback_outcome targetGroup groupInviteCode n i phoneNumber s
        (w w1 : W) g1 addError s1 :
  let participantId := participantIdOf phoneNumber in
  let primary := interp (directAdd targetGroup phoneNumber participantId s) w1 in
  let outcomes :=
    results (snd (value (interp (iteration targetGroup groupInviteCode n i phoneNumber s) w)))
  in
  getChatById (_serialized (c_id targetGroup)) w = (w1, inr g1) ->
  inGroup participantId g1 = false ->
  value primary = (inl addError, s1) ->
  (truthy groupInviteCode = false ->
   outcomes = results s ++ [failedWithoutInvite phoneNumber addError])
  /\
  (truthy groupInviteCode = true ->
   forall w3 sent,
     sendMessage participantId (inviteMessageOf groupInviteCode)
                 (setTimeout DELAYS.PRE_INVITE (world primary)) = (w3, sent) ->
     outcomes = results s ++
                [match sent with
                 | inr _ => invitedWith phoneNumber groupInviteCode
                 | inl sendError => failedWithError phoneNumber sendError
                 end]).
Proof.
  cbv zeta. intros Hq Hin.
  unfold iteration, inviteFallback, directAdd, failedWithoutInvite, invitedWith,
    failedWithError.
  js. rewrite Hq. js. rewrite Hin. js.
  repeat answer; intros Hd; (split; [intros Ht | intros Ht ? ? Hs]);
    repeat match goal with
           | E : (_, _) = (_, _) |- _ => inversion E; subst; clear E
           end;
    try discriminate; reflexivity.
Qed.

End Fallback.

(** C2, as stated, fails: the direct add throws "add refused", the invite
    message throws "send refused", and the record carries the second
    message. *)
Lemma fallback_error_replaces_add_error :
  let g := Scenario.addGroup [] in
  let w := Scenario.refusing [("1111@c.us", "add refused")] [("1111@c.us", "send refused")]
                             (inr "CODE") [g] in
  value (interp (AddScript.directAdd g "+1111" "1111@c.us" AddScript.initial) w)
  = (inl "add refused", AddScript.initial) /\
  map Add.status (Scenario.addOutcomes ["+1111"] w) = [Add.failed] /\
  map Add.error (Scenario.addOutcomes ["+1111"] w) = [Some "send refused"] /\
  map Add.error (Scenario.addOutcomes ["+1111"] w) <> [Some "add refused"].
Proof.
  vm_compute. repeat split. discriminate.
Qed.

Lemma fallback_outcome_witness :
  let g := Scenario.addGroup [] in
  let w := Scenario.refusing [("1111@c.us", "add refused")] [] (inl "no link") [g] in
  getChatById (_serialized (c_id g)) w = (w, inr g) /\
  AddScript.inGroup (AddScript.participantIdOf "+1111") g = false /\
  value (interp (AddScript.directAdd g "+1111" (AddScript.participantIdOf "+1111")
                                     AddScript.initial) w)
  = (inl "add refused", AddScript.initial) /\
  AddScript.results
    (snd (value (interp (AddScript.iteration g None 1 0 "+1111" AddScript.initial) w)))
  = [failedWithoutInvite "+1111" "add refused"].
Proof.
  cbv zeta. split; [reflexivity|]. split; [reflexivity|]. split; [reflexivity|].
  exact (proj1 (@fallback_outcome Sim.World Sim.session (Scenario.addGroup []) None 1 0
                  "+1111" AddScript.initial
                  (Scenario.refusing [("1111@c.us", "add refused")] [] (inl "no link")
                                     [Scenario.addGroup []])
                  (Scenario.refusing [("1111@c.us", "add refused")] [] (inl "no link")
                                     [Scenario.addGroup []])
                  (Scenario.addGroup []) "add refused" AddScript.initial
                  eq_refl eq_refl eq_refl) eq_refl).
Defined.

(** ** C3: a notification that fails *)

(** C3.  When the removal request returns, the re-query no longer shows the
    number and the notification message throws, the iteration ends normally
    with the record [removed] and [notificationSent = false]; the removal
    counts as a success, not as a failure. *)
Theorem notification_failure_keeps_removed
        (W : Type) (H : Session W) targetGroup n i phoneNumber s
        (w w1 w2 w3 : W) currentParticipant updatedGroup msgError :
  let participantId := RemoveScript.participantIdOf phoneNumber in
  let gid := _serialized (c_id targetGroup) in
  let r := interp (RemoveScript.iteration targetGroup n i phoneNumber s) w in
  find (fun p => _serialized (p_id p) =? participantId)%string (participants targetGroup)
  = Some currentParticipant ->
  removeParticipants gid [participantId] w = (w1, inr tt) ->
  getChatById gid (setTimeout RemoveScript.DELAYS.VERIFICATION w1) = (w2, inr updatedGroup) ->
  RemoveScript.inGroup participantId updatedGroup = false ->
  sendMessage participantId RemoveScript.REMOVAL_MESSAGE
              (setTimeout RemoveScript.DELAYS.PRE_NOTIFICATION w2) = (w3, inl msgError) ->
  fst (value r) = inr tt /\
  RemoveScript.results (snd (value r))
  = RemoveScript.results s ++ [removedUnnotified phoneNumber msgError] /\
  RemoveScript.successCount (snd (value r)) = S (RemoveScript.successCount s) /\
  RemoveScript.failCount (snd (value r)) = RemoveScript.failCount s.
Proof.
  cbv zeta. intros Hf Hr Hq Hin Hs.
  unfold RemoveScript.iteration, RemoveScript.notify. js.
  rewrite Hf. js. rewrite Hr. js. rewrite Hq. js. rewrite Hin. js. rewrite Hs. js.
  destruct (i <? n - 1)%nat; js; repeat split.
Qed.

Lemma notification_failure_keeps_removed_witness :
  let g := Scenario.removeGroup ["1111"] in
  let g' := Scenario.removeGroup [] in
  let w := Scenario.refusing [] [("1111@c.us", "blocked")] (inr "CODE") [g] in
  let w' := Scenario.refusing [] [("1111@c.us", "blocked")] (inr "CODE") [g'] in
  find (fun p => _serialized (p_id p) =? RemoveScript.participantIdOf "+1111")%string
       (participants g) = Some (Sim.member "1111@c.us") /\
  removeParticipants (_serialized (c_id g)) [RemoveScript.participantIdOf "+1111"] w
  = (w', inr tt) /\
  getChatById (_serialized (c_id g)) (setTimeout RemoveScript.DELAYS.VERIFICATION w')
  = (w', inr g') /\
  RemoveScript.inGroup (RemoveScript.participantIdOf "+1111") g' = false /\
  sendMessage (RemoveScript.participantIdOf "+1111") RemoveScript.REMOVAL_MESSAGE
              (setTimeout RemoveScript.DELAYS.PRE_NOTIFICATION w') = (w', inl "blocked") /\
  RemoveScript.results
    (snd (value (interp (RemoveScript.iteration g 1 0 "+1111" RemoveScript.initial) w)))
  = [removedUnnotified "+1111" "blocked"].
Proof.
  cbv zeta. split; [reflexivity|]. split; [reflexivity|]. split; [reflexivity|].
  split; [reflexivity|]. split; [reflexivity|].
  exact (proj1 (proj2
    (notification_failure_keeps_removed Sim.World Sim.session
       (Scenario.removeGroup ["1111"]) 1 0 "+1111" RemoveScript.initial
       (Scenario.refusing [] [("1111@c.us", "blocked")] (inr "CODE")
                          [Scenario.removeGroup ["1111"]])
       (Scenario.refusing [] [("1111@c.us", "blocked")] (inr "CODE")
                          [Scenario.removeGroup []])
       (Scenario.refusing [] [("1111@c.us", "blocked")] (inr "CODE")
                          [Scenario.removeGroup []])
       (Scenario.refusing [] [("1111@c.us", "blocked")] (inr "CODE")
                          [Scenario.removeGroup []])
       (Sim.member "1111@c.us") (Scenario.removeGroup []) "blocked"
       eq_refl eq_refl eq_refl eq_refl eq_refl))).
Defined.

(** ** C4: the re-query decides *)

Ltac settle :=
  repeat match goal with
         | |- _ /\ _ => split
         | |- _ <-> _ => split
         | |- forall _, _ => intro
         | E : inr _ = inr _ |- _ => inversion E; subst; clear E
         | E : inl _ = inr _ |- _ => discriminate E
         | E : inr _ = inl _ |- _ => discriminate E
         | E : exists _, _ /\ _ |- _ => destruct E as [? [? ?]]
         end;
  try discriminate; try congruence; try reflexivity; eauto.

(** C4 (amended).  Once the add (or removal) request has returned without
    error, the script waits [DELAYS.VERIFICATION] and asks for the group
    again, and the record depends on that answer alone: [added] exactly
    when the re-query shows the number in the group, [removed] exactly when
    it shows the number gone.  A re-query that contradicts the request
    makes the direct add throw the verification error, which is handled as
    any failed add (invite fallback, or [failed] with that error when there
    is no invite code); for a removal the record is [failed] with the
    verification error.

    When the add (or removal) request throws, the group is not asked for
    again: the exception alone makes the number a primary failure.  For an
    add the invite fallback follows at once, or the record is [failed] with
    the thrown message when there is no invite code; for a removal the
    record is [failed] with the thrown message and the only request left is
    the [AFTER_FAILURE] timer before the next number. *)
Theorem requery_decides_outcome :
  (forall (W : Type) (H : Session W) targetGroup groupInviteCode n i phoneNumber s
          (w w1 w2 w3 : W) g1 requery,
      let participantId := AddScript.participantIdOf phoneNumber in
      let gid := _serialized (c_id targetGroup) in
      let r := interp (AddScript.iteration targetGroup groupInviteCode n i phoneNumber s) w in
      getChatById gid w = (w1, inr g1) ->
      AddScript.inGroup participantId g1 = false ->
      addParticipants gid [participantId] w1 = (w2, inr tt) ->
      getChatById gid (setTimeout AddScript.DELAYS.VERIFICATION w2) = (w3, requery) ->
      firstn 4 (trace r)
      = [GetChatById gid; AddParticipants gid [participantId];
         SetTimeout AddScript.DELAYS.VERIFICATION; GetChatById gid] /\
      exists o,
        AddScript.results (snd (value r)) = AddScript.results s ++ [o] /\
        (Add.status o = Add.added <->
         exists verifyGroup,
           requery = inr verifyGroup /\ AddScript.inGroup participantId verifyGroup = true) /\
        (forall verifyGroup,
            requery = inr verifyGroup ->
            AddScript.inGroup participantId verifyGroup = false ->
            value (interp (AddScript.directAdd targetGroup phoneNumber participantId s) w1)
            = (inl AddScript.verificationError, s) /\
            (truthy groupInviteCode = false ->
             o = failedWithoutInvite phoneNumber AddScript.verificationError) /\
            (truthy groupInviteCode = true ->
             firstn 2 (skipn 4 (trace r))
             = [SetTimeout AddScript.DELAYS.PRE_INVITE;
                SendMessage participantId (AddScript.inviteMessageOf groupInviteCode)])))
  /\
  (forall (W : Type) (H : Session W) targetGroup n i phoneNumber s
          (w w1 w2 : W) currentParticipant requery,
      let participantId := RemoveScript.participantIdOf phoneNumber in
      let gid := _serialized (c_id targetGroup) in
      let r := interp (RemoveScript.iteration targetGroup n i phoneNumber s) w in
      find (fun p => _serialized (p_id p) =? participantId)%string (participants targetGroup)
      = Some currentParticipant ->
      removeParticipants gid [participantId] w = (w1, inr tt) ->
      getChatById gid (setTimeout RemoveScript.DELAYS.VERIFICATION w1) = (w2, requery) ->
      firstn 3 (trace r)
      = [RemoveParticipants gid [participantId];
         SetTimeout RemoveScript.DELAYS.VERIFICATION; GetChatById gid] /\
      exists o,
        RemoveScript.results (snd (value r)) = RemoveScript.results s ++ [o] /\
        (Remove.status o = Remove.removed <->
         exists updatedGroup,
           requery = inr updatedGroup /\
           RemoveScript.inGroup participantId updatedGroup = false) /\
        (forall updatedGroup,
            requery = inr updatedGroup ->
            RemoveScript.inGroup participantId updatedGroup = true ->
            o = failedRemoval phoneNumber RemoveScript.verificationError))
  /\
  (forall (W : Type) (H : Session W) targetGroup groupInviteCode n i phoneNumber s
          (w w1 w2 : W) g1 addError,
      let participantId := AddScript.participantIdOf phoneNumber in
      let gid := _serialized (c_id targetGroup) in
      let r := interp (AddScript.iteration targetGroup groupInviteCode n i phoneNumber s) w in
      getChatById gid w = (w1, inr g1) ->
      AddScript.inGroup participantId g1 = false ->
      addParticipants gid [participantId] w1 = (w2, inl addError) ->
      firstn 2 (trace r) = [GetChatById gid; AddParticipants gid [participantId]] /\
      (forall g, ~ In (GetChatById g) (skipn 2 (trace r))) /\
      (exists o,
          AddScript.results (snd (value r)) = AddScript.results s ++ [o] /\
          Add.status o <> Add.added) /\
      (truthy groupInviteCode = false ->
       skipn 2 (trace r)
       = (if (i <? n - 1)%nat then [SetTimeout AddScript.DELAYS.BETWEEN_ADDS] else []) /\
       AddScript.results (snd (value r))
       = AddScript.results s ++ [failedWithoutInvite phoneNumber addError]) /\
      (truthy groupInviteCode = true ->
       firstn 2 (skipn 2 (trace r))
       = [SetTimeout AddScript.DELAYS.PRE_INVITE;
          SendMessage participantId (AddScript.inviteMessageOf groupInviteCode)]))
  /\
  (forall (W : Type) (H : Session W) targetGroup n i phoneNumber s
          (w w1 : W) currentParticipant error,
      let participantId := RemoveScript.participantIdOf phoneNumber in
      let gid := _serialized (c_id targetGroup) in
      let r := interp (RemoveScript.iteration targetGroup n i phoneNumber s) w in
      find (fun p => _serialized (p_id p) =? participantId)%string (participants targetGroup)
      = Some currentParticipant ->
      removeParticipants gid [participantId] w = (w1, inl error) ->
      trace r
      = RemoveParticipants gid [participantId] ::
        (if (i <? n - 1)%nat then [SetTimeout RemoveScript.DELAYS.AFTER_FAILURE] else []) /\
      RemoveScript.results (snd (value r))
      = RemoveScript.results s ++ [failedRemoval phoneNumber error]).
Proof.
  split; [| split; [| split]].
  - intros W H g code n i phoneNumber s w w1 w2 w3 g1 requery. cbv zeta.
    intros Hq Hin Ha Hv.
    unfold AddScript.iteration, AddScript.directAdd, AddScript.inviteFallback,
      failedWithoutInvite.
    js. rewrite Hq. js. rewrite Hin. js. rewrite Ha. js. rewrite Hv. js.
    destruct requery as [e | verifyGroup]; js;
      [| destruct (AddScript.inGroup (AddScript.participantIdOf phoneNumber) verifyGroup)
           eqn:Ev; js];
      repeat answer; (split; [reflexivity | eexists; split; [reflexivity|]]);
      cbn [Add.status]; settle.
  - intros W H g n i phoneNumber s w w1 w2 cp requery. cbv zeta.
    intros Hf Hr Hv.
    unfold RemoveScript.iteration, RemoveScript.notify, failedRemoval.
    js. rewrite Hf. js. rewrite Hr. js. rewrite Hv. js.
    destruct requery as [e | updatedGroup]; js;
      [| destruct (RemoveScript.inGroup (RemoveScript.participantIdOf phoneNumber)
                                        updatedGroup) eqn:Ev; js];
      repeat answer; (split; [reflexivity | eexists; split; [reflexivity|]]);
      cbn [Remove.status]; settle.
  - intros W H g code n i phoneNumber s w w1 w2 g1 addError. cbv zeta.
    intros Hq Hin Ha.
    unfold AddScript.iteration, AddScript.directAdd, AddScript.inviteFallback,
      failedWithoutInvite.
    js. rewrite Hq. js. rewrite Hin. js. rewrite Ha. js.
    destruct (truthy code) eqn:Ec; js; repeat answer;
      cbn [firstn skipn In];
      (split; [reflexivity|]);
      (split; [intros g0 Hg0;
               repeat match goal with
                      | Hx : _ \/ _ |- _ => destruct Hx as [Hx | Hx]
                      | Hx : _ = GetChatById _ |- _ => discriminate Hx
                      | Hx : False |- _ => destruct Hx
                      end |]);
      (split; [eexists; split; [reflexivity | cbn [Add.status]; discriminate] |]);
      split; intros Ht; try discriminate Ht; try (split; reflexivity); reflexivity.
  - intros W H g n i phoneNumber s w w1 cp error. cbv zeta.
    intros Hf Hr.
    unfold RemoveScript.iteration, RemoveScript.notify, failedRemoval.
    js. rewrite Hf. js. rewrite Hr. js.
    destruct (i <? n - 1)%nat; js; split; reflexivity.
Qed.

(** C4, as stated, fails: the add request for the number throws; the
    script neither waits nor asks for the group again, and the record
    carries the thrown message. *)
Lemma throwing_add_is_not_verified :
  let g := Scenario.addGroup [] in
  let w := Scenario.refusing [("1111@c.us", "refused")] [] (inl "no link") [g] in
  let r := interp (AddScript.iteration g None 2 0 "+1111" AddScript.initial) w in
  trace r
  = [GetChatById AddScript.TARGET_GROUP_ID;
     AddParticipants AddScript.TARGET_GROUP_ID ["1111@c.us"];
     SetTimeout AddScript.DELAYS.BETWEEN_ADDS] /\
  AddScript.results (snd (value r)) = [failedWithoutInvite "+1111" "refused"].
Proof.
  vm_compute. split; reflexivity.
Qed.

Lemma requery_decides_outcome_witness :
  let g := Scenario.addGroup [] in
  let w := Scenario.ignoring ["1111@c.us"] [] [g] in
  let r := interp (AddScript.iteration g None 1 0 "+1111" AddScript.initial) w in
  getChatById (_serialized (c_id g)) w = (w, inr g) /\
  AddScript.inGroup (AddScript.participantIdOf "+1111") g = false /\
  addParticipants (_serialized (c_id g)) [AddScript.participantIdOf "+1111"] w
  = (w, inr tt) /\
  getChatById (_serialized (c_id g)) (setTimeout AddScript.DELAYS.VERIFICATION w)
  = (w, inr g) /\
  firstn 4 (trace r)
  = [GetChatById (_serialized (c_id g));
     AddParticipants (_serialized (c_id g)) [AddScript.participantIdOf "+1111"];
     SetTimeout AddScript.DELAYS.VERIFICATION; GetChatById (_serialized (c_id g))] /\
  map Add.status (AddScript.results (snd (value r))) = [Add.failed].
Proof.
  cbv zeta. split; [reflexivity|]. split; [reflexivity|]. split; [reflexivity|].
  split; [reflexivity|]. split; [| reflexivity].
  exact (proj1 (proj1 requery_decides_outcome Sim.World Sim.session
                  (Scenario.addGroup []) None 1 0 "+1111" AddScript.initial
                  (Scenario.ignoring ["1111@c.us"] [] [Scenario.addGroup []])
                  (Scenario.ignoring ["1111@c.us"] [] [Scenario.addGroup []])
                  (Scenario.ignoring ["1111@c.us"] [] [Scenario.addGroup []])
                  (Scenario.ignoring ["1111@c.us"] [] [Scenario.addGroup []])
                  (Scenario.addGroup []) (inr (Scenario.addGroup []))
                  eq_refl eq_refl eq_refl eq_refl)).
Defined.

(** ** C5: the delay after a failure *)

(** The removal loop waits [DELAYS.AFTER_FAILURE] after a failed item that
    is not the last one.  So does the add loop when the record comes from
    its outer [catch]; when the record comes from the inner [catch] (no
    invite code) it waits [DELAYS.BETWEEN_ADDS]. *)
Lemma failed_removal_waits_after_failure
      (W : Type) (H : Session W) targetGroup n i phoneNumber s (w : W) o :
  let r := interp (RemoveScript.iteration targetGroup n i phoneNumber s) w in
  (i <? n - 1)%nat = true ->
  RemoveScript.results (snd (value r)) = RemoveScript.results s ++ [o] ->
  Remove.status o = Remove.failed ->
  last (trace r) Destroy = SetTimeout RemoveScript.DELAYS.AFTER_FAILURE.
Proof.
  cbv zeta. intros Hi.
  unfold RemoveScript.iteration, RemoveScript.notify. js. rewrite Hi.
  destruct (find _ _); js; repeat answer; intros Hr Hs;
    apply app_inv_head in Hr; inversion Hr; subst; try discriminate Hs; reflexivity.
Qed.

Lemma failed_add_waits add_or_failure
      (W : Type) (H : Session W) targetGroup groupInviteCode n i phoneNumber s (w : W) o :
  let r := interp (AddScript.iteration targetGroup groupInviteCode n i phoneNumber s) w in
  (i <? n - 1)%nat = true ->
  AddScript.results (snd (value r)) = AddScript.results s ++ [o] ->
  Add.status o = Add.failed ->
  add_or_failure = match Add.method o with
                   | Add.none => AddScript.DELAYS.BETWEEN_ADDS
                   | _ => AddScript.DELAYS.AFTER_FAILURE
                   end ->
  last (trace r) Destroy = SetTimeout add_or_failure.
Proof.
  cbv zeta. intros Hi.
  unfold AddScript.iteration, AddScript.directAdd, AddScript.inviteFallback. js. rewrite Hi.
  repeat answer; intros Hr Hs ->;
    apply app_inv_head in Hr; inversion Hr; subst; try discriminate Hs; reflexivity.
Qed.

(** C5 at a failing input: two numbers to add, no invite code, the add
    request for the first number throws.  The first record is [failed] and
    the timer that follows is the one of [DELAYS.BETWEEN_ADDS] (2000 ms), not
    the one of [DELAYS.AFTER_FAILURE] (1000 ms). *)
Theorem failed_add_without_invite_waits_between_adds :
  let g := Scenario.addGroup [] in
  let w := Scenario.refusing [("1111@c.us", "add refused")] [] (inl "no link") [g] in
  let r := Scenario.runAdd ["+1111"; "+2222"] w in
  map Add.status (AddScript.results (snd (value r))) = [Add.failed; Add.added] /\
  firstn 6 (trace r)
  = [GetChats;
     GetInviteCode AddScript.TARGET_GROUP_ID;
     GetChatById AddScript.TARGET_GROUP_ID;
     AddParticipants AddScript.TARGET_GROUP_ID ["1111@c.us"];
     SetTimeout AddScript.DELAYS.BETWEEN_ADDS;
     GetChatById AddScript.TARGET_GROUP_ID] /\
  AddScript.DELAYS.BETWEEN_ADDS <> AddScript.DELAYS.AFTER_FAILURE.
Proof.
  vm_compute. repeat split. discriminate.
Qed.

(** ** What a run writes, and where it can be interrupted *)

Lemma written_app tr tr' : written (tr ++ tr') = written tr ++ written tr'.
Proof.
  induction tr as [| e tr IH]; [reflexivity|].
  destruct e; cbn; rewrite ?IH; reflexivity.
Qed.

Lemma written_awaited tr : Forall (fun e => awaited e = true) tr -> written tr = [].
Proof.
  induction 1 as [| e tr He _ IH]; [reflexivity|].
  destruct e; cbn in *; try exact IH; discriminate.
Qed.

Lemma allAwaited_pbind {A B} (p : Prog A) (f : A -> Prog B) :
  allAwaited p -> (forall a, allAwaited (f a)) -> allAwaited (pbind p f).
Proof.
  induction p as [a | e k IH]; cbn; intros Hp Hf; [apply Hf|].
  destruct Hp as [He Hk]. split; [exact He|]. intros r. apply IH; [apply Hk | exact Hf].
Qed.



Lemma allAwaited_bind {S A B} (m : M S A) (f : A -> M S B) (s : S) :
  allAwaited (m s) -> (forall a s', allAwaited (f a s')) -> allAwaited (bind m f s).
Proof.
  intros Hm Hf. unfold bind. apply allAwaited_pbind; [exact Hm|].
  intros [[msg | a] s']; [exact I | apply Hf].
Qed.

Section TraceFacts.

Context {W : Type} `{Session W}.

Lemma allAwaited_trace {A} (p : Prog A) (w : W) :
  allAwaited p -> Forall (fun e => awaited e = true) (trace (interp p w)).
Proof.
  revert w. induction p as [a | e k IH]; intros w; cbn [interp allAwaited trace after].
  - constructor.
  - intros [He Hk]. constructor; [exact He|]. apply IH, Hk.
Qed.








(** Without a pending signal within its awaited requests the script runs
    as in [interp]. *)
Lemma sigint_too_late {A} (p : Prog A) :
  forall (k d : nat) (w : W),
  awaits (trace (interp p w)) <= k ->
  interpSigint k d p w =
  {| world := world (interp p w); trace := trace (interp p w);
     value := Returned (value (interp p w)) |}.
Proof.
  unfold awaits.
  induction p as [a | e c IH]; intros k d w; cbn [interp interpSigint trace after filter].
  - reflexivity.
  - destruct (awaited e) eqn:He.
    + destruct k as [| k']; cbn [length]; [lia|]. intros Hk.
      rewrite IH by lia. reflexivity.
    + intros Hk. rewrite IH by exact Hk. reflexivity.
Qed.




End TraceFacts.




Ltac js_awaited :=
  unfold when;
  cbn [allAwaited noAwait phased awaited
       pbind bind tryCatch call ret throw modify get Resp fst snd
       AddScript.push AddScript.incr_successCount AddScript.incr_inviteCount
       AddScript.incr_failCount AddScript.incr_skipCount
       RemoveScript.push RemoveScript.incr_successCount RemoveScript.incr_failCount].

Ltac awaited_tac :=
  repeat (js_awaited;
          match goal with
          | |- _ /\ _ => split
          | |- _ = _ => reflexivity
          | |- True => exact I
          | |- forall _, _ => intro
          | |- context [match ?x with _ => _ end] => destruct x
          end).

Lemma add_iteration_awaited targetGroup groupInviteCode n i phoneNumber s :
  allAwaited (AddScript.iteration targetGroup groupInviteCode n i phoneNumber s).
Proof.
  unfold AddScript.iteration, AddScript.directAdd, AddScript.inviteFallback. awaited_tac.
Qed.

Lemma add_loop_awaited targetGroup groupInviteCode n todo :
  forall i s, allAwaited (AddScript.loop targetGroup groupInviteCode n i todo s).
Proof.
  induction todo as [| phoneNumber rest IH]; intros i s; cbn [AddScript.loop].
  - exact I.
  - apply allAwaited_bind; [apply add_iteration_awaited | intros _ s'; apply IH].
Qed.

Lemma remove_iteration_awaited targetGroup n i phoneNumber s :
  allAwaited (RemoveScript.iteration targetGroup n i phoneNumber s).
Proof.
  unfold RemoveScript.iteration, RemoveScript.notify. awaited_tac.
Qed.

Lemma remove_loop_awaited targetGroup n todo :
  forall i s, allAwaited (RemoveScript.loop targetGroup n i todo s).
Proof.
  induction todo as [| phoneNumber rest IH]; intros i s; cbn [RemoveScript.loop].
  - exact I.
  - apply allAwaited_bind; [apply remove_iteration_awaited | intros _ s'; apply IH].
Qed.



(** ** C8 and C10: what reaches the results file *)

Section Saved.

Context {W : Type} `{Session W}.

Lemma last_of_three {A} (l : list A) (a b c d : A) : last (l ++ [a; b; c]) d = c.
Proof.
  change [a; b; c] with ([a; b] ++ [c]). rewrite app_assoc. apply last_last.
Qed.

Lemma add_run_saves myId participants_to_add (w w1 : W) chats targetGroup :
  let toAdd := AddScript.participantsToAdd targetGroup participants_to_add in
  let already := AddScript.alreadyInGroup targetGroup participants_to_add in
  let r := interp (AddScript.addParticipantsToGroup myId participants_to_add
                     AddScript.initial) w in
  getChats w = (w1, inr chats) ->
  AddScript.findTargetGroup chats = Some targetGroup ->
  AddScript.notAdmin myId targetGroup = false ->
  toAdd <> [] ->
  exists iso now,
    let data := AddResults (AddScript.summary targetGroup toAdd already now (snd (value r))) in
    written (trace r) = [(AddScript.resultsFile iso, data)] /\
    last (trace r) Destroy = WriteFileSync (AddScript.resultsFile iso) data /\
    (fst (value r) = inr (Saved (AddScript.resultsFile iso)) \/
     exists msg, fst (value r) = inr (Crashed msg)).
Proof.
  cbv zeta. intros Hc Hg Ha Hne.
  rewrite (add_run myId participants_to_add w w1 chats targetGroup Hc Hg Ha Hne).
  cbn [trace value fst snd]. eexists. eexists. split; [| split].
  - cbn [written]. rewrite written_app.
    rewrite (written_awaited _ (allAwaited_trace _ _ (add_loop_awaited _ _ _ _ _ _))).
    reflexivity.
  - rewrite !app_comm_cons. apply last_of_three.
  - destruct (snd (writeFileSync _ _ _)) as [msg | []]; cbn [exitOf]; eauto.
Qed.

Lemma remove_run_saves myId inactive_participants (w w1 : W) chats targetGroup :
  let toRemove := RemoveScript.participantsToRemove targetGroup inactive_participants in
  let absent := RemoveScript.notInGroup targetGroup inactive_participants in
  let r := interp (RemoveScript.removeInactiveParticipants myId inactive_participants
                     RemoveScript.initial) w in
  getChats w = (w1, inr chats) ->
  RemoveScript.findTargetGroup chats = Some targetGroup ->
  RemoveScript.notAdmin myId targetGroup = false ->
  toRemove <> [] ->
  exists iso now,
    let data :=
      RemovalResults (RemoveScript.summary targetGroup toRemove absent now (snd (value r))) in
    written (trace r) = [(RemoveScript.resultsFile iso, data)] /\
    last (trace r) Destroy = WriteFileSync (RemoveScript.resultsFile iso) data /\
    (fst (value r) = inr (Saved (RemoveScript.resultsFile iso)) \/
     exists msg, fst (value r) = inr (Crashed msg)).
Proof.
  cbv zeta. intros Hc Hg Ha Hne.
  rewrite (remove_run myId inactive_participants w w1 chats targetGroup Hc Hg Ha Hne).
  cbn [trace value fst snd]. eexists. eexists. split; [| split].
  - cbn [written]. rewrite written_app.
    rewrite (written_awaited _ (allAwaited_trace _ _ (remove_loop_awaited _ _ _ _ _))).
    reflexivity.
  - rewrite !app_comm_cons. apply last_of_three.
  - destruct (snd (writeFileSync _ _ _)) as [msg | []]; cbn [exitOf]; eauto.
Qed.

End Saved.




(** ** C10: the pre-loop filter *)







(** ** C9: SIGINT *)

Section WrittenFiles.

Context {W : Type} `{Session W}.



End WrittenFiles.




(** * Further properties of the scripts *)

(** ** Measures *)

Lemma issues_weaken {A} (P Q : Req -> Prop) (p : Prog A) :
  (forall e, P e -> Q e) -> issues P p -> issues Q p.
Proof.
  intros HPQ. induction p as [a | e k IH]; cbn; [trivial|].
  intros [He Hk]. split; [apply HPQ, He | intros r; apply IH, Hk].
Qed.

Lemma issues_pbind {A B} (P : Req -> Prop) (p : Prog A) (f : A -> Prog B) :
  issues P p -> (forall a, issues P (f a)) -> issues P (pbind p f).
Proof.
  induction p as [a | e k IH]; cbn; intros Hp Hf; [apply Hf|].
  destruct Hp as [He Hk]. split; [exact He|]. intros r. apply IH; [apply Hk | exact Hf].
Qed.

Lemma issues_bind {S A B} (P : Req -> Prop) (m : M S A) (f : A -> M S B) (s : S) :
  issues P (m s) -> (forall a s', issues P (f a s')) -> issues P (bind m f s).
Proof.
  intros Hm Hf. unfold bind. apply issues_pbind; [exact Hm|].
  intros [[msg | a] s']; [exact I | apply Hf].
Qed.

Lemma total_app f tr tr' : total f (tr ++ tr') = total f tr + total f tr'.
Proof. induction tr as [| e tr IH]; cbn; [reflexivity | rewrite IH; lia]. Qed.

Section MeasureFacts.

Context {W : Type} `{Session W}.

Lemma issues_trace {A} (P : Req -> Prop) (p : Prog A) (w : W) :
  issues P p -> Forall P (trace (interp p w)).
Proof.
  revert w. induction p as [a | e k IH]; intros w; cbn [interp issues trace after].
  - constructor.
  - intros [He Hk]. constructor; [exact He|]. apply IH, Hk.
Qed.

Lemma within_total {A} (f : Req -> nat) (p : Prog A) :
  forall acc bound (w : W),
  within f acc bound p -> acc + total f (trace (interp p w)) <= bound.
Proof.
  induction p as [a | e k IH]; intros acc bound w; cbn [interp within trace after total].
  - lia.
  - intros Hk. specialize (IH _ _ _ (fst (handle e w)) (Hk (snd (handle e w)))). lia.
Qed.

End MeasureFacts.

Ltac js_issues :=
  unfold when;
  cbn [issues within addRequestAllowed removeRequestAllowed
       waited isAddRequest isRemoveRequest isSendRequest
       pbind bind tryCatch call ret throw modify get Resp fst snd
       AddScript.push AddScript.incr_successCount AddScript.incr_inviteCount
       AddScript.incr_failCount AddScript.incr_skipCount
       RemoveScript.push RemoveScript.incr_successCount RemoveScript.incr_failCount].

Ltac issues_tac :=
  repeat (js_issues;
          match goal with
          | |- _ /\ _ => split
          | |- True => exact I
          | |- forall _, _ => intro
          | |- context [match ?x with _ => _ end] => destruct x
          end).

(** ** The invite message *)

Lemma inviteMessageOf_fixed (groupInviteCode : option string) :
  AddScript.inviteMessageOf groupInviteCode = AddScript.INVITE_MESSAGE.
Proof. unfold AddScript.inviteMessageOf. vm_compute. reflexivity. Qed.

(** X1: the message sent as fallback is the fixed text of [INVITE_MESSAGE],
    whatever invite code the group returned: the text has no
    [[GROUP_INVITE_LINK]] placeholder for [replace] to fill. *)
Theorem invite_message_ignores_invite_code :
  forall groupInviteCode,
    AddScript.inviteMessageOf groupInviteCode = AddScript.INVITE_MESSAGE.
Proof.
  intros code. unfold AddScript.inviteMessageOf. vm_compute. reflexivity.
Qed.

(** ** What the scripts may request *)

Lemma add_iteration_allowed supplied targetGroup groupInviteCode n i phoneNumber s :
  _serialized (c_id targetGroup) = AddScript.TARGET_GROUP_ID ->
  In phoneNumber supplied ->
  issues (addRequestAllowed supplied)
         (AddScript.iteration targetGroup groupInviteCode n i phoneNumber s).
Proof.
  intros Hg Hin.
  unfold AddScript.iteration, AddScript.directAdd, AddScript.inviteFallback.
  rewrite inviteMessageOf_fixed.
  issues_tac; cbn; eauto 8.
Qed.

Lemma add_loop_allowed supplied targetGroup groupInviteCode n todo :
  _serialized (c_id targetGroup) = AddScript.TARGET_GROUP_ID ->
  (forall t, In t todo -> In t supplied) ->
  forall i s,
    issues (addRequestAllowed supplied)
           (AddScript.loop targetGroup groupInviteCode n i todo s).
Proof.
  intros Hg. induction todo as [| phoneNumber rest IH]; intros Hsub i s; cbn [AddScript.loop].
  - exact I.
  - apply issues_bind.
    + apply add_iteration_allowed; [exact Hg | apply Hsub; now left].
    + intros _ s'. apply IH. intros t Ht. apply Hsub. now right.
Qed.

Lemma findTargetGroup_id_add chats targetGroup :
  AddScript.findTargetGroup chats = Some targetGroup ->
  _serialized (c_id targetGroup) = AddScript.TARGET_GROUP_ID /\
  isGroup targetGroup = true /\ In targetGroup chats.
Proof.
  unfold AddScript.findTargetGroup. intros Hf.
  apply find_some in Hf as [Hin Heq]. apply filter_In in Hin as [Hin Hg].
  apply String.eqb_eq in Heq. auto.
Qed.

Lemma findTargetGroup_id_remove chats targetGroup :
  RemoveScript.findTargetGroup chats = Some targetGroup ->
  _serialized (c_id targetGroup) = RemoveScript.TARGET_GROUP_ID /\
  isGroup targetGroup = true /\ In targetGroup chats.
Proof.
  unfold RemoveScript.findTargetGroup. intros Hf.
  apply find_some in Hf as [Hin Heq]. apply filter_In in Hin as [Hin Hg].
  apply String.eqb_eq in Heq. auto.
Qed.

Lemma add_script_allowed myId participants_to_add :
  issues (addRequestAllowed participants_to_add)
         (AddScript.addParticipantsToGroup myId participants_to_add AddScript.initial).
Proof.
  unfold AddScript.addParticipantsToGroup. js_issues. split; [exact I|].
  intros [msg | chats]; js_issues; [exact I|].
  destruct (AddScript.findTargetGroup chats) as [g |] eqn:Hf; js_issues; [| exact I].
  destruct (findTargetGroup_id_add _ _ Hf) as [Hg _].
  destruct (AddScript.notAdmin myId g); js_issues; [exact I|].
  destruct (_ =? 0)%nat; js_issues; [exact I|].
  split; [exact Hg|]. intros r.
  apply issues_pbind; [| intros [[msg | a] s']; exact I].
  destruct r as [msg | code]; js_issues;
    (apply issues_bind;
     [ apply add_loop_allowed; [exact Hg | intros t Ht; now apply filter_In in Ht]
     | intros _ s'; unfold AddScript.saveResults; issues_tac ]).
Qed.

Lemma remove_iteration_allowed supplied targetGroup n i phoneNumber s :
  _serialized (c_id targetGroup) = RemoveScript.TARGET_GROUP_ID ->
  In phoneNumber supplied ->
  issues (removeRequestAllowed supplied)
         (RemoveScript.iteration targetGroup n i phoneNumber s).
Proof.
  intros Hg Hin.
  unfold RemoveScript.iteration, RemoveScript.notify.
  issues_tac; cbn; eauto 8.
Qed.

Lemma remove_loop_allowed supplied targetGroup n todo :
  _serialized (c_id targetGroup) = RemoveScript.TARGET_GROUP_ID ->
  (forall t, In t todo -> In t supplied) ->
  forall i s,
    issues (removeRequestAllowed supplied) (RemoveScript.loop targetGroup n i todo s).
Proof.
  intros Hg. induction todo as [| phoneNumber rest IH]; intros Hsub i s;
    cbn [RemoveScript.loop].
  - exact I.
  - apply issues_bind.
    + apply remove_iteration_allowed; [exact Hg | apply Hsub; now left].
    + intros _ s'. apply IH. intros t Ht. apply Hsub. now right.
Qed.

Lemma remove_script_allowed myId inactive_participants :
  issues (removeRequestAllowed inactive_participants)
         (RemoveScript.removeInactiveParticipants myId inactive_participants
            RemoveScript.initial).
Proof.
  unfold RemoveScript.removeInactiveParticipants. js_issues. split; [exact I|].
  intros [msg | chats]; js_issues; [exact I|].
  destruct (RemoveScript.findTargetGroup chats) as [g |] eqn:Hf; js_issues; [| exact I].
  destruct (findTargetGroup_id_remove _ _ Hf) as [Hg _].
  destruct (RemoveScript.notAdmin myId g); js_issues; [exact I|].
  destruct (_ =? 0)%nat; js_issues; [exact I|].
  apply issues_pbind; [| intros [[msg | a] s']; exact I].
  apply issues_bind;
    [ apply remove_loop_allowed; [exact Hg | intros t Ht; now apply filter_In in Ht]
    | intros _ s'; unfold RemoveScript.saveResults; issues_tac ].
Qed.

(** X2: whatever the session answers, the add script only talks about the
    configured group, adds supplied numbers only, one per request, sends
    nothing but the invite message and only to supplied numbers, waits only
    the four configured delays, and never removes anyone. *)
Theorem add_script_requests_are_confined :
  forall (W : Type) (H : Session W) myId participants_to_add (w : W),
    Forall (addRequestAllowed participants_to_add)
           (trace (interp (AddScript.addParticipantsToGroup myId participants_to_add
                             AddScript.initial) w)).
Proof.
  intros. apply issues_trace, add_script_allowed.
Qed.

(** X3: whatever the session answers, the removal script only talks about
    the configured group, removes supplied numbers only, one per request,
    sends nothing but the removal notice and only to supplied numbers, waits
    only the four configured delays, and never adds anyone or asks for an
    invite code. *)
Theorem remove_script_requests_are_confined :
  forall (W : Type) (H : Session W) myId inactive_participants (w : W),
    Forall (removeRequestAllowed inactive_participants)
           (trace (interp (RemoveScript.removeInactiveParticipants myId
                             inactive_participants RemoveScript.initial) w)).
Proof.
  intros. apply issues_trace, remove_script_allowed.
Qed.

(** ** Shape of a whole run *)

Section RunShape.

Context {W : Type} `{Session W}.

Lemma add_loop_step targetGroup groupInviteCode n i phoneNumber rest s (w : W) :
  let it := interp (AddScript.iteration targetGroup groupInviteCode n i phoneNumber s) w in
  let next := interp (AddScript.loop targetGroup groupInviteCode n (S i) rest
                        (snd (value it))) (world it) in
  interp (AddScript.loop targetGroup groupInviteCode n i (phoneNumber :: rest) s) w
  = {| world := world next; trace := trace it ++ trace next; value := value next |}.
Proof.
  cbv zeta. cbn [AddScript.loop]. rewrite interp_bind. unfold andThen.
  destruct (add_iteration_outcome targetGroup groupInviteCode n i phoneNumber s w) as [Hv _].
  destruct (value (interp (AddScript.iteration targetGroup groupInviteCode n i
                             phoneNumber s) w)) as [v s1].
  cbn [fst snd] in *. subst v. reflexivity.
Qed.

Lemma remove_loop_step targetGroup n i phoneNumber rest s (w : W) :
  let it := interp (RemoveScript.iteration targetGroup n i phoneNumber s) w in
  let next := interp (RemoveScript.loop targetGroup n (S i) rest (snd (value it)))
                     (world it) in
  interp (RemoveScript.loop targetGroup n i (phoneNumber :: rest) s) w
  = {| world := world next; trace := trace it ++ trace next; value := value next |}.
Proof.
  cbv zeta. cbn [RemoveScript.loop]. rewrite interp_bind. unfold andThen.
  destruct (remove_iteration_outcome targetGroup n i phoneNumber s w) as [Hv _].
  destruct (value (interp (RemoveScript.iteration targetGroup n i phoneNumber s) w))
    as [v s1].
  cbn [fst snd] in *. subst v. reflexivity.
Qed.

(** A measure bounded on every iteration is bounded on the loop. *)
Lemma add_loop_total f bound targetGroup groupInviteCode n :
  (forall i phoneNumber s (w : W),
      total f (trace (interp (AddScript.iteration targetGroup groupInviteCode n i
                                phoneNumber s) w)) <= bound) ->
  forall todo i s (w : W),
    total f (trace (interp (AddScript.loop targetGroup groupInviteCode n i todo s) w))
    <= length todo * bound.
Proof.
  intros Hit. induction todo as [| phoneNumber rest IH]; intros i s w.
  - cbn. lia.
  - rewrite add_loop_step. cbn [trace length]. rewrite total_app.
    specialize (Hit i phoneNumber s w).
    specialize (IH (S i) (snd (value (interp (AddScript.iteration targetGroup
                                        groupInviteCode n i phoneNumber s) w)))
                   (world (interp (AddScript.iteration targetGroup groupInviteCode n i
                                     phoneNumber s) w))).
    lia.
Qed.

Lemma remove_loop_total f bound targetGroup n :
  (forall i phoneNumber s (w : W),
      total f (trace (interp (RemoveScript.iteration targetGroup n i phoneNumber s) w))
      <= bound) ->
  forall todo i s (w : W),
    total f (trace (interp (RemoveScript.loop targetGroup n i todo s) w))
    <= length todo * bound.
Proof.
  intros Hit. induction todo as [| phoneNumber rest IH]; intros i s w.
  - cbn. lia.
  - rewrite remove_loop_step. cbn [trace length]. rewrite total_app.
    specialize (Hit i phoneNumber s w).
    specialize (IH (S i) (snd (value (interp (RemoveScript.iteration targetGroup n i
                                        phoneNumber s) w)))
                   (world (interp (RemoveScript.iteration targetGroup n i
                                     phoneNumber s) w))).
    lia.
Qed.

(** Either the script stopped after [getChats()] with untouched locals, or
    it ran the loop over the filtered list and then saved. *)
Lemma add_run_shape myId participants_to_add (w : W) :
  let r := interp (AddScript.addParticipantsToGroup myId participants_to_add
                     AddScript.initial) w in
  (trace r = [GetChats] /\ snd (value r) = AddScript.initial) \/
  exists targetGroup groupInviteCode (w2 : W) file data,
    let toAdd := AddScript.participantsToAdd targetGroup participants_to_add in
    let rl := interp (AddScript.loop targetGroup groupInviteCode (length toAdd) 0 toAdd
                        AddScript.initial) w2 in
    toAdd <> [] /\
    trace r = GetChats :: GetInviteCode (_serialized (c_id targetGroup)) ::
              trace rl ++ [ToISOString; ToISOString; WriteFileSync file data] /\
    snd (value r) = snd (value rl).
Proof.
  cbv zeta.
  destruct (getChats w) as [w1 [msg | chats]] eqn:Hc.
  { left. unfold AddScript.addParticipantsToGroup. js. rewrite Hc. js. auto. }
  destruct (AddScript.findTargetGroup chats) as [g |] eqn:Hg.
  2: { left. unfold AddScript.addParticipantsToGroup. js. rewrite Hc. js. rewrite Hg.
       js. auto. }
  destruct (AddScript.notAdmin myId g) eqn:Ha.
  { left. unfold AddScript.addParticipantsToGroup. js. rewrite Hc. js. rewrite Hg, Ha.
    js. auto. }
  destruct (AddScript.participantsToAdd g participants_to_add) as [| t ts] eqn:Et.
  { left. unfold AddScript.addParticipantsToGroup. js. rewrite Hc. js.
    rewrite Hg, Ha, Et. js. auto. }
  right.
  assert (Hne : AddScript.participantsToAdd g participants_to_add <> [])
    by (rewrite Et; discriminate).
  rewrite (add_run myId participants_to_add w w1 chats g Hc Hg Ha Hne).
  cbn [trace value snd].
  do 5 eexists. split; [exact Hne|]. split; reflexivity.
Qed.

Lemma remove_run_shape myId inactive_participants (w : W) :
  let r := interp (RemoveScript.removeInactiveParticipants myId inactive_participants
                     RemoveScript.initial) w in
  (trace r = [GetChats] /\ snd (value r) = RemoveScript.initial) \/
  exists targetGroup (w1 : W) file data,
    let toRemove := RemoveScript.participantsToRemove targetGroup inactive_participants in
    let rl := interp (RemoveScript.loop targetGroup (length toRemove) 0 toRemove
                        RemoveScript.initial) w1 in
    toRemove <> [] /\
    trace r = GetChats :: trace rl ++ [ToISOString; ToISOString; WriteFileSync file data] /\
    snd (value r) = snd (value rl).
Proof.
  cbv zeta.
  destruct (getChats w) as [w1 [msg | chats]] eqn:Hc.
  { left. unfold RemoveScript.removeInactiveParticipants. js. rewrite Hc. js. auto. }
  destruct (RemoveScript.findTargetGroup chats) as [g |] eqn:Hg.
  2: { left. unfold RemoveScript.removeInactiveParticipants. js. rewrite Hc. js.
       rewrite Hg. js. auto. }
  destruct (RemoveScript.notAdmin myId g) eqn:Ha.
  { left. unfold RemoveScript.removeInactiveParticipants. js. rewrite Hc. js.
    rewrite Hg, Ha. js. auto. }
  destruct (RemoveScript.participantsToRemove g inactive_participants) as [| t ts] eqn:Et.
  { left. unfold RemoveScript.removeInactiveParticipants. js. rewrite Hc. js.
    rewrite Hg, Ha, Et. js. auto. }
  right.
  assert (Hne : RemoveScript.participantsToRemove g inactive_participants <> [])
    by (rewrite Et; discriminate).
  rewrite (remove_run myId inactive_participants w w1 chats g Hc Hg Ha Hne).
  cbn [trace value snd].
  do 4 eexists. split; [exact Hne|]. split; reflexivity.
Qed.

End RunShape.

(** ** At most one attempt of each kind, bounded waiting *)

Lemma add_after_failure_le_between :
  AddScript.DELAYS.AFTER_FAILURE <= AddScript.DELAYS.BETWEEN_ADDS.
Proof. apply Nat.leb_le. vm_compute. reflexivity. Qed.

Lemma remove_after_failure_le_between :
  RemoveScript.DELAYS.AFTER_FAILURE <= RemoveScript.DELAYS.BETWEEN_REMOVALS.
Proof. apply Nat.leb_le. vm_compute. reflexivity. Qed.

Lemma filter_length_le {A} (f : A -> bool) (l : list A) : length (filter f l) <= length l.
Proof. induction l as [| a l IH]; cbn; [lia | destruct (f a); cbn; lia]. Qed.

Section Bounds.

Context {W : Type} `{Session W}.

Lemma add_iteration_attempts targetGroup groupInviteCode n i phoneNumber s (w : W) :
  let tr := trace (interp (AddScript.iteration targetGroup groupInviteCode n i
                             phoneNumber s) w) in
  total isAddRequest tr <= 1 /\ total isSendRequest tr <= 1 /\
  total isRemoveRequest tr <= 0.
Proof.
  cbv zeta. repeat split.
  - apply (within_total isAddRequest _ 0 1).
    unfold AddScript.iteration, AddScript.directAdd, AddScript.inviteFallback.
    issues_tac; js_issues; lia.
  - apply (within_total isSendRequest _ 0 1).
    unfold AddScript.iteration, AddScript.directAdd, AddScript.inviteFallback.
    issues_tac; js_issues; lia.
  - apply (within_total isRemoveRequest _ 0 0).
    unfold AddScript.iteration, AddScript.directAdd, AddScript.inviteFallback.
    issues_tac; js_issues; lia.
Qed.

Lemma add_iteration_waits targetGroup groupInviteCode n i phoneNumber s (w : W) :
  total waited (trace (interp (AddScript.iteration targetGroup groupInviteCode n i
                                 phoneNumber s) w))
  <= AddScript.DELAYS.VERIFICATION + AddScript.DELAYS.PRE_INVITE
     + AddScript.DELAYS.BETWEEN_ADDS.
Proof.
  pose proof add_after_failure_le_between.
  unfold AddScript.iteration, AddScript.directAdd, AddScript.inviteFallback. js.
  repeat answer; cbn [total waited]; lia.
Qed.

Lemma remove_iteration_attempts targetGroup n i phoneNumber s (w : W) :
  let tr := trace (interp (RemoveScript.iteration targetGroup n i phoneNumber s) w) in
  total isRemoveRequest tr <= 1 /\ total isSendRequest tr <= 1 /\
  total isAddRequest tr <= 0.
Proof.
  cbv zeta. repeat split.
  - apply (within_total isRemoveRequest _ 0 1).
    unfold RemoveScript.iteration, RemoveScript.notify. issues_tac; js_issues; lia.
  - apply (within_total isSendRequest _ 0 1).
    unfold RemoveScript.iteration, RemoveScript.notify. issues_tac; js_issues; lia.
  - apply (within_total isAddRequest _ 0 0).
    unfold RemoveScript.iteration, RemoveScript.notify. issues_tac; js_issues; lia.
Qed.

Lemma remove_iteration_waits targetGroup n i phoneNumber s (w : W) :
  total waited (trace (interp (RemoveScript.iteration targetGroup n i phoneNumber s) w))
  <= RemoveScript.DELAYS.VERIFICATION + RemoveScript.DELAYS.PRE_NOTIFICATION
     + RemoveScript.DELAYS.BETWEEN_REMOVALS.
Proof.
  pose proof remove_after_failure_le_between.
  unfold RemoveScript.iteration, RemoveScript.notify. js.
  destruct (find _ _); js; repeat answer; cbn [total waited]; lia.
Qed.

End Bounds.

(** X4: in any run of the add script there is at most one add request and
    at most one invite message per supplied number, and the timers it
    starts add up to at most one verification wait, one pre-invite wait and
    one between-adds wait per supplied number. *)
Theorem add_script_attempts_and_waits_are_bounded :
  forall (W : Type) (H : Session W) myId participants_to_add (w : W),
    let tr := trace (interp (AddScript.addParticipantsToGroup myId participants_to_add
                               AddScript.initial) w) in
    total isAddRequest tr <= length participants_to_add /\
    total isSendRequest tr <= length participants_to_add /\
    total waited tr
    <= length participants_to_add
       * (AddScript.DELAYS.VERIFICATION + AddScript.DELAYS.PRE_INVITE
          + AddScript.DELAYS.BETWEEN_ADDS).
Proof.
  intros W H myId targets w tr. subst tr.
  destruct (add_run_shape myId targets w) as [[Ht _] | (g & code & w2 & file & data & Hs)].
  - rewrite Ht. cbn. lia.
  - cbv zeta in Hs. destruct Hs as [_ [Ht _]]. rewrite Ht.
    cbn [total isAddRequest isSendRequest waited]. rewrite !total_app.
    cbn [total isAddRequest isSendRequest waited].
    pose proof (filter_length_le
                  (fun phoneNumber =>
                     negb (includes (AddScript.currentParticipants g) phoneNumber))
                  targets) as Hlen.
    fold (AddScript.participantsToAdd g targets) in Hlen.
    set (toAdd := AddScript.participantsToAdd g targets) in *.
    pose proof (add_loop_total isAddRequest 1 g code (length toAdd)
                  (fun i p s w => proj1 (add_iteration_attempts g code _ i p s w))
                  toAdd 0 AddScript.initial w2) as Ha.
    pose proof (add_loop_total isSendRequest 1 g code (length toAdd)
                  (fun i p s w => proj1 (proj2 (add_iteration_attempts g code _ i p s w)))
                  toAdd 0 AddScript.initial w2) as Hb.
    pose proof (add_loop_total waited _ g code (length toAdd)
                  (fun i p s w => add_iteration_waits g code _ i p s w)
                  toAdd 0 AddScript.initial w2) as Hc.
    repeat split; try lia.
    eapply Nat.le_trans; [| apply Nat.mul_le_mono_r, Hlen]. lia.
Qed.

(** X5: in any run of the removal script there is at most one removal
    request and at most one notification per supplied number, and the
    timers it starts add up to at most one verification wait, one
    pre-notification wait and one between-removals wait per supplied
    number. *)
Theorem remove_script_attempts_and_waits_are_bounded :
  forall (W : Type) (H : Session W) myId inactive_participants (w : W),
    let tr := trace (interp (RemoveScript.removeInactiveParticipants myId
                               inactive_participants RemoveScript.initial) w) in
    total isRemoveRequest tr <= length inactive_participants /\
    total isSendRequest tr <= length inactive_participants /\
    total waited tr
    <= length inactive_participants
       * (RemoveScript.DELAYS.VERIFICATION + RemoveScript.DELAYS.PRE_NOTIFICATION
          + RemoveScript.DELAYS.BETWEEN_REMOVALS).
Proof.
  intros W H myId targets w tr. subst tr.
  destruct (remove_run_shape myId targets w) as [[Ht _] | (g & w1 & file & data & Hs)].
  - rewrite Ht. cbn. lia.
  - cbv zeta in Hs. destruct Hs as [_ [Ht _]]. rewrite Ht.
    cbn [total isRemoveRequest isSendRequest waited]. rewrite !total_app.
    cbn [total isRemoveRequest isSendRequest waited].
    pose proof (filter_length_le
                  (fun phoneNumber =>
                     includes (RemoveScript.currentParticipants g) phoneNumber)
                  targets) as Hlen.
    fold (RemoveScript.participantsToRemove g targets) in Hlen.
    set (toRemove := RemoveScript.participantsToRemove g targets) in *.
    pose proof (remove_loop_total isRemoveRequest 1 g (length toRemove)
                  (fun i p s w => proj1 (remove_iteration_attempts g _ i p s w))
                  toRemove 0 RemoveScript.initial w1) as Ha.
    pose proof (remove_loop_total isSendRequest 1 g (length toRemove)
                  (fun i p s w => proj1 (proj2 (remove_iteration_attempts g _ i p s w)))
                  toRemove 0 RemoveScript.initial w1) as Hb.
    pose proof (remove_loop_total waited _ g (length toRemove)
                  (fun i p s w => remove_iteration_waits g _ i p s w)
                  toRemove 0 RemoveScript.initial w1) as Hc.
    repeat split; try lia.
    eapply Nat.le_trans; [| apply Nat.mul_le_mono_r, Hlen]. lia.
Qed.

(** ** Counters and records *)

Lemma countAdd_app st rs rs' : countAdd st (rs ++ rs') = countAdd st rs + countAdd st rs'.
Proof. unfold countAdd. now rewrite filter_app, length_app. Qed.

Lemma countRemove_app st rs rs' :
  countRemove st (rs ++ rs') = countRemove st rs + countRemove st rs'.
Proof. unfold countRemove. now rewrite filter_app, length_app. Qed.

Lemma countAdd_total rs :
  countAdd Add.added rs + countAdd Add.invited rs + countAdd Add.already_in_group rs
  + countAdd Add.failed rs = length rs.
Proof.
  unfold countAdd. induction rs as [| o rs IH]; [reflexivity|].
  cbn [filter]. unfold addStatusIs in *.
  destruct (Add.status o); cbn [length]; lia.
Qed.

Lemma countRemove_total rs :
  countRemove Remove.removed rs + countRemove Remove.already_removed rs
  + countRemove Remove.failed rs = length rs.
Proof.
  unfold countRemove. induction rs as [| o rs IH]; [reflexivity|].
  cbn [filter]. unfold removeStatusIs in *.
  destruct (Remove.status o); cbn [length]; lia.
Qed.

Section Counters.

Context {W : Type} `{Session W}.

Lemma add_iteration_counts targetGroup groupInviteCode n i phoneNumber s (w : W) :
  addCountsAgree s ->
  addCountsAgree
    (snd (value (interp (AddScript.iteration targetGroup groupInviteCode n i
                           phoneNumber s) w))).
Proof.
  unfold addCountsAgree. intros (Ha & Hb & Hc & Hd).
  unfold AddScript.iteration, AddScript.directAdd, AddScript.inviteFallback. js.
  repeat answer; rewrite !countAdd_app; cbn; lia.
Qed.

Lemma add_loop_counts targetGroup groupInviteCode n todo :
  forall i s (w : W),
    addCountsAgree s ->
    addCountsAgree
      (snd (value (interp (AddScript.loop targetGroup groupInviteCode n i todo s) w))).
Proof.
  induction todo as [| phoneNumber rest IH]; intros i s w Hs.
  - exact Hs.
  - rewrite add_loop_step. cbn [value]. apply IH. now apply add_iteration_counts.
Qed.

Lemma remove_iteration_counts targetGroup n i phoneNumber s (w : W) :
  removeCountsAgree s ->
  removeCountsAgree
    (snd (value (interp (RemoveScript.iteration targetGroup n i phoneNumber s) w))).
Proof.
  unfold removeCountsAgree. intros (Ha & Hb).
  unfold RemoveScript.iteration, RemoveScript.notify. js.
  destruct (find _ _); js; repeat answer; rewrite !countRemove_app; cbn; lia.
Qed.

Lemma remove_loop_counts targetGroup n todo :
  forall i s (w : W),
    removeCountsAgree s ->
    removeCountsAgree
      (snd (value (interp (RemoveScript.loop targetGroup n i todo s) w))).
Proof.
  induction todo as [| phoneNumber rest IH]; intros i s w Hs.
  - exact Hs.
  - rewrite remove_loop_step. cbn [value]. apply IH. now apply remove_iteration_counts.
Qed.

End Counters.

Lemma filter_and_length_le {A} (f g : A -> bool) (l : list A) :
  length (filter (fun x => f x && g x) l) <= length (filter f l).
Proof.
  induction l as [| a l IH]; cbn; [lia|].
  destruct (f a), (g a); cbn; lia.
Qed.

Lemma isRemoved_count rs :
  length (filter RemoveScript.isRemoved rs) = countRemove Remove.removed rs.
Proof.
  reflexivity.
Qed.

Lemma isAlreadyRemoved_count rs :
  length (filter RemoveScript.isAlreadyRemoved rs)
  = countRemove Remove.already_removed rs.
Proof.
  reflexivity.
Qed.

(** X6: the summary written by the add script is consistent: each of its
    four counters is the number of records with the matching status, and
    the counters add up to [totalToProcess]. *)
Theorem add_summary_counters_agree_with_results :
  forall (W : Type) (H : Session W) myId participants_to_add (w w1 : W) chats targetGroup,
    let r := interp (AddScript.addParticipantsToGroup myId participants_to_add
                       AddScript.initial) w in
    getChats w = (w1, inr chats) ->
    AddScript.findTargetGroup chats = Some targetGroup ->
    AddScript.notAdmin myId targetGroup = false ->
    AddScript.participantsToAdd targetGroup participants_to_add <> [] ->
    exists file data,
      written (trace r) = [(file, AddResults data)] /\
      Add.successCount data = countAdd Add.added (Add.results data) /\
      Add.inviteCount data = countAdd Add.invited (Add.results data) /\
      Add.skipCount data = countAdd Add.already_in_group (Add.results data) /\
      Add.failCount data = countAdd Add.failed (Add.results data) /\
      Add.successCount data + Add.inviteCount data + Add.skipCount data
      + Add.failCount data = Add.totalToProcess data.
Proof.
  intros W H myId targets w w1 chats g r Hc Hg Ha Hne.
  destruct (add_run_saves myId targets w w1 chats g Hc Hg Ha Hne) as [iso [now [Hw _]]].
  assert (Hinv : addCountsAgree (snd (value r))).
  { subst r. rewrite (add_run myId targets w w1 chats g Hc Hg Ha Hne). cbn [value snd].
    apply add_loop_counts. repeat split. }
  assert (Hn : length (AddScript.results (snd (value r)))
               = length (AddScript.participantsToAdd g targets)).
  { rewrite <- (add_outcomes_are_filtered_targets myId targets w w1 chats g Hc Hg Ha).
    now rewrite length_map. }
  destruct Hinv as (H1 & H2 & H3 & H4). unfold r in *. clear r.
  eexists. eexists. split; [exact Hw|].
  cbn [AddScript.summary Add.successCount Add.inviteCount Add.skipCount Add.failCount
       Add.results Add.totalToProcess].
  repeat (split; [assumption|]).
  rewrite H1, H2, H3, H4, countAdd_total. exact Hn.
Qed.

Lemma add_summary_counters_agree_with_results_witness :
  let g := Scenario.addGroup ["1111"] in
  let w := Scenario.refusing [("2222@c.us", "refused")] [] (inr "CODE") [g] in
  let r := Scenario.runAdd ["+1111"; "+2222"; "+3333"] w in
  getChats w = (w, inr [g]) /\
  AddScript.findTargetGroup [g] = Some g /\
  AddScript.notAdmin Sim.me g = false /\
  AddScript.participantsToAdd g ["+1111"; "+2222"; "+3333"] <> [] /\
  exists file data,
    written (trace r) = [(file, AddResults data)] /\
    Add.successCount data = countAdd Add.added (Add.results data) /\
    Add.inviteCount data = countAdd Add.invited (Add.results data) /\
    Add.skipCount data = countAdd Add.already_in_group (Add.results data) /\
    Add.failCount data = countAdd Add.failed (Add.results data) /\
    Add.successCount data + Add.inviteCount data + Add.skipCount data
    + Add.failCount data = Add.totalToProcess data.
Proof.
  cbv zeta.
  assert (Hne : AddScript.participantsToAdd (Scenario.addGroup ["1111"])
                  ["+1111"; "+2222"; "+3333"] <> [])
    by (vm_compute; discriminate).
  split; [reflexivity|]. split; [reflexivity|]. split; [reflexivity|].
  split; [exact Hne|].
  exact (add_summary_counters_agree_with_results Sim.World Sim.session Sim.me
           ["+1111"; "+2222"; "+3333"]
           (Scenario.refusing [("2222@c.us", "refused")] [] (inr "CODE")
                              [Scenario.addGroup ["1111"]])
           (Scenario.refusing [("2222@c.us", "refused")] [] (inr "CODE")
                              [Scenario.addGroup ["1111"]])
           [Scenario.addGroup ["1111"]] (Scenario.addGroup ["1111"])
           eq_refl eq_refl eq_refl Hne).
Defined.

(** X7: the summary written by the removal script is consistent:
    [successCount], [failCount] and [alreadyRemovedCount] are the numbers of
    records with status [removed], [failed] and [already_removed], they add
    up to [totalToProcess], and [notificationsSent] never exceeds
    [successCount]. *)
Theorem remove_summary_counters_agree_with_results :
  forall (W : Type) (H : Session W) myId inactive_participants (w w1 : W) chats targetGroup,
    let r := interp (RemoveScript.removeInactiveParticipants myId inactive_participants
                       RemoveScript.initial) w in
    getChats w = (w1, inr chats) ->
    RemoveScript.findTargetGroup chats = Some targetGroup ->
    RemoveScript.notAdmin myId targetGroup = false ->
    RemoveScript.participantsToRemove targetGroup inactive_participants <> [] ->
    exists file data,
      written (trace r) = [(file, RemovalResults data)] /\
      Remove.successCount data = countRemove Remove.removed (Remove.results data) /\
      Remove.failCount data = countRemove Remove.failed (Remove.results data) /\
      Remove.alreadyRemovedCount data
      = countRemove Remove.already_removed (Remove.results data) /\
      Remove.successCount data + Remove.alreadyRemovedCount data + Remove.failCount data
      = Remove.totalToProcess data /\
      Remove.notificationsSent data <= Remove.successCount data.
Proof.
  intros W H myId targets w w1 chats g r Hc Hg Ha Hne.
  destruct (remove_run_saves myId targets w w1 chats g Hc Hg Ha Hne) as [iso [now [Hw _]]].
  assert (Hinv : removeCountsAgree (snd (value r))).
  { subst r. rewrite (remove_run myId targets w w1 chats g Hc Hg Ha Hne). cbn [value snd].
    apply remove_loop_counts. repeat split. }
  assert (Hn : length (RemoveScript.results (snd (value r)))
               = length (RemoveScript.participantsToRemove g targets)).
  { rewrite <- (remove_outcomes_are_filtered_targets myId targets w w1 chats g Hc Hg Ha).
    now rewrite length_map. }
  destruct Hinv as (H1 & H2). unfold r in *. clear r.
  eexists. eexists. split; [exact Hw|].
  cbn [RemoveScript.summary Remove.successCount Remove.failCount
       Remove.alreadyRemovedCount Remove.notificationsSent
       Remove.results Remove.totalToProcess].
  rewrite isAlreadyRemoved_count.
  split; [exact H1|]. split; [exact H2|]. split; [reflexivity|]. split.
  - rewrite H1, H2, <- Hn.
    match goal with
    | |- context [countRemove Remove.removed ?rs] =>
        pose proof (countRemove_total rs); lia
    end.
  - rewrite H1, <- isRemoved_count. apply filter_and_length_le.
Qed.

Lemma remove_summary_counters_agree_with_results_witness :
  let g := Scenario.removeGroup ["1111"; "2222"] in
  let w := Scenario.refusing [] [("1111@c.us", "blocked")] (inr "CODE") [g] in
  let r := Scenario.runRemove ["+1111"; "+2222"; "+3333"] w in
  getChats w = (w, inr [g]) /\
  RemoveScript.findTargetGroup [g] = Some g /\
  RemoveScript.notAdmin Sim.me g = false /\
  RemoveScript.participantsToRemove g ["+1111"; "+2222"; "+3333"] <> [] /\
  exists file data,
    written (trace r) = [(file, RemovalResults data)] /\
    Remove.successCount data = countRemove Remove.removed (Remove.results data) /\
    Remove.failCount data = countRemove Remove.failed (Remove.results data) /\
    Remove.alreadyRemovedCount data
    = countRemove Remove.already_removed (Remove.results data) /\
    Remove.successCount data + Remove.alreadyRemovedCount data + Remove.failCount data
    = Remove.totalToProcess data /\
    Remove.notificationsSent data <= Remove.successCount data.
Proof.
  cbv zeta.
  assert (Hne : RemoveScript.participantsToRemove (Scenario.removeGroup ["1111"; "2222"])
                  ["+1111"; "+2222"; "+3333"] <> [])
    by (vm_compute; discriminate).
  split; [reflexivity|]. split; [reflexivity|]. split; [reflexivity|].
  split; [exact Hne|].
  exact (remove_summary_counters_agree_with_results Sim.World Sim.session Sim.me
           ["+1111"; "+2222"; "+3333"]
           (Scenario.refusing [] [("1111@c.us", "blocked")] (inr "CODE")
                              [Scenario.removeGroup ["1111"; "2222"]])
           (Scenario.refusing [] [("1111@c.us", "blocked")] (inr "CODE")
                              [Scenario.removeGroup ["1111"; "2222"]])
           [Scenario.removeGroup ["1111"; "2222"]] (Scenario.removeGroup ["1111"; "2222"])
           eq_refl eq_refl eq_refl Hne).
Defined.

(** ** Pacing *)

(** X8: add loop.  After the last number no pacing timer is started: its
    iteration never ends on a timer.  After any other number the iteration
    ends on the pacing timer ([BETWEEN_ADDS] or [AFTER_FAILURE]) unless the
    number was skipped as already in the group, in which case the only
    request of the iteration is the membership query. *)
Theorem add_pacing_between_items :
  forall (W : Type) (H : Session W) targetGroup groupInviteCode n i phoneNumber s (w : W) o,
    let r := interp (AddScript.iteration targetGroup groupInviteCode n i phoneNumber s) w in
    AddScript.results (snd (value r)) = AddScript.results s ++ [o] ->
    ((i <? n - 1)%nat = false -> forall ms, last (trace r) GetChats <> SetTimeout ms) /\
    ((i <? n - 1)%nat = true ->
     if addStatusIs Add.already_in_group o
     then trace r = [GetChatById (_serialized (c_id targetGroup))]
     else last (trace r) GetChats = SetTimeout AddScript.DELAYS.BETWEEN_ADDS \/
          last (trace r) GetChats = SetTimeout AddScript.DELAYS.AFTER_FAILURE).
Proof.
  intros W H g code n i phoneNumber s w o. cbv zeta.
  unfold AddScript.iteration, AddScript.directAdd, AddScript.inviteFallback. js.
  destruct (i <? n - 1)%nat; js; repeat answer; intros Hr;
    apply app_inv_head in Hr; inversion Hr; subst; clear Hr;
    (split; [intros Hi | intros Hi]; try discriminate Hi);
    try match goal with
        | E : addStatusIs _ _ = _ |- _ => cbn in E; discriminate E
        end;
    cbn [last]; auto; intros ms; discriminate.
Qed.

Lemma add_pacing_between_items_witness :
  let g := Scenario.addGroup [] in
  let w := Sim.start [g] in
  let r := interp (AddScript.iteration g (Some "CODE") 2 0 "+1111" AddScript.initial) w in
  AddScript.results (snd (value r))
  = [{| Add.number := "+1111"; Add.status := Add.added; Add.method := Add.direct;
        Add.inviteLink := None; Add.error := None |}] /\
  (last (trace r) GetChats = SetTimeout AddScript.DELAYS.BETWEEN_ADDS \/
   last (trace r) GetChats = SetTimeout AddScript.DELAYS.AFTER_FAILURE).
Proof.
  cbv zeta. split; [reflexivity|].
  exact (proj2 (add_pacing_between_items Sim.World Sim.session (Scenario.addGroup [])
                     (Some "CODE") 2 0 "+1111" AddScript.initial
                     (Sim.start [Scenario.addGroup []])
                     {| Add.number := "+1111"; Add.status := Add.added;
                        Add.method := Add.direct; Add.inviteLink := None;
                        Add.error := None |} eq_refl) eq_refl).
Defined.

(** X9: removal loop.  After the last number no pacing timer is started.
    After any other number the iteration ends on the pacing timer
    ([BETWEEN_REMOVALS] or [AFTER_FAILURE]) unless the number was skipped
    as already removed, in which case the iteration requests nothing. *)
Theorem remove_pacing_between_items :
  forall (W : Type) (H : Session W) targetGroup n i phoneNumber s (w : W) o,
    let r := interp (RemoveScript.iteration targetGroup n i phoneNumber s) w in
    RemoveScript.results (snd (value r)) = RemoveScript.results s ++ [o] ->
    ((i <? n - 1)%nat = false -> forall ms, last (trace r) GetChats <> SetTimeout ms) /\
    ((i <? n - 1)%nat = true ->
     if removeStatusIs Remove.already_removed o
     then trace r = []
     else last (trace r) GetChats = SetTimeout RemoveScript.DELAYS.BETWEEN_REMOVALS \/
          last (trace r) GetChats = SetTimeout RemoveScript.DELAYS.AFTER_FAILURE).
Proof.
  intros W H g n i phoneNumber s w o. cbv zeta.
  unfold RemoveScript.iteration, RemoveScript.notify. js.
  destruct (find _ _); destruct (i <? n - 1)%nat; js; repeat answer; intros Hr;
    apply app_inv_head in Hr; inversion Hr; subst; clear Hr;
    (split; [intros Hi | intros Hi]; try discriminate Hi);
    try match goal with
        | E : removeStatusIs _ _ = _ |- _ => cbn in E; discriminate E
        end;
    cbn [last]; auto; intros ms; discriminate.
Qed.

Lemma remove_pacing_between_items_witness :
  let g := Scenario.removeGroup ["1111"] in
  let w := Scenario.refusing [] [] (inr "CODE") [g] in
  let r := interp (RemoveScript.iteration g 2 0 "+1111" RemoveScript.initial) w in
  RemoveScript.results (snd (value r))
  = [{| Remove.number := "+1111"; Remove.status := Remove.removed;
        Remove.notificationSent := Some true; Remove.msgError := None;
        Remove.error := None |}] /\
  (last (trace r) GetChats = SetTimeout RemoveScript.DELAYS.BETWEEN_REMOVALS \/
   last (trace r) GetChats = SetTimeout RemoveScript.DELAYS.AFTER_FAILURE).
Proof.
  cbv zeta. split; [reflexivity|].
  exact (proj2 (remove_pacing_between_items Sim.World Sim.session
                     (Scenario.removeGroup ["1111"]) 2 0 "+1111" RemoveScript.initial
                     (Scenario.refusing [] [] (inr "CODE") [Scenario.removeGroup ["1111"]])
                     {| Remove.number := "+1111"; Remove.status := Remove.removed;
                        Remove.notificationSent := Some true; Remove.msgError := None;
                        Remove.error := None |} eq_refl) eq_refl).
Defined.

(** ** Failures outside the loop *)

Lemma find_none_iff {A} (f : A -> bool) (l : list A) :
  (forall x, In x l -> f x = false) -> find f l = None.
Proof.
  induction l as [| a l IH]; intros Hf; [reflexivity|]. cbn.
  rewrite (Hf a (or_introl eq_refl)). apply IH. intros x Hx. apply Hf. now right.
Qed.

Lemma no_add_target_group chats :
  (forall c, In c chats -> isGroup c = true ->
             _serialized (c_id c) <> AddScript.TARGET_GROUP_ID) ->
  AddScript.findTargetGroup chats = None.
Proof.
  intros Hn. unfold AddScript.findTargetGroup. apply find_none_iff.
  intros c Hc. apply filter_In in Hc as [Hc Hg]. apply String.eqb_neq. now apply Hn.
Qed.

Lemma no_remove_target_group chats :
  (forall c, In c chats -> isGroup c = true ->
             _serialized (c_id c) <> RemoveScript.TARGET_GROUP_ID) ->
  RemoveScript.findTargetGroup chats = None.
Proof.
  intros Hn. unfold RemoveScript.findTargetGroup. apply find_none_iff.
  intros c Hc. apply filter_In in Hc as [Hc Hg]. apply String.eqb_neq. now apply Hn.
Qed.

(** X10: when [getChats()] throws, either script ends in its outermost
    [catch] having requested nothing else; when no chat flagged as a group
    carries the configured id (a chat with that id that is not a group does
    not count), it returns right after [getChats()].  In both cases nothing
    is recorded. *)
Theorem setup_failures_end_the_run :
  (forall (W : Type) (H : Session W) myId participants_to_add (w w1 : W) answer,
      let r := interp (AddScript.addParticipantsToGroup myId participants_to_add
                         AddScript.initial) w in
      getChats w = (w1, answer) ->
      match answer with
      | inl msg => True
      | inr chats =>
          forall c, In c chats -> isGroup c = true ->
                    _serialized (c_id c) <> AddScript.TARGET_GROUP_ID
      end ->
      trace r = [GetChats] /\
      value r = (inr match answer with
                     | inl msg => Crashed msg
                     | inr _ => GroupNotFound
                     end, AddScript.initial))
  /\
  (forall (W : Type) (H : Session W) myId inactive_participants (w w1 : W) answer,
      let r := interp (RemoveScript.removeInactiveParticipants myId inactive_participants
                         RemoveScript.initial) w in
      getChats w = (w1, answer) ->
      match answer with
      | inl msg => True
      | inr chats =>
          forall c, In c chats -> isGroup c = true ->
                    _serialized (c_id c) <> RemoveScript.TARGET_GROUP_ID
      end ->
      trace r = [GetChats] /\
      value r = (inr match answer with
                     | inl msg => Crashed msg
                     | inr _ => GroupNotFound
                     end, RemoveScript.initial)).
Proof.
  split; intros W H myId targets w w1 [msg | chats] r Hc Hn; subst r.
  - unfold AddScript.addParticipantsToGroup. js. rewrite Hc. js. auto.
  - unfold AddScript.addParticipantsToGroup. js. rewrite Hc. js.
    rewrite (no_add_target_group chats Hn). js. auto.
  - unfold RemoveScript.removeInactiveParticipants. js. rewrite Hc. js. auto.
  - unfold RemoveScript.removeInactiveParticipants. js. rewrite Hc. js.
    rewrite (no_remove_target_group chats Hn). js. auto.
Qed.

Lemma setup_failures_end_the_run_witness :
  let notGroup :=
    {| c_id := {| user := "120363401616166216"; _serialized := AddScript.TARGET_GROUP_ID |};
       name := "Slots"; isGroup := false; participants := [] |} in
  let w := Sim.start [notGroup] in
  getChats w = (w, inr [notGroup]) /\
  (forall c, In c [notGroup] -> isGroup c = true ->
             _serialized (c_id c) <> AddScript.TARGET_GROUP_ID) /\
  trace (Scenario.runAdd ["+1111"] w) = [GetChats] /\
  value (Scenario.runAdd ["+1111"] w) = (inr GroupNotFound, AddScript.initial).
Proof.
  cbv zeta.
  assert (Hn : forall c,
             In c [{| c_id := {| user := "120363401616166216";
                                 _serialized := AddScript.TARGET_GROUP_ID |};
                      name := "Slots"; isGroup := false; participants := [] |}] ->
             isGroup c = true -> _serialized (c_id c) <> AddScript.TARGET_GROUP_ID)
    by (intros c [<- | []] Hg; discriminate Hg).
  split; [reflexivity|]. split; [exact Hn|].
  exact (proj1 setup_failures_end_the_run Sim.World Sim.session Sim.me ["+1111"]
           (Sim.start [{| c_id := {| user := "120363401616166216";
                                     _serialized := AddScript.TARGET_GROUP_ID |};
                          name := "Slots"; isGroup := false; participants := [] |}])
           (Sim.start [{| c_id := {| user := "120363401616166216";
                                     _serialized := AddScript.TARGET_GROUP_ID |};
                          name := "Slots"; isGroup := false; participants := [] |}])
           (inr [{| c_id := {| user := "120363401616166216";
                               _serialized := AddScript.TARGET_GROUP_ID |};
                    name := "Slots"; isGroup := false; participants := [] |}])
           eq_refl Hn).
Defined.

(** X11: neither script ever throws to its caller: whatever the session, the
    file system or a request answers, the run ends by one of its [return]s
    or in its outermost [catch]. *)
Theorem scripts_never_throw :
  (forall (W : Type) (H : Session W) myId participants_to_add (w : W),
      exists ending,
        fst (value (interp (AddScript.addParticipantsToGroup myId participants_to_add
                              AddScript.initial) w)) = inr ending)
  /\
  (forall (W : Type) (H : Session W) myId inactive_participants (w : W),
      exists ending,
        fst (value (interp (RemoveScript.removeInactiveParticipants myId
                              inactive_participants RemoveScript.initial) w))
        = inr ending).
Proof.
  split; intros W H myId targets w.
  - unfold AddScript.addParticipantsToGroup. rewrite interp_tryCatch. unfold orElse.
    destruct (value (interp _ w)) as [[msg | ending] s]; js; eauto.
  - unfold RemoveScript.removeInactiveParticipants. rewrite interp_tryCatch. unfold orElse.
    destruct (value (interp _ w)) as [[msg | ending] s]; js; eauto.
Qed.

(** ** Without an invite code *)

Section NoInvite.

Context {W : Type} `{Session W}.

Lemma add_loop_preserves (P : AddScript.Locals -> Prop) targetGroup groupInviteCode n :
  (forall i phoneNumber s (w : W),
      P s ->
      P (snd (value (interp (AddScript.iteration targetGroup groupInviteCode n i
                               phoneNumber s) w)))) ->
  forall todo i s (w : W),
    P s ->
    P (snd (value (interp (AddScript.loop targetGroup groupInviteCode n i todo s) w))).
Proof.
  intros Hit. induction todo as [| phoneNumber rest IH]; intros i s w Hs.
  - exact Hs.
  - rewrite add_loop_step. cbn [value]. apply IH, Hit, Hs.
Qed.

Lemma add_iteration_without_code targetGroup groupInviteCode n i phoneNumber s (w : W) :
  truthy groupInviteCode = false ->
  let r := interp (AddScript.iteration targetGroup groupInviteCode n i phoneNumber s) w in
  total isSendRequest (trace r) = 0 /\
  (Forall (fun o => addStatusIs Add.invited o = false) (AddScript.results s) ->
   Forall (fun o => addStatusIs Add.invited o = false)
          (AddScript.results (snd (value r)))).
Proof.
  intros Hc. cbv zeta.
  unfold AddScript.iteration, AddScript.directAdd, AddScript.inviteFallback.
  rewrite Hc. js.
  repeat answer; (split; [reflexivity | intros Hs; apply Forall_app; split;
                                        [exact Hs | repeat constructor]]).
Qed.

End NoInvite.

(** X12: when the invite code request throws, or answers an empty code, the
    add script never sends a message and never records [invited]: every
    failed direct add is recorded as [failed]. *)
Theorem without_invite_code_nothing_is_sent :
  forall (W : Type) (H : Session W) myId participants_to_add (w w1 w2 : W) chats targetGroup
         answer,
    let r := interp (AddScript.addParticipantsToGroup myId participants_to_add
                       AddScript.initial) w in
    getChats w = (w1, inr chats) ->
    AddScript.findTargetGroup chats = Some targetGroup ->
    getInviteCode (_serialized (c_id targetGroup)) w1 = (w2, answer) ->
    truthy (codeOf answer) = false ->
    total isSendRequest (trace r) = 0 /\
    countAdd Add.invited (AddScript.results (snd (value r))) = 0.
Proof.
  intros W H myId targets w w1 w2 chats g answer r Hc Hg Hi Ht. subst r.
  assert (Hcount : forall rs, Forall (fun o => addStatusIs Add.invited o = false) rs ->
                              countAdd Add.invited rs = 0).
  { unfold countAdd. induction 1 as [| o rs Ho _ IH]; [reflexivity|].
    cbn [filter]. now rewrite Ho. }
  destruct (AddScript.notAdmin myId g) eqn:Ha.
  { unfold AddScript.addParticipantsToGroup. js. rewrite Hc. js. rewrite Hg, Ha. js.
    split; reflexivity. }
  destruct (AddScript.participantsToAdd g targets) as [| t ts] eqn:Et.
  { unfold AddScript.addParticipantsToGroup. js. rewrite Hc. js. rewrite Hg, Ha, Et. js.
    split; reflexivity. }
  assert (Hne : AddScript.participantsToAdd g targets <> []) by (rewrite Et; discriminate).
  rewrite (add_run myId targets w w1 chats g Hc Hg Ha Hne). cbn [trace value snd].
  rewrite Hi. cbn [fst snd]. split.
  - cbn [total isSendRequest]. rewrite total_app. cbn [total isSendRequest].
    pose proof (add_loop_total isSendRequest 0 g (codeOf answer)
                  (length (AddScript.participantsToAdd g targets))
                  (fun i p s w =>
                     Nat.eq_le_incl _ _
                       (proj1 (add_iteration_without_code g (codeOf answer) _ i p s w Ht)))
                  (AddScript.participantsToAdd g targets) 0 AddScript.initial w2).
    lia.
  - apply Hcount.
    apply (add_loop_preserves
             (fun s => Forall (fun o => addStatusIs Add.invited o = false)
                              (AddScript.results s))).
    + intros i p s w' Hs.
      now apply (proj2 (add_iteration_without_code g (codeOf answer) _ i p s w' Ht)).
    + constructor.
Qed.

Lemma without_invite_code_nothing_is_sent_witness :
  let g := Scenario.addGroup [] in
  let w := Scenario.refusing [("1111@c.us", "refused")] [] (inl "no link") [g] in
  let r := Scenario.runAdd ["+1111"; "+2222"] w in
  getChats w = (w, inr [g]) /\
  AddScript.findTargetGroup [g] = Some g /\
  getInviteCode (_serialized (c_id g)) w = (w, inl "no link") /\
  truthy (codeOf (inl "no link")) = false /\
  total isSendRequest (trace r) = 0 /\
  countAdd Add.invited (AddScript.results (snd (value r))) = 0.
Proof.
  cbv zeta. split; [reflexivity|]. split; [reflexivity|]. split; [reflexivity|].
  split; [reflexivity|].
  exact (without_invite_code_nothing_is_sent Sim.World Sim.session Sim.me
           ["+1111"; "+2222"]
           (Scenario.refusing [("1111@c.us", "refused")] [] (inl "no link")
                              [Scenario.addGroup []])
           (Scenario.refusing [("1111@c.us", "refused")] [] (inl "no link")
                              [Scenario.addGroup []])
           (Scenario.refusing [("1111@c.us", "refused")] [] (inl "no link")
                              [Scenario.addGroup []])
           [Scenario.addGroup []] (Scenario.addGroup []) (inl "no link")
           eq_refl eq_refl eq_refl eq_refl).
Defined.

(** ** Phone numbers and participant ids *)

Lemma string_length_append (a b : string) :
  String.length (a ++ b) = String.length a + String.length b.
Proof. induction a as [| c a IH]; cbn; [reflexivity | now rewrite IH]. Qed.

Lemma string_append_inj_r (a b c : string) :
  (a ++ c)%string = (b ++ c)%string -> a = b.
Proof.
  revert b. induction a as [| x a IH]; intros [| y b] E; cbn in E.
  - reflexivity.
  - apply (f_equal String.length) in E. cbn in E. rewrite string_length_append in E. lia.
  - apply (f_equal String.length) in E. cbn in E. rewrite string_length_append in E. lia.
  - injection E as -> E. f_equal. now apply IH.
Qed.

Lemma plus_prefixed (t : string) :
  prefix "+" t = true -> exists u, t = String "+" u.
Proof.
  destruct t as [| c t]; cbn [prefix]; [discriminate|].
  destruct (ascii_dec "+" c) as [<- | _]; [| discriminate]. intros _. now exists t.
Qed.

Lemma prefix_empty (s : string) : prefix EmptyString s = true.
Proof. destruct s; reflexivity. Qed.

Lemma replace_leading_plus (u : string) : replace "+" EmptyString (String "+" u) = u.
Proof.
  cbn [replace prefix]. destruct (ascii_dec "+" "+") as [_ | n]; [| congruence].
  rewrite prefix_empty. reflexivity.
Qed.

Lemma participantIdOf_plus (u : string) :
  AddScript.participantIdOf (String "+" u) = (u ++ "@c.us")%string /\
  RemoveScript.participantIdOf (String "+" u) = (u ++ "@c.us")%string.
Proof.
  unfold AddScript.participantIdOf, RemoveScript.participantIdOf.
  rewrite replace_leading_plus. split; reflexivity.
Qed.

Lemma member_tests_agree (ps : list Participant) (u : string) :
  (forall p, In p ps -> _serialized (p_id p) = (user (p_id p) ++ "@c.us")%string) ->
  includes (map (fun p => ("+" ++ user (p_id p))%string) ps) (String "+" u)
  = existsb (fun p => _serialized (p_id p) =? u ++ "@c.us")%string ps.
Proof.
  unfold includes. induction ps as [| p ps IH]; intros Hwf; [reflexivity|].
  cbn [map existsb]. rewrite IH by (intros q Hq; apply Hwf; now right). f_equal.
  rewrite (Hwf p (or_introl eq_refl)). cbn [append].
  destruct (String.eqb_spec (String "+" u) (String "+" (user (p_id p)))) as [E | E];
    destruct (String.eqb_spec (user (p_id p) ++ "@c.us") (u ++ "@c.us")) as [E' | E'];
    try reflexivity; exfalso.
  - apply E'. injection E as ->. reflexivity.
  - apply E. apply string_append_inj_r in E'. now rewrite E'.
Qed.

(** X13: on a group whose participant ids have the form [<user>@c.us], the
    membership test of the pre-loop filter (on [+<user>]) and the test made
    inside the loop (on the id built from the phone number) agree for every
    phone number that starts with [+]. *)
Theorem filter_and_loop_check_agree :
  forall (g : Chat) (phoneNumber : string),
    wellFormed g ->
    prefix "+" phoneNumber = true ->
    includes (AddScript.currentParticipants g) phoneNumber
    = AddScript.inGroup (AddScript.participantIdOf phoneNumber) g /\
    includes (RemoveScript.currentParticipants g) phoneNumber
    = RemoveScript.inGroup (RemoveScript.participantIdOf phoneNumber) g.
Proof.
  intros g t Hwf Hp. destruct (plus_prefixed t Hp) as [u ->].
  destruct (participantIdOf_plus u) as [-> ->].
  split; apply member_tests_agree; exact Hwf.
Qed.

Lemma filter_and_loop_check_agree_witness :
  let g := Scenario.addGroup ["1111"] in
  wellFormed g /\
  prefix "+" "+1111" = true /\
  includes (AddScript.currentParticipants g) "+1111"
  = AddScript.inGroup (AddScript.participantIdOf "+1111") g.
Proof.
  cbv zeta.
  assert (Hwf : wellFormed (Scenario.addGroup ["1111"]))
    by (intros p [<- | [<- | []]]; reflexivity).
  split; [exact Hwf|]. split; [reflexivity|].
  exact (proj1 (filter_and_loop_check_agree (Scenario.addGroup ["1111"]) "+1111"
                  Hwf eq_refl)).
Defined.

Lemma includes_current_has_plus (ps : list Participant) (t : string) :
  includes (map (fun p => ("+" ++ user (p_id p))%string) ps) t = true ->
  prefix "+" t = true.
Proof.
  unfold includes. intros Hi. apply existsb_exists in Hi as [x [Hx He]].
  apply in_map_iff in Hx as [p [<- _]]. apply String.eqb_eq in He. subst t.
  cbn [append prefix]. destruct (ascii_dec "+" "+"); [apply prefix_empty | congruence].
Qed.

(** X14: a supplied number that does not start with [+] never matches a
    group member in the pre-loop filter: the add script always keeps it as
    a number to add, the removal script always puts it in [notInGroup], and
    a removal run creates no record for it. *)
Theorem number_without_plus_is_never_matched :
  forall (W : Type) (H : Session W) myId targets (w w1 : W) chats targetGroup
         (phoneNumber : string),
    prefix "+" phoneNumber = false ->
    In phoneNumber targets ->
    (forall g, In phoneNumber (AddScript.participantsToAdd g targets)) /\
    (forall g, In phoneNumber (RemoveScript.notInGroup g targets)) /\
    (getChats w = (w1, inr chats) ->
     RemoveScript.findTargetGroup chats = Some targetGroup ->
     RemoveScript.notAdmin myId targetGroup = false ->
     ~ In phoneNumber
          (map Remove.number
               (RemoveScript.results
                  (snd (value (interp (RemoveScript.removeInactiveParticipants myId targets
                                         RemoveScript.initial) w)))))).
Proof.
  intros W H myId targets w w1 chats g t Hp Hin.
  assert (Hno : forall ps, includes (map (fun p => ("+" ++ user (p_id p))%string) ps) t
                           = false).
  { intros ps. destruct (includes _ t) eqn:E; [| reflexivity].
    apply includes_current_has_plus in E. congruence. }
  split; [| split].
  - intros g'. apply filter_In. split; [exact Hin|].
    unfold AddScript.currentParticipants. now rewrite Hno.
  - intros g'. apply filter_In. split; [exact Hin|].
    unfold RemoveScript.currentParticipants. now rewrite Hno.
  - intros Hc Hg Ha.
    rewrite (remove_outcomes_are_filtered_targets myId targets w w1 chats g Hc Hg Ha).
    intros Hf. apply filter_In in Hf as [_ Hf].
    unfold RemoveScript.currentParticipants in Hf. rewrite Hno in Hf. discriminate.
Qed.

Lemma number_without_plus_is_never_matched_witness :
  let g := Scenario.removeGroup ["1111"] in
  let w := Sim.start [g] in
  prefix "+" "1111" = false /\
  In "1111" ["1111"; "+2222"] /\
  In "1111" (RemoveScript.notInGroup g ["1111"; "+2222"]).
Proof.
  cbv zeta.
  assert (Hin : In "1111" ["1111"; "+2222"]) by (left; reflexivity).
  split; [reflexivity|]. split; [exact Hin|].
  exact (proj1 (proj2 (number_without_plus_is_never_matched Sim.World Sim.session Sim.me
                         ["1111"; "+2222"]
                         (Sim.start [Scenario.removeGroup ["1111"]])
                         (Sim.start [Scenario.removeGroup ["1111"]])
                         [Scenario.removeGroup ["1111"]] (Scenario.removeGroup ["1111"])
                         "1111" eq_refl Hin))
               (Scenario.removeGroup ["1111"])).
Defined.

(** ** The check before a removal *)

Section StaleCheck.

Context {W : Type} `{Session W}.

Lemma find_some_of_existsb {A} (f : A -> bool) (l : list A) :
  existsb f l = true -> exists a, find f l = Some a.
Proof.
  induction l as [| a l IH]; cbn; [discriminate|].
  destruct (f a); [eauto | exact IH].
Qed.

Lemma remove_iteration_member targetGroup n i phoneNumber s (w : W) :
  RemoveScript.inGroup (RemoveScript.participantIdOf phoneNumber) targetGroup = true ->
  countRemove Remove.already_removed
    (RemoveScript.results
       (snd (value (interp (RemoveScript.iteration targetGroup n i phoneNumber s) w))))
  = countRemove Remove.already_removed (RemoveScript.results s).
Proof.
  intros Hin. apply find_some_of_existsb in Hin as [p Hp].
  unfold RemoveScript.iteration, RemoveScript.notify. js. rewrite Hp. js.
  repeat answer; rewrite !countRemove_app; cbn; lia.
Qed.

Lemma remove_loop_members targetGroup n todo :
  forall i s (w : W),
    Forall (fun phoneNumber =>
              RemoveScript.inGroup (RemoveScript.participantIdOf phoneNumber) targetGroup
              = true) todo ->
    countRemove Remove.already_removed
      (RemoveScript.results
         (snd (value (interp (RemoveScript.loop targetGroup n i todo s) w))))
    = countRemove Remove.already_removed (RemoveScript.results s).
Proof.
  induction todo as [| phoneNumber rest IH]; intros i s w Hall.
  - reflexivity.
  - inversion Hall as [| ? ? Hh Ht]; subst.
    rewrite remove_loop_step. cbn [value]. rewrite IH by exact Ht.
    now apply remove_iteration_member.
Qed.

End StaleCheck.

Lemma filtered_numbers_are_members (g : Chat) (targets : list string) :
  wellFormed g ->
  Forall (fun phoneNumber =>
            RemoveScript.inGroup (RemoveScript.participantIdOf phoneNumber) g = true)
         (RemoveScript.participantsToRemove g targets).
Proof.
  intros Hwf. apply Forall_forall. intros t Ht.
  apply filter_In in Ht as [_ Ht]. unfold RemoveScript.currentParticipants in Ht.
  destruct (plus_prefixed t (includes_current_has_plus _ _ Ht)) as [u ->].
  rewrite (proj2 (participantIdOf_plus u)).
  unfold RemoveScript.inGroup. now rewrite <- member_tests_agree.
Qed.

Lemma countRemove_zero st rs :
  countRemove st rs = 0 -> Forall (fun o => removeStatusIs st o = false) rs.
Proof.
  unfold countRemove. induction rs as [| o rs IH]; cbn [filter]; intros Hz.
  - constructor.
  - destruct (removeStatusIs st o) eqn:E; [discriminate|]. constructor; auto.
Qed.

(** X15: removal script, on a group whose participant ids have the form
    [<user>@c.us].  The check made before each removal reads the same
    participant list as the pre-loop filter, so it never fails: no record
    of a run has status [already_removed], [alreadyRemovedCount] is 0, and
    every processed number is either removed or failed. *)
Theorem stale_check_never_skips :
  forall (W : Type) (H : Session W) myId inactive_participants (w w1 : W) chats targetGroup,
    let r := interp (RemoveScript.removeInactiveParticipants myId inactive_participants
                       RemoveScript.initial) w in
    wellFormed targetGroup ->
    getChats w = (w1, inr chats) ->
    RemoveScript.findTargetGroup chats = Some targetGroup ->
    RemoveScript.notAdmin myId targetGroup = false ->
    RemoveScript.participantsToRemove targetGroup inactive_participants <> [] ->
    exists file data,
      written (trace r) = [(file, RemovalResults data)] /\
      Remove.alreadyRemovedCount data = 0 /\
      Forall (fun o => Remove.status o <> Remove.already_removed) (Remove.results data) /\
      Remove.successCount data + Remove.failCount data = Remove.totalToProcess data.
Proof.
  intros W H myId targets w w1 chats g r Hwf Hc Hg Ha Hne.
  destruct (remove_run_saves myId targets w w1 chats g Hc Hg Ha Hne) as [iso [now [Hw _]]].
  assert (Hz : countRemove Remove.already_removed (RemoveScript.results (snd (value r))) = 0).
  { subst r. rewrite (remove_run myId targets w w1 chats g Hc Hg Ha Hne). cbn [value snd].
    rewrite remove_loop_members by (now apply filtered_numbers_are_members). reflexivity. }
  assert (Hinv : removeCountsAgree (snd (value r))).
  { subst r. rewrite (remove_run myId targets w w1 chats g Hc Hg Ha Hne). cbn [value snd].
    apply remove_loop_counts. repeat split. }
  assert (Hn : length (RemoveScript.results (snd (value r)))
               = length (RemoveScript.participantsToRemove g targets)).
  { rewrite <- (remove_outcomes_are_filtered_targets myId targets w w1 chats g Hc Hg Ha).
    now rewrite length_map. }
  destruct Hinv as (H1 & H2). unfold r in *. clear r.
  eexists. eexists. split; [exact Hw|].
  cbn [RemoveScript.summary Remove.successCount Remove.failCount
       Remove.alreadyRemovedCount Remove.results Remove.totalToProcess].
  rewrite isAlreadyRemoved_count. split; [exact Hz|]. split.
  - apply countRemove_zero in Hz. eapply Forall_impl; [| exact Hz].
    intros o Ho Hs. unfold removeStatusIs in Ho. rewrite Hs in Ho. discriminate.
  - rewrite H1, H2, <- Hn.
    match goal with
    | |- context [countRemove Remove.removed ?rs] =>
        pose proof (countRemove_total rs); lia
    end.
Qed.

Lemma stale_check_never_skips_witness :
  let g := Scenario.removeGroup ["1111"; "2222"] in
  let w := Scenario.refusing [] [("1111@c.us", "blocked")] (inr "CODE") [g] in
  let r := Scenario.runRemove ["+1111"; "+2222"; "+3333"] w in
  wellFormed g /\
  getChats w = (w, inr [g]) /\
  RemoveScript.findTargetGroup [g] = Some g /\
  RemoveScript.notAdmin Sim.me g = false /\
  RemoveScript.participantsToRemove g ["+1111"; "+2222"; "+3333"] <> [] /\
  exists file data,
    written (trace r) = [(file, RemovalResults data)] /\
    Remove.alreadyRemovedCount data = 0 /\
    Forall (fun o => Remove.status o <> Remove.already_removed) (Remove.results data) /\
    Remove.successCount data + Remove.failCount data = Remove.totalToProcess data.
Proof.
  cbv zeta.
  assert (Hwf : wellFormed (Scenario.removeGroup ["1111"; "2222"]))
    by (intros p [<- | [<- | [<- | []]]]; reflexivity).
  assert (Hne : RemoveScript.participantsToRemove (Scenario.removeGroup ["1111"; "2222"])
                  ["+1111"; "+2222"; "+3333"] <> [])
    by (vm_compute; discriminate).
  split; [exact Hwf|].
  split; [reflexivity|]. split; [reflexivity|]. split; [reflexivity|].
  split; [exact Hne|].
  exact (stale_check_never_skips Sim.World Sim.session Sim.me
           ["+1111"; "+2222"; "+3333"]
           (Scenario.refusing [] [("1111@c.us", "blocked")] (inr "CODE")
                              [Scenario.removeGroup ["1111"; "2222"]])
           (Scenario.refusing [] [("1111@c.us", "blocked")] (inr "CODE")
                              [Scenario.removeGroup ["1111"; "2222"]])
           [Scenario.removeGroup ["1111"; "2222"]] (Scenario.removeGroup ["1111"; "2222"])
           Hwf eq_refl eq_refl eq_refl Hne).
Defined.

(** ** The send loop *)

Ltac js_send :=
  cbn [interp pbind bind tryCatch call ret throw modify get handle after Resp
       fst snd world trace value app
       SendScript.push SendScript.incr_successCount SendScript.incr_failCount
       SendScript.successCount SendScript.failCount SendScript.results];
  unfold when;
  cbn [interp pbind bind tryCatch call ret throw modify get handle after Resp
       fst snd world trace value app
       SendScript.push SendScript.incr_successCount SendScript.incr_failCount
       SendScript.successCount SendScript.failCount SendScript.results].

Lemma sendCount_app st rs rs' :
  sendCount st (rs ++ rs') = sendCount st rs + sendCount st rs'.
Proof. unfold sendCount. now rewrite filter_app, length_app. Qed.

Lemma sendCount_total rs :
  sendCount Send.success rs + sendCount Send.failed rs = length rs.
Proof.
  unfold sendCount. induction rs as [| o rs IH]; [reflexivity|].
  cbn [filter]. unfold sendStatusIs in *.
  destruct (Send.status o); cbn [length]; lia.
Qed.

Section SendFacts.

Context {W : Type} `{Session W}.

(** One iteration: the message is requested once; a record is pushed for
    the number; the timer follows unless this is the last index. *)
Lemma send_iteration_run n i phoneNumber s (w : W) :
  let r := interp (SendScript.iteration n i phoneNumber s) w in
  fst (value r) = inr tt /\
  exists o,
    SendScript.results (snd (value r)) = SendScript.results s ++ [o] /\
    Send.number o = phoneNumber /\
    trace r = SendMessage (SendScript.chatIdOf phoneNumber) SendScript.MESSAGE ::
              (if (i <? n - 1)%nat
               then [SetTimeout (match Send.status o with
                                 | Send.success => 2000
                                 | Send.failed => 1000
                                 end)]
               else []) /\
    (sendInvariant s -> sendInvariant (snd (value r))).
Proof.
  cbv zeta. unfold SendScript.iteration. js_send.
  destruct (sendMessage _ _ w) as [w' [msg | []]]; js_send;
    destruct (i <? n - 1)%nat; js_send;
    (split; [reflexivity|]; eexists; split; [reflexivity|]; split; [reflexivity|];
     split; [reflexivity|]; unfold sendInvariant; intros (Ha & Hb & Hc);
     cbn [SendScript.successCount SendScript.failCount SendScript.results snd value];
     rewrite !sendCount_app;
     split; [cbn; lia|]; split; [cbn; lia|];
     apply Forall_app; split; [exact Hc|]; constructor; [cbn; eauto | constructor]).
Qed.

Lemma send_loop_step n i phoneNumber rest s (w : W) :
  let it := interp (SendScript.iteration n i phoneNumber s) w in
  let next := interp (SendScript.loop n (S i) rest (snd (value it))) (world it) in
  interp (SendScript.loop n i (phoneNumber :: rest) s) w
  = {| world := world next; trace := trace it ++ trace next; value := value next |}.
Proof.
  cbv zeta. cbn [SendScript.loop]. rewrite interp_bind. unfold andThen.
  destruct (send_iteration_run n i phoneNumber s w) as [Hv _].
  destruct (value (interp (SendScript.iteration n i phoneNumber s) w)) as [v s1].
  cbn [fst snd] in *. subst v. reflexivity.
Qed.

Lemma send_loop_run todo :
  forall n i s (w : W),
    n = i + length todo ->
    let r := interp (SendScript.loop n i todo s) w in
    fst (value r) = inr tt /\
    exists os,
      SendScript.results (snd (value r)) = SendScript.results s ++ os /\
      map Send.number os = todo /\
      trace r = sendSchedule os /\
      (sendInvariant s -> sendInvariant (snd (value r))).
Proof.
  induction todo as [| phoneNumber rest IH]; intros n i s w Hn; cbv zeta.
  - cbn. split; [reflexivity|]. exists []. rewrite app_nil_r. auto.
  - rewrite send_loop_step. cbn [value trace].
    destruct (send_iteration_run n i phoneNumber s w) as [_ [o (Hr & Ho & Ht & Hi)]].
    destruct (IH n (S i) (snd (value (interp (SendScript.iteration n i phoneNumber s) w)))
                (world (interp (SendScript.iteration n i phoneNumber s) w)))
      as [Hv [os (Hr' & Ho' & Ht' & Hi')]]; [cbn [length] in Hn; lia|].
    split; [exact Hv|]. exists (o :: os).
    split; [rewrite Hr', Hr, <- app_assoc; reflexivity|].
    split; [cbn [map]; now rewrite Ho, Ho'|].
    split; [| auto].
    rewrite Ht, Ht'. cbn [sendSchedule app]. rewrite Ho. f_equal.
    destruct os as [| o' os'].
    + destruct rest; [| discriminate Ho'].
      cbn [length] in Hn.
      replace (i <? n - 1)%nat with false
        by (symmetry; apply Nat.ltb_ge; lia). reflexivity.
    + destruct rest as [| t rest']; [discriminate Ho'|].
      cbn [length] in Hn.
      replace (i <? n - 1)%nat with true
        by (symmetry; apply Nat.ltb_lt; lia). reflexivity.
Qed.

End SendFacts.

(** X16: send-messages.js.  A run never throws and leaves one record for
    every supplied number, in the order supplied, with no number filtered
    out or merged; [successCount] and [failCount] are the numbers of
    [success] and [failed] records and add up to [totalNumbers]; a record
    carries an error message exactly when its status is [failed]. *)
Theorem send_run_records_every_number :
  forall (W : Type) (H : Session W) (targetNumbers : list string) (w : W),
    let r := interp (SendScript.sendMessagesToAll targetNumbers SendScript.initial) w in
    exists file data,
      fst (value r) = inr (file, data) /\
      map Send.number (Send.results data) = targetNumbers /\
      Send.totalNumbers data = length targetNumbers /\
      Send.successCount data = sendCount Send.success (Send.results data) /\
      Send.failCount data = sendCount Send.failed (Send.results data) /\
      Send.successCount data + Send.failCount data = Send.totalNumbers data /\
      Forall (fun o => Send.error o = None <-> Send.status o = Send.success)
             (Send.results data).
Proof.
  intros W H targets w r. subst r. unfold SendScript.sendMessagesToAll.
  rewrite interp_bind. unfold andThen.
  destruct (send_loop_run targets (length targets) 0 SendScript.initial w eq_refl)
    as [Hv [os (Hr & Ho & _ & Hi)]].
  destruct (value (interp (SendScript.loop (length targets) 0 targets SendScript.initial) w))
    as [v s]. cbn [fst snd] in *. subst v. js_send.
  destruct Hi as (Ha & Hb & Hc); [repeat split; constructor|].
  cbn [SendScript.initial SendScript.results app] in Hr.
  eexists. eexists. split; [reflexivity|].
  cbn [SendScript.summary Send.results Send.totalNumbers Send.successCount Send.failCount].
  rewrite Hr in *.
  split; [exact Ho|]. split; [reflexivity|]. split; [exact Ha|]. split; [exact Hb|].
  split.
  - rewrite Ha, Hb, sendCount_total, <- Ho. symmetry. apply length_map.
  - eapply Forall_impl; [| exact Hc]. intros o Hs.
    cbv beta in Hs. destruct (Send.status o).
    + split; [reflexivity | intros _; exact Hs].
    + destruct Hs as [msg ->]. split; discriminate.
Qed.

(** X17: send-messages.js.  The requests of a run are determined by its
    records: one message per number, to the chat id of the number and with
    the fixed text, each followed by a 2000 ms timer when it was sent and
    by a 1000 ms timer when it failed, except that no timer follows the
    last message; then the clock is read twice for the results file. *)
Theorem send_requests_follow_the_records :
  forall (W : Type) (H : Session W) (targetNumbers : list string) (w : W),
    let r := interp (SendScript.sendMessagesToAll targetNumbers SendScript.initial) w in
    trace r = sendSchedule (SendScript.results (snd (value r)))
              ++ [ToISOString; ToISOString].
Proof.
  intros W H targets w r. subst r. unfold SendScript.sendMessagesToAll.
  rewrite interp_bind. unfold andThen.
  destruct (send_loop_run targets (length targets) 0 SendScript.initial w eq_refl)
    as [Hv [os (Hr & _ & Ht & _)]].
  destruct (value (interp (SendScript.loop (length targets) 0 targets SendScript.initial) w))
    as [v s]. cbn [fst snd] in *. subst v. js_send.
  rewrite Ht, Hr. reflexivity.
Qed.

(** ** The name of the results file *)

Lemma substring_dashes (n : nat) (s : string) :
  substring 0 n (dashes s) = dashes (substring 0 n s).
Proof.
  revert s; induction n as [| n IH]; intros [| c s]; cbn [substring dashes];
    try reflexivity.
  now rewrite IH.
Qed.

Lemma substring_length_le (n : nat) (s : string) : String.length (substring 0 n s) <= n.
Proof.
  revert s; induction n as [| n IH]; intros [| c s]; cbn [substring String.length];
    try lia.
  specialize (IH s). lia.
Qed.

Lemma dashes_clean (s : string) (c : ascii) :
  In c (list_ascii_of_string (dashes s)) -> c <> ":"%char /\ c <> "."%char.
Proof.
  induction s as [| a s IH]; cbn [dashes list_ascii_of_string In]; [tauto|].
  intros [<- | Hc]; [| now apply IH].
  destruct (Ascii.eqb a ":") eqn:E1; cbn [orb]; [split; discriminate|].
  destruct (Ascii.eqb a ".") eqn:E2; [split; discriminate|].
  apply Ascii.eqb_neq in E1, E2. now split.
Qed.

(** X18: the time stamp in the name of a results file has at most 19
    characters, none of them [:] or [.], and depends only on the first 19
    characters of the ISO time: two runs that end within the same second
    name the same file, in each of the three scripts. *)
Theorem results_file_name_has_second_resolution :
  forall iso1 iso2 : string,
    substring 0 19 iso1 = substring 0 19 iso2 ->
    AddScript.resultsFile iso1 = AddScript.resultsFile iso2 /\
    RemoveScript.resultsFile iso1 = RemoveScript.resultsFile iso2 /\
    SendScript.resultsFile iso1 = SendScript.resultsFile iso2 /\
    String.length (fileTimestamp iso1) <= 19 /\
    (forall c, In c (list_ascii_of_string (fileTimestamp iso1)) ->
               c <> ":"%char /\ c <> "."%char).
Proof.
  intros iso1 iso2 E.
  assert (Et : fileTimestamp iso1 = fileTimestamp iso2)
    by (unfold fileTimestamp; now rewrite !substring_dashes, E).
  unfold AddScript.resultsFile, RemoveScript.resultsFile, SendScript.resultsFile.
  rewrite Et. repeat (split; [reflexivity|]). split.
  - rewrite <- Et. apply substring_length_le.
  - rewrite <- Et. unfold fileTimestamp. rewrite substring_dashes. apply dashes_clean.
Qed.

Lemma results_file_name_has_second_resolution_witness :
  substring 0 19 "2025-01-02T03:04:05.678Z" = substring 0 19 "2025-01-02T03:04:05.999Z" /\
  AddScript.resultsFile "2025-01-02T03:04:05.678Z"
  = AddScript.resultsFile "2025-01-02T03:04:05.999Z".
Proof.
  split; [reflexivity|].
  exact (proj1 (results_file_name_has_second_resolution
                  "2025-01-02T03:04:05.678Z" "2025-01-02T03:04:05.999Z" eq_refl)).
Defined.

(** ** The CSV converter *)

Lemma trimStart_head (s : string) :
  Csv.trimStart s = EmptyString \/
  exists c r, Csv.trimStart s = String c r /\ Csv.isWhiteSpace c = false.
Proof.
  induction s as [| c s IH]; cbn [Csv.trimStart]; [now left|].
  destruct (Csv.isWhiteSpace c) eqn:E; [exact IH|]. right. eauto.
Qed.

Lemma trimEnd_cons (c : ascii) (s : string) :
  Csv.isWhiteSpace c = false -> Csv.trimEnd (String c s) = String c (Csv.trimEnd s).
Proof. intros E. cbn [Csv.trimEnd]. rewrite E. now destruct (Csv.trimEnd s). Qed.

Lemma trimEnd_idempotent (s : string) : Csv.trimEnd (Csv.trimEnd s) = Csv.trimEnd s.
Proof.
  induction s as [| c s IH]; [reflexivity|]. cbn [Csv.trimEnd].
  destruct (Csv.trimEnd s) as [| a t] eqn:E.
  - destruct (Csv.isWhiteSpace c) eqn:Ec; [reflexivity|].
    cbn [Csv.trimEnd]. now rewrite Ec.
  - change (Csv.trimEnd (String c (String a t)))
      with (match Csv.trimEnd (String a t) with
            | EmptyString =>
                if Csv.isWhiteSpace c then EmptyString else String c EmptyString
            | String x y => String c (String x y)
            end).
    now rewrite IH.
Qed.

Lemma trim_idempotent (s : string) : Csv.trim (Csv.trim s) = Csv.trim s.
Proof.
  unfold Csv.trim. destruct (trimStart_head s) as [-> | [c [r [-> Ec]]]]; [reflexivity|].
  rewrite (trimEnd_cons c r Ec). cbn [Csv.trimStart]. rewrite Ec.
  rewrite <- (trimEnd_cons c r Ec). apply trimEnd_idempotent.
Qed.

Lemma trim_plus (s : string) :
  Csv.trim (String "+" (Csv.trim s)) = String "+" (Csv.trim s).
Proof.
  unfold Csv.trim at 1. cbn [Csv.trimStart].
  change (Csv.isWhiteSpace "+") with false. cbv iota.
  rewrite trimEnd_cons by reflexivity. f_equal.
  unfold Csv.trim. apply trimEnd_idempotent.
Qed.

(** X19: [formatPhoneNumber] returns the trimmed number with exactly one [+]
    put in front when the trimmed number has none; the result always
    starts with [+], and formatting a formatted number changes nothing. *)
Theorem formatPhoneNumber_is_idempotent :
  forall phoneNumber : string,
    prefix "+" (Csv.formatPhoneNumber phoneNumber) = true /\
    Csv.formatPhoneNumber (Csv.formatPhoneNumber phoneNumber)
    = Csv.formatPhoneNumber phoneNumber /\
    (Csv.formatPhoneNumber phoneNumber = Csv.trim phoneNumber \/
     Csv.formatPhoneNumber phoneNumber = String "+" (Csv.trim phoneNumber)).
Proof.
  intros s. unfold Csv.formatPhoneNumber. cbv zeta.
  destruct (prefix "+" (Csv.trim s)) eqn:E; cbn [negb append].
  - rewrite trim_idempotent, E. cbn [negb]. auto.
  - assert (Ep : prefix "+" (String "+" (Csv.trim s)) = true).
    { cbn [prefix]. destruct (ascii_dec "+" "+"); [apply prefix_empty | congruence]. }
    rewrite trim_plus, Ep. cbn [negb]. auto.
Qed.

Ltac country_case :=
  match goal with
  | |- context [if ?b then _ else _] =>
      let E := fresh "E" in
      destruct b eqn:E;
      [ try (apply andb_prop in E; destruct E);
        right; eexists; split; [reflexivity | assumption] |]
  end.

(** X20: [detectCountry] decides on the leading characters only: unless it
    answers [Unknown], the code it returns is [+] followed by digits the
    number starts with.  A number written with a leading [+] is always
    [Unknown], and so is the empty string. *)
Theorem detectCountry_reads_the_leading_digits :
  forall num : string,
    let info := Csv.detectCountry num in
    ((Csv.code info = "Unknown" /\ Csv.country info = "Unknown") \/
     exists digits, Csv.code info = ("+" ++ digits)%string /\ prefix digits num = true) /\
    (prefix "+" num = true \/ num = EmptyString ->
     Csv.code info = "Unknown" /\ Csv.country info = "Unknown").
Proof.
  intros num. cbv zeta. split.
  - unfold Csv.detectCountry. repeat country_case. left. split; reflexivity.
  - intros [Hp | ->]; [| split; reflexivity].
    destruct (plus_prefixed num Hp) as [u ->]. split; reflexivity.
Qed.

Lemma mapFrom_In {A B} (f : A -> nat -> B) (xs : list A) :
  forall i y, In y (Csv.mapFrom i f xs) -> exists x j, In x xs /\ y = f x j.
Proof.
  induction xs as [| x xs IH]; intros i y; cbn [Csv.mapFrom In]; [tauto|].
  intros [<- | Hy]; [exists x, i; auto|].
  destruct (IH _ _ Hy) as [x' [j [Hx ->]]]. exists x', j. auto.
Qed.

Lemma mapFrom_map {A B C} (g : B -> C) (f : A -> nat -> B) (xs : list A) :
  forall i, map g (Csv.mapFrom i f xs) = Csv.mapFrom i (fun x j => g (f x j)) xs.
Proof. induction xs as [| x xs IH]; intros i; cbn; [reflexivity | now rewrite IH]. Qed.

Lemma mapFrom_index {A} (xs : list A) :
  forall i, Csv.mapFrom i (fun _ j => j + 1) xs = seq (i + 1) (length xs).
Proof.
  induction xs as [| x xs IH]; intros i; cbn [Csv.mapFrom length seq]; [reflexivity|].
  rewrite IH. reflexivity.
Qed.

Lemma mapFrom_first {A} (xs : list A) :
  forall i, Csv.mapFrom i (fun x _ => x) xs = xs.
Proof. induction xs as [| x xs IH]; intros i; cbn; [reflexivity | now rewrite IH]. Qed.

(** X21: the entries the converter builds from a file.  There is one entry
    for each line that is not blank, in the order of the file, numbered
    from 1, duplicates included.  The original number of an entry is the
    trimmed line; its formatted number is the original number, with a [+]
    put in front unless it has one; and a line that is written with a [+]
    gets the country [Unknown]. *)
Theorem converter_entries :
  forall csvContent : string,
    let numbers := Csv.phoneNumbers csvContent in
    let processed := Csv.processedNumbers numbers in
    map Csv.Entry.originalNumber processed = numbers /\
    map Csv.Entry.index processed = seq 1 (length numbers) /\
    forall e, In e processed ->
      let n := Csv.Entry.originalNumber e in
      n <> EmptyString /\
      Csv.trim n = n /\
      Csv.Entry.length e = String.length n /\
      Csv.Entry.formattedNumber e = (if prefix "+" n then n else String "+" n) /\
      (prefix "+" n = true ->
       Csv.Entry.country e = "Unknown" /\ Csv.Entry.countryCode e = "Unknown").
Proof.
  intros csv numbers processed. subst processed. unfold Csv.processedNumbers.
  split; [| split].
  - rewrite mapFrom_map. cbn [Csv.Entry.originalNumber]. apply mapFrom_first.
  - rewrite mapFrom_map. cbn [Csv.Entry.index]. apply mapFrom_index.
  - intros e He. apply mapFrom_In in He as [n [j [Hn ->]]].
    cbn [Csv.Entry.originalNumber Csv.Entry.length Csv.Entry.formattedNumber
         Csv.Entry.country Csv.Entry.countryCode]. cbv zeta.
    subst numbers. unfold Csv.phoneNumbers in Hn.
    apply filter_In in Hn as [Hn Hl]. apply in_map_iff in Hn as [line [<- _]].
    assert (Ht : Csv.trim (Csv.trim line) = Csv.trim line) by apply trim_idempotent.
    split; [intros E; rewrite E in Hl; discriminate Hl|].
    split; [exact Ht|]. split; [reflexivity|]. split.
    + unfold Csv.formatPhoneNumber. cbv zeta. rewrite Ht.
      now destruct (prefix "+" (Csv.trim line)).
    + intros Hp. destruct (plus_prefixed _ Hp) as [u ->]. split; reflexivity.
Qed.

Lemma detectCountry_reads_the_leading_digits_witness :
  (prefix "+" "+919876543210" = true \/ "+919876543210" = EmptyString) /\
  Csv.code (Csv.detectCountry "+919876543210") = "Unknown".
Proof.
  split; [left; reflexivity|].
  exact (proj1 (proj2 (detectCountry_reads_the_leading_digits "+919876543210")
                      (or_introl eq_refl))).
Defined.

Lemma converter_entries_witness :
  let csvContent := "919876543210
  +14155550100 

919876543210" in
  let e := {| Csv.Entry.index := 2;
              Csv.Entry.originalNumber := "+14155550100";
              Csv.Entry.formattedNumber := "+14155550100";
              Csv.Entry.countryCode := "Unknown";
              Csv.Entry.country := "Unknown";
              Csv.Entry.length := 12 |} in
  In e (Csv.processedNumbers (Csv.phoneNumbers csvContent)) /\
  prefix "+" (Csv.Entry.originalNumber e) = true /\
  Csv.trim (Csv.Entry.originalNumber e) = Csv.Entry.originalNumber e.
Proof.
  cbv zeta.
  match goal with
  | |- ?P /\ _ => assert (Hin : P) by (right; left; reflexivity)
  end.
  split; [exact Hin|]. split; [reflexivity|].
  exact (proj1 (proj2 (proj2 (proj2 (converter_entries _)) _ Hin))).
Defined.
